(** * Tab Manager UI (ui.js): selection and merge state machine

    A shallow embedding of [extension_tabmanager/ui.js].  The module-level
    variables of the script become one record, the browser ([chrome.*]) is an
    interface the handlers are parametric in, and every handler is a
    computation in a small state-and-exception monad that also records the
    observable effects (host calls, alerts, redraws) in chronological order. *)

From Stdlib Require Import ZArith List String Bool Lia DecimalString Sorted Permutation.
From Stdlib Require DecimalPos DecimalZ.
Import ListNotations.
Open Scope string_scope.
Open Scope list_scope.
Open Scope Z_scope.

Set Implicit Arguments.

(** ** JavaScript values used by the script *)

(** Tab and window identifiers are JavaScript integers. *)
Definition TabId := Z.
Definition WindowId := Z.

(** [Boolean(n)] on a number: only [0] is falsy. *)
Definition Boolean (n : Z) : bool := negb (n =? 0).

(** Truthiness of a variable that holds [null]/[undefined] or a number. *)
Definition truthy (v : option Z) : bool :=
  match v with
  | Some n => Boolean n
  | None => false
  end.

(** [a || b] on such values. *)
Definition js_or (a b : option Z) : option Z := if truthy a then a else b.

(** [arr.includes(x)] on an array of numbers. *)
Fixpoint includes (arr : list Z) (x : Z) : bool :=
  match arr with
  | [] => false
  | y :: ys => (y =? x) || includes ys x
  end.

(** [Array.from(new Set(arr))]: a [Set] keeps insertion order and drops an
    element that was inserted before. *)
Definition Set_add (acc : list Z) (x : Z) : list Z :=
  if includes acc x then acc else acc ++ [x].

Definition Array_from_Set (arr : list Z) : list Z := fold_left Set_add arr [].

(** ** Host data: tabs and windows *)

Module Tab.
Record t := mk {
  id : TabId;
  windowId : WindowId;
  active : bool;
  title : string;
  url : string
}.
End Tab.

Module Window.
Record t := mk {
  id : WindowId;
  tabs : list Tab.t
}.
End Window.

(** [w.tabs.map(t => t.id)] *)
Definition tab_ids (w : Window.t) : list TabId := map Tab.id (Window.tabs w).

(** [windows.sort((a, b) => a.id - b.id)]: a stable sort, ascending by id
    (a window goes in front of the first window whose id is not smaller). *)
Fixpoint insert_window (w : Window.t) (ws : list Window.t) : list Window.t :=
  match ws with
  | [] => [w]
  | x :: xs =>
      if Window.id w <=? Window.id x then w :: x :: xs
      else x :: insert_window w xs
  end.

Definition sort_windows (ws : list Window.t) : list Window.t :=
  fold_right insert_window [] ws.

(** The order the sort establishes. *)
Definition by_id (a b : Window.t) : Prop := Window.id a <= Window.id b.

(** ** The snapshot string

    [JSON.stringify(sorted.map(w => ({ id: w.id, tabs: w.tabs.map(t => t.id) })))] *)

Definition dquote : string := String (Ascii.ascii_of_nat 34) EmptyString.

Definition json_number (n : Z) : string := NilZero.string_of_int (Z.to_int n).

Fixpoint json_join (items : list string) : string :=
  match items with
  | [] => EmptyString
  | [x] => x
  | x :: rest => (x ++ "," ++ json_join rest)%string
  end.

Definition json_array (items : list string) : string :=
  ("[" ++ json_join items ++ "]")%string.

Definition json_key (k : string) : string := (dquote ++ k ++ dquote ++ ":")%string.

Definition json_window (w : Window.t) : string :=
  ("{" ++ json_key "id" ++ json_number (Window.id w) ++ ","
       ++ json_key "tabs" ++ json_array (map json_number (tab_ids w)) ++ "}")%string.

Definition snapshot_of (sorted : list Window.t) : string :=
  json_array (map json_window sorted).

(** ** Module-level state of ui.js *)

Inductive MergeMode :=
| ModeNull     (* null: no merge in progress *)
| ModeRed      (* 'red': source staged *)
| ModeYellow.  (* 'yellow': source and target staged *)

Definition MergeMode_eqb (a b : MergeMode) : bool :=
  match a, b with
  | ModeNull, ModeNull | ModeRed, ModeRed | ModeYellow, ModeYellow => true
  | _, _ => false
  end.

Record Point := { px : Z; py : Z }.

Record State := mkState {
  windowsData : list Window.t;
  activeWindowId : option WindowId;
  lastSnapshot : option string;
  uiWindowId : option WindowId;
  blueSelection : list TabId;    (* Current selection *)
  redSelection : list TabId;     (* Merge source selection *)
  yellowSelection : list TabId;  (* Merge target selection *)
  mergeMode : MergeMode;
  isDragging : bool;
  dragStart : option Point;
  marqueeEl : bool;              (* true when the marquee element exists *)
  dragWasActive : bool
}.

Definition initial_state : State :=
  mkState [] None None None [] [] [] ModeNull false None false false.

Definition with_windowsData v (s : State) :=
  mkState v (activeWindowId s) (lastSnapshot s) (uiWindowId s) (blueSelection s)
    (redSelection s) (yellowSelection s) (mergeMode s) (isDragging s)
    (dragStart s) (marqueeEl s) (dragWasActive s).
Definition with_activeWindowId v (s : State) :=
  mkState (windowsData s) v (lastSnapshot s) (uiWindowId s) (blueSelection s)
    (redSelection s) (yellowSelection s) (mergeMode s) (isDragging s)
    (dragStart s) (marqueeEl s) (dragWasActive s).
Definition with_lastSnapshot v (s : State) :=
  mkState (windowsData s) (activeWindowId s) v (uiWindowId s) (blueSelection s)
    (redSelection s) (yellowSelection s) (mergeMode s) (isDragging s)
    (dragStart s) (marqueeEl s) (dragWasActive s).
Definition with_uiWindowId v (s : State) :=
  mkState (windowsData s) (activeWindowId s) (lastSnapshot s) v (blueSelection s)
    (redSelection s) (yellowSelection s) (mergeMode s) (isDragging s)
    (dragStart s) (marqueeEl s) (dragWasActive s).
Definition with_blueSelection v (s : State) :=
  mkState (windowsData s) (activeWindowId s) (lastSnapshot s) (uiWindowId s) v
    (redSelection s) (yellowSelection s) (mergeMode s) (isDragging s)
    (dragStart s) (marqueeEl s) (dragWasActive s).
Definition with_redSelection v (s : State) :=
  mkState (windowsData s) (activeWindowId s) (lastSnapshot s) (uiWindowId s)
    (blueSelection s) v (yellowSelection s) (mergeMode s) (isDragging s)
    (dragStart s) (marqueeEl s) (dragWasActive s).
Definition with_yellowSelection v (s : State) :=
  mkState (windowsData s) (activeWindowId s) (lastSnapshot s) (uiWindowId s)
    (blueSelection s) (redSelection s) v (mergeMode s) (isDragging s)
    (dragStart s) (marqueeEl s) (dragWasActive s).
Definition with_mergeMode v (s : State) :=
  mkState (windowsData s) (activeWindowId s) (lastSnapshot s) (uiWindowId s)
    (blueSelection s) (redSelection s) (yellowSelection s) v (isDragging s)
    (dragStart s) (marqueeEl s) (dragWasActive s).
Definition with_isDragging v (s : State) :=
  mkState (windowsData s) (activeWindowId s) (lastSnapshot s) (uiWindowId s)
    (blueSelection s) (redSelection s) (yellowSelection s) (mergeMode s) v
    (dragStart s) (marqueeEl s) (dragWasActive s).
Definition with_dragStart v (s : State) :=
  mkState (windowsData s) (activeWindowId s) (lastSnapshot s) (uiWindowId s)
    (blueSelection s) (redSelection s) (yellowSelection s) (mergeMode s)
    (isDragging s) v (marqueeEl s) (dragWasActive s).
Definition with_marqueeEl v (s : State) :=
  mkState (windowsData s) (activeWindowId s) (lastSnapshot s) (uiWindowId s)
    (blueSelection s) (redSelection s) (yellowSelection s) (mergeMode s)
    (isDragging s) (dragStart s) v (dragWasActive s).
Definition with_dragWasActive v (s : State) :=
  mkState (windowsData s) (activeWindowId s) (lastSnapshot s) (uiWindowId s)
    (blueSelection s) (redSelection s) (yellowSelection s) (mergeMode s)
    (isDragging s) (dragStart s) (marqueeEl s) v.

(** ** Observable effects *)

Inductive Effect :=
| TabsQuery (url : string)
    (* chrome.tabs.query({ url }) *)
| WindowsGetAll
    (* chrome.windows.getAll({ populate: true }) *)
| WindowsGet (windowId : WindowId)
    (* chrome.windows.get(windowId, { populate: true }) *)
| WindowsCreate (tabId : option TabId)
    (* chrome.windows.create({ tabId, state: 'normal' }) *)
| TabsMove (tabIds : list TabId) (windowId : WindowId) (index : Z)
    (* chrome.tabs.move(tabIds, { windowId, index }) *)
| WindowsUpdateFocused (windowId : WindowId)
    (* chrome.windows.update(windowId, { focused: true }) *)
| Alert (msg : string)
    (* alert(msg) *)
| ConsoleError (msg : string)
    (* console.error(msg, err) *)
| RenderWindowTabs
| RenderWindowContent
| AttachTopControls
| ShowEmptyState.

(** What a host call hands back to the script: a value, or an exception at the
    [await]. *)
Inductive Result (A : Type) :=
| Ok (a : A)
| Throw (err : string).
Arguments Ok {A} a.
Arguments Throw {A} err.

(** ** The browser as an interface

    The script only talks to [chrome.*]; what the browser does with a call is
    not part of the repository.  Calls made through
    [new Promise(resolve => chrome.f(..., resolve))] hand back whatever the
    callback receives, which is [undefined] ([None]) when the browser reports an
    error through [chrome.runtime.lastError]. *)
Class Host (H : Type) := {
  runtime_getURL : string -> H -> string;
  tabs_query : string -> H -> Result (option (list Tab.t)) * H;
  windows_getAll : H -> Result (list Window.t) * H;
  windows_get : WindowId -> H -> Result Window.t * H;
  windows_create : option TabId -> H -> Result (option Window.t) * H;
  tabs_move : list TabId -> WindowId -> Z -> H -> Result unit * H;
  windows_update_focused : WindowId -> H -> Result unit * H
}.

(** ** The world a handler runs in, and the handler monad *)

Record World (H : Type) := mkWorld {
  ui : State;            (* the script's variables *)
  host : H;              (* the browser *)
  trace : list Effect    (* effects so far, oldest first *)
}.

Section Script.

Context {H : Type} {host_ops : Host H}.

Definition M (A : Type) : Type := World H -> Result A * World H.

Definition ret {A} (a : A) : M A := fun w => (Ok a, w).

Definition bind {A B} (m : M A) (f : A -> M B) : M B :=
  fun w =>
    match m w with
    | (Ok a, w') => f a w'
    | (Throw e, w') => (Throw e, w')
    end.

Definition throw {A} (e : string) : M A := fun w => (Throw e, w).

(** [try { m } catch (err) { handler(err) }] *)
Definition try_catch {A} (m : M A) (handler : string -> M A) : M A :=
  fun w =>
    match m w with
    | (Ok a, w') => (Ok a, w')
    | (Throw e, w') => handler e w'
    end.

(** An [async] function called without [await] as the last statement of its
    caller: it runs, and a rejection of its promise reaches nobody. *)
Definition detached (m : M unit) : M unit := fun w => (Ok tt, snd (m w)).

Definition gets {A} (f : State -> A) : M A := fun w => (Ok (f (ui w)), w).

Definition modify (f : State -> State) : M unit :=
  fun w => (Ok tt, mkWorld (f (ui w)) (host w) (trace w)).

Definition emit (e : Effect) : M unit :=
  fun w => (Ok tt, mkWorld (ui w) (host w) (trace w ++ [e])).

(** A call into the browser: recorded, answered by the host. *)
Definition call {A} (e : Effect) (op : H -> Result A * H) : M A :=
  fun w =>
    let (r, h') := op (host w) in
    (r, mkWorld (ui w) h' (trace w ++ [e])).

Definition getURL (path : string) : M string :=
  fun w => (Ok (runtime_getURL path (host w)), w).

Notation "x <- m ;; k" := (bind m (fun x => k))
  (at level 61, m at next level, right associativity).
Notation "m ;; k" := (bind m (fun _ => k))
  (at level 61, right associativity).

Definition alert (msg : string) : M unit := emit (Alert msg).
Definition console_error (msg : string) : M unit := emit (ConsoleError msg).

Definition chrome_tabs_query (url : string) := call (TabsQuery url) (tabs_query url).
Definition chrome_windows_getAll := call WindowsGetAll windows_getAll.
Definition chrome_windows_get (id : WindowId) := call (WindowsGet id) (windows_get id).
Definition chrome_windows_create (tabId : option TabId) :=
  call (WindowsCreate tabId) (windows_create tabId).
Definition chrome_tabs_move (ids : list TabId) (windowId : WindowId) (index : Z) :=
  call (TabsMove ids windowId index) (tabs_move ids windowId index).
Definition chrome_windows_update_focused (id : WindowId) :=
  call (WindowsUpdateFocused id) (windows_update_focused id).

(** ** Rendering

    The renderer reads the state and writes the DOM; it assigns none of the
    script's variables.  Only the fact that a redraw happened is recorded. *)

Definition attachTopControls : M unit := emit AttachTopControls.

Definition renderWindowTabs : M unit :=
  emit RenderWindowTabs ;; attachTopControls.

Definition renderWindowContent : M unit :=
  emit RenderWindowContent ;; renderWindowTabs.

Definition showEmptyState : M unit := emit ShowEmptyState.

(** ** Sync engine *)

Definition refreshUiWindowId : M (option WindowId) :=
  try_catch
    (url <- getURL "ui.html" ;;
     tabs <- chrome_tabs_query url ;;
     match tabs with
     | Some (t0 :: _) => modify (with_uiWindowId (Some (Tab.windowId t0)))
     | _ => ret tt
     end)
    (fun _ => ret tt) ;;
  gets uiWindowId.

(** [lastSnapshot === snapshot] *)
Definition same_snapshot (last : option string) (snapshot : string) : bool :=
  match last with
  | Some s => String.eqb s snapshot
  | None => false
  end.

Definition loadWindowsAndTabs : M unit :=
  refreshUiWindowId ;;
  try_catch
    (windows <- chrome_windows_getAll ;;
     let sorted := sort_windows windows in
     let snapshot := snapshot_of sorted in
     last <- gets lastSnapshot ;;
     if same_snapshot last snapshot then ret tt
     else
       modify (with_lastSnapshot (Some snapshot)) ;;
       modify (with_windowsData sorted) ;;
       wd <- gets windowsData ;;
       match wd with
       | [] => showEmptyState
       | w0 :: _ =>
           active <- gets activeWindowId ;;
           (if negb (truthy active)
            then modify (with_activeWindowId (Some (Window.id w0)))
            else ret tt) ;;
           renderWindowTabs ;;
           renderWindowContent ;;
           attachTopControls
       end)
    (fun _ => console_error "Error loading windows:").

(** ** Selection gestures *)

(** [if (!sel.includes(id)) sel.push(id)] *)
Definition add_if_absent (sel : list TabId) (id : TabId) : list TabId :=
  if includes sel id then sel else sel ++ [id].

(** [windowsData.find(w => w.id === windowId)] *)
Definition find_window (windowId : WindowId) (wd : list Window.t) : option Window.t :=
  find (fun w => Window.id w =? windowId) wd.

Definition toggleTabSelection (tabId : TabId) : M unit :=
  blue <- gets blueSelection ;;
  if includes blue tabId
  then modify (with_blueSelection (filter (fun id => negb (id =? tabId)) blue))
  else modify (with_blueSelection (blue ++ [tabId])).

Definition selectAllTabsInWindow (windowId : WindowId) : M unit :=
  wd <- gets windowsData ;;
  match find_window windowId wd with
  | Some window =>
      blue <- gets blueSelection ;;
      modify (with_blueSelection (blue ++ tab_ids window)) ;;
      renderWindowTabs ;;
      renderWindowContent
  | None => ret tt
  end.

Definition toggleAllTabsInWindow (windowId : WindowId) : M unit :=
  wd <- gets windowsData ;;
  match find_window windowId wd with
  | None => ret tt
  | Some window =>
      let tabIds := tab_ids window in
      blue <- gets blueSelection ;;
      let allSelected := forallb (includes blue) tabIds in
      (if allSelected
       then modify (with_blueSelection
                      (filter (fun id => negb (includes tabIds id)) blue))
       else modify (with_blueSelection (fold_left add_if_absent tabIds blue))) ;;
      renderWindowTabs ;;
      renderWindowContent
  end.

(** The [click] listener of a window header built by [renderWindowTabs]. *)
Definition windowTab_click (windowId : WindowId) (ctrlKey metaKey : bool) : M unit :=
  if ctrlKey || metaKey then
    toggleAllTabsInWindow windowId ;;
    renderWindowTabs ;;
    renderWindowContent
  else
    modify (with_activeWindowId (Some windowId)) ;;
    renderWindowTabs ;;
    renderWindowContent.

(** The [dblclick] listener of a window header. *)
Definition windowTab_dblclick (windowId : WindowId) : M unit :=
  modify (with_activeWindowId (Some windowId)) ;;
  selectAllTabsInWindow windowId ;;
  renderWindowTabs ;;
  renderWindowContent.

(** The [click] listener of a tab card built by [createPageCard]. *)
Definition card_click (tabId : TabId) (ctrlKey metaKey : bool) : M unit :=
  red <- gets redSelection ;;
  yellow <- gets yellowSelection ;;
  if negb (includes red tabId) && negb (includes yellow tabId) then
    dwa <- gets dragWasActive ;;
    if dwa then modify (with_dragWasActive false)
    else if ctrlKey || metaKey then toggleTabSelection tabId
    else modify (with_blueSelection [tabId])
  else ret tt.

(** The [keydown] listener. *)
Definition keydown (key : string) : M unit :=
  if String.eqb key "Escape" then
    modify (with_blueSelection []) ;;
    modify (with_redSelection []) ;;
    modify (with_yellowSelection []) ;;
    modify (with_mergeMode ModeNull) ;;
    renderWindowContent
  else ret tt.

(** ** Top controls: Merge, Merge All, Split *)

(** [newWin.id] where [newWin] may be [undefined]. *)
Definition window_id_of (newWin : option Window.t) : M WindowId :=
  match newWin with
  | Some w => ret (Window.id w)
  | None => throw "TypeError: Cannot read properties of undefined (reading 'id')"
  end.

(** Body of the [try] block of stage 3 of [mergeBtn.onclick]. *)
Definition merge_execute : M unit :=
  red <- gets redSelection ;;
  yellow <- gets yellowSelection ;;
  let combined := red ++ yellow in
  let firstTabId := nth_error combined 0 in
  newWin <- chrome_windows_create firstTabId ;;
  let remaining := skipn 1 combined in
  (if (0 <? List.length remaining)%nat
   then windowId <- window_id_of newWin ;;
        chrome_tabs_move remaining windowId (-1)
   else ret tt) ;;
  modify (with_mergeMode ModeNull) ;;
  modify (with_redSelection []) ;;
  modify (with_yellowSelection []) ;;
  detached loadWindowsAndTabs.

Definition mergeBtn_onclick : M unit :=
  refreshUiWindowId ;;
  blue <- gets blueSelection ;;
  mode <- gets mergeMode ;;
  if (List.length blue =? 0)%nat && negb (MergeMode_eqb mode ModeYellow) then
    alert "No tabs selected"
  else
    match mode with
    | ModeNull =>
        (* Stage 1: mark blue selection as red (source) *)
        modify (with_redSelection blue) ;;
        modify (with_blueSelection []) ;;
        modify (with_mergeMode ModeRed) ;;
        renderWindowContent
    | ModeRed =>
        (* Stage 2: mark current selection as yellow (target) *)
        modify (with_yellowSelection blue) ;;
        modify (with_blueSelection []) ;;
        modify (with_mergeMode ModeYellow) ;;
        renderWindowContent ;;
        yellow <- gets yellowSelection ;;
        if (List.length yellow =? 0)%nat then
          alert "No target tabs selected" ;;
          modify (with_mergeMode ModeRed) ;;
          renderWindowContent
        else ret tt
    | ModeYellow =>
        try_catch merge_execute
          (fun _ =>
             console_error "Merge failed:" ;;
             alert "Merge failed" ;;
             modify (with_mergeMode ModeNull) ;;
             modify (with_redSelection []) ;;
             modify (with_yellowSelection []) ;;
             renderWindowContent)
    end.

Definition mergeFromWindow (targetWindowId sourceWindowId : WindowId) : M unit :=
  if sourceWindowId =? targetWindowId then ret tt
  else
    source <- chrome_windows_get sourceWindowId ;;
    let tabIds := filter Boolean (tab_ids source) in
    if (List.length tabIds =? 0)%nat then ret tt
    else
      chrome_tabs_move tabIds targetWindowId (-1) ;;
      chrome_windows_update_focused targetWindowId.

(** [for (const win of windowsData) { if (win.id === target) continue;
      await mergeFromWindow(target, win.id); }] *)
Fixpoint mergeAll_loop (targetWindowId : WindowId) (wins : list Window.t) : M unit :=
  match wins with
  | [] => ret tt
  | win :: rest =>
      (if Window.id win =? targetWindowId then ret tt
       else mergeFromWindow targetWindowId (Window.id win)) ;;
      mergeAll_loop targetWindowId rest
  end.

(** [uiWindowId || activeWindowId || (windowsData[0] && windowsData[0].id)] *)
Definition mergeAll_target (s : State) : option WindowId :=
  js_or (uiWindowId s)
    (js_or (activeWindowId s)
       (match windowsData s with
        | w0 :: _ => Some (Window.id w0)
        | [] => None
        end)).

Definition mergeAllBtn_onclick : M unit :=
  refreshUiWindowId ;;
  target <- gets mergeAll_target ;;
  match target with
  | Some targetWindowId =>
      if Boolean targetWindowId then
        try_catch
          (wd <- gets windowsData ;;
           mergeAll_loop targetWindowId wd ;;
           detached loadWindowsAndTabs)
          (fun _ =>
             console_error "Merge All failed:" ;;
             alert "Merge All failed")
      else alert "No target window to merge into"
  | None => alert "No target window to merge into"
  end.

(** Body of the [try] block of [splitBtn.onclick]. *)
Definition split_execute : M unit :=
  blue <- gets blueSelection ;;
  let firstTabId := hd_error blue in   (* tabsToMove.shift() *)
  let tabsToMove := tl blue in
  newWin <- chrome_windows_create firstTabId ;;
  (if (0 <? List.length tabsToMove)%nat
   then windowId <- window_id_of newWin ;;
        chrome_tabs_move tabsToMove windowId (-1)
   else ret tt) ;;
  modify (with_blueSelection []) ;;
  renderWindowContent ;;
  detached loadWindowsAndTabs.

Definition splitBtn_onclick : M unit :=
  refreshUiWindowId ;;
  blue <- gets blueSelection ;;
  if (List.length blue =? 0)%nat then alert "No tabs selected"
  else
    try_catch split_execute
      (fun _ =>
         console_error "Split failed:" ;;
         alert "Split failed").

(** ** Drag (marquee) selection *)

Record Rect := { left : Z; top : Z; right : Z; bottom : Z }.

Record Card := { card_tabId : TabId; card_rect : Rect }.

Record MouseEvent := {
  button : Z;
  clientX : Z;
  clientY : Z;
  shiftKey : bool;
  ctrlKey : bool;
  metaKey : bool;
  on_close_btn : bool   (* e.target.closest('.page-card-close-btn') *)
}.

Definition rectsIntersect (a b : Rect) : bool :=
  negb ((left a >? right b) || (right a <? left b)
        || (top a >? bottom b) || (bottom a <? top b)).

Definition mousedown (e : MouseEvent) : M unit :=
  if negb (button e =? 0) then ret tt
  else if on_close_btn e then ret tt
  else
    modify (with_isDragging true) ;;
    modify (with_dragWasActive false) ;;
    modify (with_dragStart (Some {| px := clientX e; py := clientY e |})) ;;
    modify (with_marqueeEl true).

Definition mousemove (e : MouseEvent) : M unit :=
  dragging <- gets isDragging ;;
  marquee <- gets marqueeEl ;;
  if negb dragging || negb marquee then ret tt
  else
    modify (with_dragWasActive true) ;;
    start <- gets dragStart ;;
    match start with
    | None => throw "TypeError: Cannot read properties of null (reading 'x')"
    | Some _ => ret tt   (* the marquee and the temporary highlight: page only *)
    end.

(** The marquee rectangle spanned by the anchor and the pointer. *)
Definition marquee_rect (start : Point) (e : MouseEvent) : Rect :=
  {| left := Z.min (px start) (clientX e);
     top := Z.min (py start) (clientY e);
     right := Z.max (px start) (clientX e);
     bottom := Z.max (py start) (clientY e) |}.

(** Ids pushed to [selectedIds] by the loop over the cards of the content area. *)
Definition intersecting_ids (marqueeClient : Rect) (cards : list Card) : list TabId :=
  map card_tabId (filter (fun c => rectsIntersect marqueeClient (card_rect c)) cards).

(** [endDrag(e)], with [cards] the cards [container.querySelectorAll('.page-card')]
    finds, up to the point where the timer is set. *)
Definition endDrag (e : MouseEvent) (cards : list Card) : M unit :=
  dragging <- gets isDragging ;;
  if negb dragging then ret tt
  else
    modify (with_isDragging false) ;;
    start <- gets dragStart ;;
    match start with
    | None => throw "TypeError: Cannot read properties of null (reading 'x')"
    | Some p =>
        let selectedIds := intersecting_ids (marquee_rect p e) cards in
        (if (0 <? List.length selectedIds)%nat then
           if shiftKey e || metaKey e then
             blue <- gets blueSelection ;;
             modify (with_blueSelection (Array_from_Set (blue ++ selectedIds)))
           else if negb (ctrlKey e) then
             modify (with_blueSelection selectedIds)
           else ret tt
         else ret tt) ;;
        modify (with_marqueeEl false)
    end.

(** The callback [endDrag] hands to [setTimeout(..., 0)]. *)
Definition endDrag_timeout : M unit :=
  modify (with_dragWasActive false) ;;
  renderWindowContent.

(** ** Functions beside the handlers *)

(** [getWindowIdForTabs(tabIds)]: the inner loop over the tabs of one window. *)
Fixpoint window_has_tab_in (tabIds : list TabId) (tabs : list Tab.t) : bool :=
  match tabs with
  | [] => false
  | tab :: rest => if includes tabIds (Tab.id tab) then true
                   else window_has_tab_in tabIds rest
  end.

(** The outer loop, over the windows of the mirror: the first hit returns. *)
Fixpoint getWindowIdForTabs_in (tabIds : list TabId) (wins : list Window.t)
  : option WindowId :=
  match wins with
  | [] => None
  | win :: rest =>
      if window_has_tab_in tabIds (Window.tabs win) then Some (Window.id win)
      else getWindowIdForTabs_in tabIds rest
  end.

Definition getWindowIdForTabs (tabIds : list TabId) : M (option WindowId) :=
  wd <- gets windowsData ;;
  ret (getWindowIdForTabs_in tabIds wd).

(** [chrome.windows.create(...)] awaited without a callback: an error the
    browser reports rejects the promise. *)
Definition chrome_windows_create_awaited (tabId : option TabId) : M Window.t :=
  newWin <- chrome_windows_create tabId ;;
  match newWin with
  | Some w => ret w
  | None => throw "Error: window creation failed"
  end.

(** [win.tabs.find(t => t.active) || win.tabs[0]] *)
Definition active_or_first (tabs : list Tab.t) : option Tab.t :=
  match find Tab.active tabs with
  | Some t => Some t
  | None => hd_error tabs
  end.

Definition splitCurrentWindow (windowId : WindowId) (option : string) : M unit :=
  win <- chrome_windows_get windowId ;;
  if (List.length (Window.tabs win) <=? 1)%nat then alert "Not enough tabs to split"
  else
    match active_or_first (Window.tabs win) with
    | None => throw "TypeError: Cannot read properties of undefined (reading 'id')"
    | Some activeTab =>
        (if String.eqb option "others-to-new" then
           let otherTabIds :=
             map Tab.id
               (filter (fun t => negb (Tab.id t =? Tab.id activeTab)) (Window.tabs win)) in
           let firstId := hd_error otherTabIds in   (* otherTabIds.shift() *)
           let otherTabIds := tl otherTabIds in
           newWin <- chrome_windows_create firstId ;;
           (if (0 <? List.length otherTabIds)%nat
            then windowId <- window_id_of newWin ;;
                 chrome_tabs_move otherTabIds windowId (-1)
            else ret tt) ;;
           newId <- window_id_of newWin ;;
           chrome_windows_update_focused newId
         else if String.eqb option "active-to-new" then
           chrome_windows_create_awaited (Some (Tab.id activeTab)) ;; ret tt
         else ret tt) ;;
        detached loadWindowsAndTabs
    end.

(** The colour [updateCardSelectionState] gives a card, and whether it adds
    the "selected" badge. *)
Inductive Colour := Red | Yellow | Blue.

Definition updateCardSelectionState (s : State) (tabId : TabId) : option Colour * bool :=
  if includes (redSelection s) tabId then (Some Red, true)
  else if includes (yellowSelection s) tabId then (Some Yellow, true)
  else if includes (blueSelection s) tabId then (Some Blue, false)
  else (None, false).

(** The selection colour [renderWindowTabs] gives the header of a window:
    only a window with tabs gets one, when all its tabs are in one selection. *)
Definition window_tab_colour (s : State) (windowData : Window.t) : option Colour :=
  let tabIds := tab_ids windowData in
  if (0 <? List.length tabIds)%nat then
    if forallb (includes (redSelection s)) tabIds then Some Red
    else if forallb (includes (yellowSelection s)) tabIds then Some Yellow
    else if forallb (includes (blueSelection s)) tabIds then Some Blue
    else None
  else None.

(** ** The listeners the script registers *)

Inductive Event :=
| Keydown (key : string)
| HostChanged   (* DOMContentLoaded and chrome.tabs/windows.on*: loadWindowsAndTabs *)
| WindowTabClick (windowId : WindowId) (ctrlKey metaKey : bool)
| WindowTabDblclick (windowId : WindowId)
| CardClick (tabId : TabId) (ctrlKey metaKey : bool)
| MergeClick
| MergeAllClick
| SplitClick
| Mousedown (e : MouseEvent)
| Mousemove (e : MouseEvent)
| Mouseup (e : MouseEvent) (cards : list Card)   (* mouseup and mouseleave: endDrag *)
| DragTimeout
| ModalSplit (windowId : WindowId) (option : string).

Definition handle (ev : Event) : M unit :=
  match ev with
  | Keydown key => keydown key
  | HostChanged => loadWindowsAndTabs
  | WindowTabClick windowId ctrl meta => windowTab_click windowId ctrl meta
  | WindowTabDblclick windowId => windowTab_dblclick windowId
  | CardClick tabId ctrl meta => card_click tabId ctrl meta
  | MergeClick => mergeBtn_onclick
  | MergeAllClick => mergeAllBtn_onclick
  | SplitClick => splitBtn_onclick
  | Mousedown e => mousedown e
  | Mousemove e => mousemove e
  | Mouseup e cards => endDrag e cards
  | DragTimeout => endDrag_timeout
  | ModalSplit windowId option => splitCurrentWindow windowId option
  end.

(** The script's state after a sequence of events, oldest first. *)
Fixpoint run (evs : list Event) (w : World H) : World H :=
  match evs with
  | [] => w
  | ev :: rest => run rest (snd (handle ev w))
  end.

(** The listeners one click on the card of [tabId] runs, in the order the
    page delivers them.  The cards are children of [#windowContent]
    ([renderWindowContent] appends them), so the press and the release reach
    the container's [mousedown] and [mouseup] listeners, then the card's own
    [click] listener runs, and the timer set by [endDrag] fires after that.
    [cards] are the cards of the content area at the release. *)
Definition card_click_gesture (e : MouseEvent) (cards : list Card) (tabId : TabId)
  : list Event :=
  [Mousedown e; Mouseup e cards; CardClick tabId (ctrlKey e) (metaKey e); DragTimeout].

(** The ids [endDrag] collects for a release at the press point of [e]: those
    of the cards under the pointer. *)
Definition under_pointer (e : MouseEvent) (cards : list Card) : list TabId :=
  intersecting_ids (marquee_rect {| px := clientX e; py := clientY e |} e) cards.

End Script.

Arguments M H : clear implicits.

(** ** Browsers to run the script against *)

(** Modelled from the spec: the browser behind [chrome.*] is not code of this
    repository; this instance follows the host collaborator surface of the
    specification (section 6): creating a window seeded with a tab moves that
    tab out of its prior window, moving tabs appends them to the destination
    in the order given, and a window that lost all its tabs stays listed (as
    in the scenarios of section 8).  A call naming a tab or window that does
    not exist fails.  The instance is used to run the handlers on concrete
    inputs only; the theorems hold for every instance of [Host]. *)
Module Browser.

Record t := mk {
  windows : list Window.t;
  nextWindowId : WindowId;
  nextTabId : TabId;
  focused : option WindowId
}.

Definition all_tabs (b : t) : list Tab.t := flat_map Window.tabs (windows b).

Definition find_tab (id : TabId) (b : t) : option Tab.t :=
  find (fun tb => Tab.id tb =? id) (all_tabs b).

Definition detach (id : TabId) (ws : list Window.t) : list Window.t :=
  map (fun w => Window.mk (Window.id w)
                  (filter (fun tb => negb (Tab.id tb =? id)) (Window.tabs w))) ws.

Definition rehome (windowId : WindowId) (tb : Tab.t) : Tab.t :=
  Tab.mk (Tab.id tb) windowId (Tab.active tb) (Tab.title tb) (Tab.url tb).

Definition attach (tb : Tab.t) (windowId : WindowId) (ws : list Window.t)
  : list Window.t :=
  map (fun w => if Window.id w =? windowId
                then Window.mk (Window.id w) (Window.tabs w ++ [rehome windowId tb])
                else w) ws.

Definition has_window (windowId : WindowId) (b : t) : bool :=
  existsb (fun w => Window.id w =? windowId) (windows b).

Definition getURL (path : string) (b : t) : string :=
  ("chrome-extension://tabmanager/" ++ path)%string.

Definition query (url : string) (b : t) : Result (option (list Tab.t)) * t :=
  (Ok (Some (filter (fun tb => String.eqb (Tab.url tb) url) (all_tabs b))), b).

Definition getAll (b : t) : Result (list Window.t) * t := (Ok (windows b), b).

Definition get (windowId : WindowId) (b : t) : Result Window.t * t :=
  match find_window windowId (windows b) with
  | Some w => (Ok w, b)
  | None => (Throw "No window with id", b)
  end.

Definition create (tabId : option TabId) (b : t) : Result (option Window.t) * t :=
  let wid := nextWindowId b in
  match tabId with
  | None =>
      let w := Window.mk wid [Tab.mk (nextTabId b) wid true "New Tab" "chrome://newtab/"] in
      (Ok (Some w), mk (windows b ++ [w]) (wid + 1) (nextTabId b + 1) (Some wid))
  | Some id =>
      match find_tab id b with
      | None => (Ok None, b)   (* chrome.runtime.lastError: callback gets undefined *)
      | Some tb =>
          let w := Window.mk wid [rehome wid tb] in
          (Ok (Some w),
           mk (detach id (windows b) ++ [w]) (wid + 1) (nextTabId b) (Some wid))
      end
  end.

Fixpoint move_each (ids : list TabId) (windowId : WindowId) (b : t) : Result unit * t :=
  match ids with
  | [] => (Ok tt, b)
  | id :: rest =>
      match find_tab id b with
      | None => (Throw "No tab with id", b)
      | Some tb =>
          move_each rest windowId
            (mk (attach tb windowId (detach id (windows b)))
                (nextWindowId b) (nextTabId b) (focused b))
      end
  end.

(** The script only ever asks for [index = -1], the end of the window. *)
Definition move (ids : list TabId) (windowId : WindowId) (index : Z) (b : t)
  : Result unit * t :=
  if has_window windowId b then move_each ids windowId b
  else (Throw "No window with id", b).

Definition focus (windowId : WindowId) (b : t) : Result unit * t :=
  if has_window windowId b
  then (Ok tt, mk (windows b) (nextWindowId b) (nextTabId b) (Some windowId))
  else (Throw "No window with id", b).

#[global] Instance host : Host t := {
  runtime_getURL := getURL;
  tabs_query := query;
  windows_getAll := getAll;
  windows_get := get;
  windows_create := create;
  tabs_move := move;
  windows_update_focused := focus
}.

(** Windows as (id, tab ids), for reading off a result. *)
Definition shape (b : t) : list (WindowId * list TabId) :=
  map (fun w => (Window.id w, tab_ids w)) (windows b).

Definition page (id : TabId) (windowId : WindowId) : Tab.t :=
  Tab.mk id windowId false "page" "https://example.org/".

Definition ui_page (id : TabId) (windowId : WindowId) : Tab.t :=
  Tab.mk id windowId true "Tab Manager" "chrome-extension://tabmanager/ui.html".

Definition window_of (windowId : WindowId) (ids : list TabId) : Window.t :=
  Window.mk windowId (map (fun id => page id windowId) ids).

End Browser.

(** A browser that rejects every call (the extension context is gone). *)
Module Offline.

Definition gone {A} (h : unit) : Result A * unit :=
  (Throw "Extension context invalidated.", h).

#[global] Instance host : Host unit := {
  runtime_getURL := fun path _ => path;
  tabs_query := fun _ => gone;
  windows_getAll := gone;
  windows_get := fun _ => gone;
  windows_create := fun _ => gone;
  tabs_move := fun _ _ _ => gone;
  windows_update_focused := fun _ => gone
}.

End Offline.

(** A browser that serves every call as [Browser] does, except that it
    refuses to change the focused window. *)
Module Kiosk.

Record t := mk { browser : Browser.t }.

Definition lift {A} (r : Result A * Browser.t) : Result A * t := (fst r, mk (snd r)).

#[global] Instance host : Host t := {
  runtime_getURL := fun path k => Browser.getURL path (browser k);
  tabs_query := fun url k => lift (Browser.query url (browser k));
  windows_getAll := fun k => lift (Browser.getAll (browser k));
  windows_get := fun id k => lift (Browser.get id (browser k));
  windows_create := fun tabId k => lift (Browser.create tabId (browser k));
  tabs_move := fun ids id index k => lift (Browser.move ids id index (browser k));
  windows_update_focused := fun _ k => (Throw "Focus change refused", k)
}.

End Kiosk.

(** A handler's world at the start of a run: no effect recorded yet. *)
Definition start {H} (s : State) (h : H) : World H := mkWorld s h [].

(** ** Concrete situations *)
Module Demo.

(** Two windows, [10 = [1,2,3]] and [20 = [4,5]]. *)
Definition two_windows : Browser.t :=
  Browser.mk [Browser.window_of 10 [1; 2; 3]; Browser.window_of 20 [4; 5]] 21 100 None.

(** The script's state once it mirrors the windows of [b], showing [active]. *)
Definition mirroring (b : Browser.t) (active : WindowId) : State :=
  with_windowsData (sort_windows (Browser.windows b))
    (with_activeWindowId (Some active) initial_state).

Definition selecting (blue red yellow : list TabId) (mode : MergeMode) (s : State) : State :=
  with_mergeMode mode
    (with_yellowSelection yellow (with_redSelection red (with_blueSelection blue s))).

(** Source [1] and Target [4] staged, nothing selected since. *)
Definition target_staged : World Browser.t :=
  start (selecting [] [1] [4] ModeYellow (mirroring two_windows 10)) two_windows.

(** The same, with tab [2] selected after the target was staged. *)
Definition target_staged_then_selected : World Browser.t :=
  start (selecting [2] [1] [4] ModeYellow (mirroring two_windows 10)) two_windows.

(** Source [1] staged, Current empty. *)
Definition source_staged_empty : World Browser.t :=
  start (selecting [] [1] [] ModeRed (mirroring two_windows 10)) two_windows.

(** Idle, with [blue] as Current. *)
Definition idle_with (blue : list TabId) : World Browser.t :=
  start (selecting blue [] [] ModeNull (mirroring two_windows 10)) two_windows.

(** Idle with a stale Current: tab [99] exists in no window. *)
Definition stale_single : World Browser.t := idle_with [99].
Definition stale_first : World Browser.t := idle_with [99; 2].
Definition stale_second : World Browser.t := idle_with [1; 99].

(** A browser whose first answer to any creating call is an exception. *)
Definition offline_with (blue : list TabId) : World unit :=
  start (selecting blue [] [] ModeNull initial_state) tt.

(** The extension page (tab [1]) in window [1], window [2 = [2,3]], and an
    empty window [3]. *)
Definition three_windows : Browser.t :=
  Browser.mk [Window.mk 1 [Browser.ui_page 1 1];
              Browser.window_of 2 [2; 3];
              Browser.window_of 3 []] 4 100 None.

Definition before_merge_all : World Browser.t :=
  start (mirroring three_windows 2) three_windows.

(** A mirror that still lists window [9], closed in the meantime, between
    windows [2] and [30 = [7]]. *)
Definition after_close : Browser.t :=
  Browser.mk [Window.mk 1 [Browser.ui_page 1 1];
              Browser.window_of 2 [2; 3];
              Browser.window_of 30 [7]] 31 100 None.

Definition stale_mirror : World Browser.t :=
  start (with_windowsData
           [Window.mk 1 [Browser.ui_page 1 1]; Browser.window_of 2 [2; 3];
            Browser.window_of 9 [5]; Browser.window_of 30 [7]]
           (with_activeWindowId (Some 2) initial_state))
        after_close.

(** The state after the first load of [two_windows]. *)
Definition loaded : World Browser.t :=
  snd (loadWindowsAndTabs (start initial_state two_windows)).

(** The browser lists window 20 before window 10. *)
Definition unsorted : Browser.t :=
  Browser.mk [Browser.window_of 20 [4; 5]; Browser.window_of 10 [1; 2; 3]] 21 100 None.

(** The mirror is filled but no window is active. *)
Definition no_active : World Browser.t :=
  start (with_windowsData (Browser.windows two_windows) initial_state) two_windows.

Definition in_kiosk : World Kiosk.t :=
  start (mirroring three_windows 2) (Kiosk.mk three_windows).

(** A drag from (0,0) to (50,50) over two cards; only the card of tab [2]
    is under the marquee. *)
Definition cards : list Card :=
  [ {| card_tabId := 2; card_rect := {| left := 10; top := 10; right := 40; bottom := 40 |} |};
    {| card_tabId := 3; card_rect := {| left := 60; top := 10; right := 90; bottom := 40 |} |} ].

Definition release (shift ctrl meta : bool) : MouseEvent :=
  {| button := 0; clientX := 50; clientY := 50;
     shiftKey := shift; ctrlKey := ctrl; metaKey := meta; on_close_btn := false |}.

Definition dragging_with (blue : list TabId) : World unit :=
  start (with_marqueeEl true
           (with_dragStart (Some {| px := 0; py := 0 |})
              (with_isDragging true
                 (with_blueSelection blue (mirroring two_windows 10))))) tt.

(** A press of the left button at (0,0), away from any close button. *)
Definition press : MouseEvent :=
  {| button := 0; clientX := 0; clientY := 0;
     shiftKey := false; ctrlKey := false; metaKey := false; on_close_btn := false |}.

(** Source [1] and Target [4] staged while the extension context is gone. *)
Definition offline_staged : World unit :=
  start (selecting [] [1] [4] ModeYellow initial_state) tt.

(** The first load, then tab [1] staged as Source and tab [4] as Target. *)
Definition staging_run : list Event :=
  [HostChanged; CardClick 1 false false; MergeClick; CardClick 4 false false; MergeClick].

(** After the first load, the browser lists the same windows, 20 first. *)
Definition relisted : World Browser.t := mkWorld (ui loaded) unsorted [].

(** After the first load, tab [2] got another title and became the active
    tab of its window. *)
Definition retitled : World Browser.t :=
  mkWorld (ui loaded)
    (Browser.mk [Window.mk 10 [Browser.page 1 10;
                               Tab.mk 2 10 true "Inbox" "https://example.org/mail";
                               Browser.page 3 10];
                 Browser.window_of 20 [4; 5]] 21 100 None)
    [].

(** After the first load, tab [3] was dragged in front of tab [2]. *)
Definition reordered : World Browser.t :=
  mkWorld (ui loaded)
    (Browser.mk [Browser.window_of 10 [1; 3; 2]; Browser.window_of 20 [4; 5]] 21 100 None)
    [].

(** A click (press and release) at (20,20), on the card of tab [2]. *)
Definition click_card2 (shift ctrl meta : bool) : MouseEvent :=
  {| button := 0; clientX := 20; clientY := 20;
     shiftKey := shift; ctrlKey := ctrl; metaKey := meta; on_close_btn := false |}.

(** Source [2] staged, Current empty. *)
Definition source_2_staged : World Browser.t :=
  start (selecting [] [2] [] ModeRed (mirroring two_windows 10)) two_windows.

End Demo.

(** Side conditions at a concrete situation are settled by running the script. *)
Ltac by_running :=
  cbn; first [ reflexivity | lia | discriminate
             | vm_compute; reflexivity
             | repeat constructor; cbn; lia ].

(** * Properties *)

Section Properties.

Context {H : Type} {host_ops : Host H}.

(** The three selections and the merge stage, together. *)
Definition selections (s : State) : list TabId * list TabId * list TabId * MergeMode :=
  (blueSelection s, redSelection s, yellowSelection s, mergeMode s).

(** The effects of one redraw of the content area. *)
Definition redraw : list Effect := [RenderWindowContent; RenderWindowTabs; AttachTopControls].

(** The URL of the extension page, as the host spells it. *)
Definition ui_url (w : World H) : string := runtime_getURL "ui.html" (host w).

(** The call that moves the ids left after the seed; none when there is no
    id left ([if (remaining.length > 0)]). *)
Definition move_effects (rest : list TabId) (windowId : WindowId) : list Effect :=
  match rest with
  | [] => []
  | _ :: _ => [TabsMove rest windowId (-1)]
  end.

(** The browser accepts that move and goes from [h1] to [h2]. *)
Definition move_accepted (rest : list TabId) (windowId : WindowId) (h1 h2 : H) : Prop :=
  match rest with
  | [] => h2 = h1
  | _ :: _ => tabs_move rest windowId (-1) h1 = (Ok tt, h2)
  end.

(** The world [v] after further calls that left the browser in [h]. *)
Definition after_calls (v : World H) (h : H) (calls : list Effect) : World H :=
  mkWorld (ui v) h (trace v ++ calls).

(** No run of [m] records the effect [e]. *)
Definition never_records {A} (e : Effect) (m : M H A) : Prop :=
  forall w, exists recorded,
    trace (snd (m w)) = trace w ++ recorded /\ ~ In e recorded.

(** The two effects of a [catch] block: the log line and the notice. *)
Definition failure_notice (log msg : string) : list Effect :=
  [ConsoleError log; Alert msg].

(** [m] leaves the component [proj] of the script's state as it is. *)
Definition keeps {X A} (proj : State -> X) (m : M H A) : Prop :=
  forall w, proj (ui (snd (m w))) = proj (ui w).

(** [m] hands the browser back as it got it. *)
Definition keeps_host {A} (m : M H A) : Prop :=
  forall w, host (snd (m w)) = host w.

(** Every effect a run of [m] records is one of the [allowed] ones. *)
Definition only_records {A} (allowed : Effect -> bool) (m : M H A) : Prop :=
  forall w, exists recorded,
    trace (snd (m w)) = trace w ++ recorded /\ forallb allowed recorded = true.

(** Redraws: effects on the page only. *)
Definition is_redraw (e : Effect) : bool :=
  match e with
  | RenderWindowTabs | RenderWindowContent | AttachTopControls | ShowEmptyState => true
  | _ => false
  end.

(** The reads of the refresh, its log line and its redraws. *)
Definition is_read_or_redraw (e : Effect) : bool :=
  match e with
  | TabsQuery _ | WindowsGetAll | ConsoleError _ => true
  | _ => is_redraw e
  end.

(** The staged side of the selections. *)
Definition staged (s : State) : list TabId * list TabId * MergeMode :=
  (redSelection s, yellowSelection s, mergeMode s).

(** The merge stage and the two staged selections agree. *)
Definition stage_ok (s : State) : Prop :=
  match mergeMode s with
  | ModeNull => redSelection s = [] /\ yellowSelection s = []
  | ModeRed => redSelection s <> [] /\ yellowSelection s = []
  | ModeYellow => redSelection s <> [] /\ yellowSelection s <> []
  end.

(** The window mirror and the cached snapshot. *)
Definition mirror (s : State) : list Window.t * option string :=
  (windowsData s, lastSnapshot s).

(** The mirror is sorted by window id and the cached snapshot is its own. *)
Definition mirror_ok (s : State) : Prop :=
  StronglySorted by_id (windowsData s) /\
  (lastSnapshot s = None /\ windowsData s = [] \/
   lastSnapshot s = Some (snapshot_of (windowsData s))).

(** What the snapshot string is made from. *)
Definition shape (ws : list Window.t) : list (WindowId * list TabId) :=
  map (fun w => (Window.id w, tab_ids w)) ws.

(** A point of the page lies in a rectangle, borders included. *)
Definition contains (r : Rect) (x y : Z) : Prop :=
  left r <= x <= right r /\ top r <= y <= bottom r.

Definition well_formed (r : Rect) : Prop := left r <= right r /\ top r <= bottom r.

(** The listeners that only edit the selections or the drag state. *)
Definition is_gesture (ev : Event) : bool :=
  match ev with
  | Keydown _ | WindowTabClick _ _ _ | WindowTabDblclick _ | CardClick _ _ _
  | Mousedown _ | Mousemove _ | Mouseup _ _ | DragTimeout => true
  | _ => false
  end.

(** [m] takes a state where [I] holds to a state where [I] holds. *)
Definition maintains {A} (I : State -> Prop) (m : M H A) : Prop :=
  forall w, I (ui w) -> I (ui (snd (m w))).

Definition is_modal (ev : Event) : bool :=
  match ev with
  | ModalSplit _ _ => true
  | _ => false
  end.

(** Effects other than the creation of a window. *)
Definition is_not_create (e : Effect) : bool :=
  match e with
  | WindowsCreate _ => false
  | _ => true
  end.

(** Effects other than reading a window or focusing one. *)
Definition is_not_get_or_focus (e : Effect) : bool :=
  match e with
  | WindowsGet _ | WindowsUpdateFocused _ => false
  | _ => true
  end.

(** What may follow the creation call of a split that moves [rest] along:
    that move to the end of a window, a focus, and the closing refresh. *)
Definition follows_split (rest : list TabId) (e : Effect) : bool :=
  match e with
  | TabsMove ids _ index =>
      (if list_eq_dec Z.eq_dec ids rest then true else false) && (index =? -1)
  | WindowsUpdateFocused _ => true
  | _ => is_read_or_redraw e
  end.

(** The header colour after a toggle-click, from the colour before it. *)
Definition toggled_colour (before : option Colour) (window : Window.t) : option Colour :=
  match before with
  | Some Red => Some Red
  | Some Yellow => Some Yellow
  | Some Blue => None
  | None => match tab_ids window with [] => None | _ :: _ => Some Blue end
  end.

(** The header colour after a double click, from the colour before it. *)
Definition selected_colour (before : option Colour) (window : Window.t) : option Colour :=
  match before with
  | Some Red => Some Red
  | Some Yellow => Some Yellow
  | _ => match tab_ids window with [] => None | _ :: _ => Some Blue end
  end.

(** The characters that end an item of a JSON array or object. *)
Definition is_delimiter (c : Ascii.ascii) : bool :=
  Ascii.eqb c (Ascii.ascii_of_nat 44)       (* , *)
  || Ascii.eqb c (Ascii.ascii_of_nat 93)    (* ] *)
  || Ascii.eqb c (Ascii.ascii_of_nat 125).  (* } *)

(** No character of [s] is a delimiter. *)
Fixpoint delimiter_free (s : string) : bool :=
  match s with
  | EmptyString => true
  | String c rest => negb (is_delimiter c) && delimiter_free rest
  end.

(** The two variables [endDrag] reads the anchor of the marquee from. *)
Definition drag (s : State) : bool * option Point := (isDragging s, dragStart s).

(** A drag in progress has its anchor. *)
Definition drag_ok (s : State) : Prop :=
  isDragging s = true -> exists p, dragStart s = Some p.

(** [m] returns normally, whatever the state and the browser. *)
Definition returns {A} (m : M H A) : Prop :=
  forall w, exists a, fst (m w) = Ok a.

(** Current after one click on the card of [tabId], with the modifiers of
    [e]: what the release leaves, then what the card's listener makes of it. *)
Definition after_card_click (s : State) (e : MouseEvent) (tabId : TabId) : list TabId :=
  let released :=
    if shiftKey e || metaKey e then Array_from_Set (blueSelection s ++ [tabId])
    else if negb (ctrlKey e) then [tabId]
    else blueSelection s in
  if includes (redSelection s) tabId || includes (yellowSelection s) tabId then released
  else if ctrlKey e || metaKey e then
    if includes released tabId
    then filter (fun id => negb (id =? tabId)) released
    else released ++ [tabId]
  else [tabId].

Ltac unfold_script :=
  unfold renderWindowContent, renderWindowTabs, attachTopControls, showEmptyState,
    alert, console_error, chrome_tabs_query, chrome_windows_getAll,
    chrome_windows_get, chrome_windows_create, chrome_tabs_move,
    chrome_windows_update_focused, window_id_of, getURL,
    try_catch, detached, bind, ret, throw, gets, modify, emit, call in *.

(** The world once the handler's opening [await refreshUiWindowId()] is done. *)
Definition refreshed (w : World H) : World H := snd (refreshUiWindowId w).

(** [refreshUiWindowId] never throws and returns the variable it maintains. *)
Lemma refreshUiWindowId_run (w : World H) :
  refreshUiWindowId w = (Ok (uiWindowId (ui (refreshed w))), refreshed w).
Proof.
  destruct w as [s h tr]. unfold refreshed, refreshUiWindowId. unfold_script. simpl.
  destruct (tabs_query (runtime_getURL "ui.html" h) h) as [[[[|t0 l]|]|e] h'];
    reflexivity.
Qed.

(** It assigns [uiWindowId] and nothing else. *)
Lemma refreshed_ui (w : World H) :
  exists u, ui (refreshed w) = with_uiWindowId u (ui w).
Proof.
  destruct w as [s h tr]. unfold refreshed, refreshUiWindowId. unfold_script. simpl.
  destruct (tabs_query (runtime_getURL "ui.html" h) h) as [[[[|t0 l]|]|e] h'];
    simpl; try (exists (uiWindowId s); destruct s; reflexivity).
  exists (Some (Tab.windowId t0)). reflexivity.
Qed.

(** It issues exactly one host call, the query for the extension page. *)
Lemma refreshed_trace (w : World H) :
  trace (refreshed w) = trace w ++ [TabsQuery (ui_url w)].
Proof.
  destruct w as [s h tr]. unfold refreshed, refreshUiWindowId, ui_url. unfold_script. simpl.
  destruct (tabs_query (runtime_getURL "ui.html" h) h) as [[[[|t0 l]|]|e] h'];
    reflexivity.
Qed.

(** When the query finds the extension page, its window becomes [uiWindowId];
    otherwise the last known value is kept. *)
Lemma refreshed_located (w : World H) :
  uiWindowId (ui (refreshed w)) =
    match fst (tabs_query (ui_url w) (host w)) with
    | Ok (Some (t0 :: _)) => Some (Tab.windowId t0)
    | _ => uiWindowId (ui w)
    end.
Proof.
  destruct w as [s h tr]. unfold refreshed, refreshUiWindowId, ui_url. unfold_script. simpl.
  destruct (tabs_query (runtime_getURL "ui.html" h) h) as [[[[|t0 l]|]|e] h'];
    reflexivity.
Qed.

Lemma refreshed_selections (w : World H) :
  selections (ui (refreshed w)) = selections (ui w).
Proof. destruct (refreshed_ui w) as [u ->]. reflexivity. Qed.

Lemma bind_refresh {A} (k : M H A) (w : World H) :
  bind refreshUiWindowId (fun _ => k) w = k (refreshed w).
Proof. unfold bind. rewrite refreshUiWindowId_run. reflexivity. Qed.

(** ** Effects a computation can record

    [never_records e] is kept by every way the script composes computations,
    so which notices a handler can show is read off its text. *)

Section NeverRecords.

Variable e : Effect.

Lemma never_records_ret {A} (a : A) : never_records e (ret a).
Proof. intros w. exists []. rewrite app_nil_r. simpl. tauto. Qed.

Lemma never_records_throw {A} (err : string) : never_records e (throw (A := A) err).
Proof. intros w. exists []. rewrite app_nil_r. simpl. tauto. Qed.

Lemma never_records_gets {A} (f : State -> A) : never_records e (gets f).
Proof. intros w. exists []. rewrite app_nil_r. simpl. tauto. Qed.

Lemma never_records_modify (f : State -> State) : never_records e (modify f).
Proof. intros w. exists []. simpl. rewrite app_nil_r. tauto. Qed.

Lemma never_records_getURL (path : string) : never_records e (getURL path).
Proof. intros w. exists []. rewrite app_nil_r. simpl. tauto. Qed.

Lemma never_records_emit (e' : Effect) : e' <> e -> never_records e (emit e').
Proof. intros Hne w. exists [e']. simpl. intuition congruence. Qed.

Lemma never_records_call {A} (e' : Effect) (op : H -> Result A * H) :
  e' <> e -> never_records e (call e' op).
Proof.
  intros Hne w. exists [e']. unfold call. destruct (op (host w)) as [r h'].
  simpl. intuition congruence.
Qed.

Lemma never_records_bind {A B} (m : M H A) (f : A -> M H B) :
  never_records e m -> (forall a, never_records e (f a)) -> never_records e (bind m f).
Proof.
  intros Hm Hf w. unfold bind. destruct (Hm w) as (r1 & Htr1 & Hno1).
  destruct (m w) as [[a|err] w1]; cbn [snd] in *.
  - destruct (Hf a w1) as (r2 & Htr2 & Hno2). exists (r1 ++ r2).
    rewrite Htr2, Htr1, app_assoc, in_app_iff. tauto.
  - exists r1. tauto.
Qed.

Lemma never_records_try_catch {A} (m : M H A) (handler : string -> M H A) :
  never_records e m -> (forall err, never_records e (handler err)) ->
  never_records e (try_catch m handler).
Proof.
  intros Hm Hh w. unfold try_catch. destruct (Hm w) as (r1 & Htr1 & Hno1).
  destruct (m w) as [[a|err] w1]; cbn [snd] in *.
  - exists r1. tauto.
  - destruct (Hh err w1) as (r2 & Htr2 & Hno2). exists (r1 ++ r2).
    rewrite Htr2, Htr1, app_assoc, in_app_iff. tauto.
Qed.

Lemma never_records_detached (m : M H unit) :
  never_records e m -> never_records e (detached m).
Proof. intros Hm w. exact (Hm w). Qed.

End NeverRecords.

(** Goes through the text of a computation; what is left are the effects it
    emits, each to be told apart from the one that is never recorded. *)
Ltac walk_script :=
  repeat
    match goal with
    | |- never_records _ (bind _ _) => apply never_records_bind; [|intros]
    | |- never_records _ (try_catch _ _) => apply never_records_try_catch; [|intros]
    | |- never_records _ (detached _) => apply never_records_detached
    | |- never_records _ (ret _) => apply never_records_ret
    | |- never_records _ (throw _) => apply never_records_throw
    | |- never_records _ (gets _) => apply never_records_gets
    | |- never_records _ (modify _) => apply never_records_modify
    | |- never_records _ (getURL _) => apply never_records_getURL
    | |- never_records _ (emit _) => apply never_records_emit; discriminate
    | |- never_records _ (call _ _) => apply never_records_call; discriminate
    | |- never_records _ (if ?c then _ else _) => destruct c
    | |- never_records _ (match ?x with _ => _ end) => destruct x
    end.

(** The refresh shows no notice at all. *)
Lemma loadWindowsAndTabs_never_alerts (msg : string) :
  never_records (Alert msg) loadWindowsAndTabs.
Proof.
  unfold loadWindowsAndTabs, refreshUiWindowId, renderWindowContent, renderWindowTabs,
    attachTopControls, showEmptyState, console_error, chrome_tabs_query,
    chrome_windows_getAll.
  walk_script.
Qed.

(** ** The refresh *)

(** What [loadWindowsAndTabs] does after its own [refreshUiWindowId], by the
    answer of [chrome.windows.getAll]. *)
Lemma loadWindowsAndTabs_fetch_failed (w : World H) e h' :
  windows_getAll (host (refreshed w)) = (Throw e, h') ->
  loadWindowsAndTabs w =
    (Ok tt, mkWorld (ui (refreshed w)) h'
              (trace (refreshed w) ++ [WindowsGetAll; ConsoleError "Error loading windows:"])).
Proof.
  intros Hget. unfold loadWindowsAndTabs. rewrite bind_refresh.
  unfold_script. rewrite Hget. cbn [ui host trace]. rewrite <- app_assoc. reflexivity.
Qed.

Lemma loadWindowsAndTabs_unchanged (w : World H) ws h' :
  windows_getAll (host (refreshed w)) = (Ok ws, h') ->
  same_snapshot (lastSnapshot (ui (refreshed w))) (snapshot_of (sort_windows ws)) = true ->
  loadWindowsAndTabs w =
    (Ok tt, mkWorld (ui (refreshed w)) h' (trace (refreshed w) ++ [WindowsGetAll])).
Proof.
  intros Hget Hsame. unfold loadWindowsAndTabs. rewrite bind_refresh.
  unfold_script. rewrite Hget. cbn [ui host trace]. rewrite Hsame. reflexivity.
Qed.

Lemma loadWindowsAndTabs_ok (w : World H) : fst (loadWindowsAndTabs w) = Ok tt.
Proof.
  unfold loadWindowsAndTabs. rewrite bind_refresh. unfold_script.
  destruct (windows_getAll (host (refreshed w))) as [[ws|e] h']; cbn [ui host trace fst];
    [|reflexivity].
  destruct (same_snapshot _ _); [reflexivity|].
  cbn [ui host trace fst windowsData with_windowsData].
  destruct (sort_windows ws); [reflexivity|].
  cbn [activeWindowId with_windowsData with_lastSnapshot].
  destruct (negb _); reflexivity.
Qed.

Lemma loadWindowsAndTabs_selections (w : World H) :
  selections (ui (snd (loadWindowsAndTabs w))) = selections (ui w).
Proof.
  rewrite <- (refreshed_selections w).
  unfold loadWindowsAndTabs. rewrite bind_refresh. unfold_script.
  destruct (windows_getAll (host (refreshed w))) as [[ws|e] h']; cbn [ui host trace snd];
    [|reflexivity].
  destruct (same_snapshot _ _); [reflexivity|].
  cbn [ui host trace snd windowsData with_windowsData].
  destruct (sort_windows ws); [reflexivity|].
  cbn [activeWindowId with_windowsData with_lastSnapshot].
  destruct (negb _); reflexivity.
Qed.

(** ** Arrays used as sets *)

Lemma includes_In (arr : list Z) (x : Z) : includes arr x = true <-> In x arr.
Proof.
  induction arr as [|y ys IH]; simpl.
  - split; [discriminate | tauto].
  - rewrite orb_true_iff, IH, Z.eqb_eq. tauto.
Qed.

Lemma includes_not_In (arr : list Z) (x : Z) : includes arr x = false <-> ~ In x arr.
Proof.
  rewrite <- includes_In. destruct (includes arr x); split; congruence.
Qed.

Lemma In_fold_Set_add (xs acc : list Z) (x : Z) :
  In x (fold_left Set_add xs acc) <-> In x acc \/ In x xs.
Proof.
  revert acc. induction xs as [|y ys IH]; intros acc; simpl.
  - tauto.
  - rewrite IH. unfold Set_add. destruct (includes acc y) eqn:Hy.
    + apply includes_In in Hy. split; [tauto|]. intros [?|[<-|?]]; tauto.
    + rewrite in_app_iff. simpl. tauto.
Qed.

Lemma NoDup_fold_Set_add (xs acc : list Z) :
  NoDup acc -> NoDup (fold_left Set_add xs acc).
Proof.
  revert acc. induction xs as [|y ys IH]; intros acc Hacc; simpl; [exact Hacc|].
  apply IH. unfold Set_add. destruct (includes acc y) eqn:Hy; [exact Hacc|].
  apply includes_not_In in Hy.
  apply NoDup_app; [exact Hacc | repeat constructor; simpl; tauto |].
  intros a Ha [<-|[]]. contradiction.
Qed.

Lemma In_remove_window_tabs (ids sel : list Z) (x : Z) :
  In x (filter (fun id => negb (includes ids id)) sel) <-> In x sel /\ ~ In x ids.
Proof.
  rewrite filter_In, negb_true_iff, includes_not_In. tauto.
Qed.

Lemma forallb_includes (sel ids : list Z) :
  forallb (includes sel) ids = true <-> Forall (fun id => In id sel) ids.
Proof.
  rewrite forallb_forall, Forall_forall.
  split; intros Hall x Hx; apply includes_In; auto.
Qed.

(** ** Gestures on the selections *)

Lemma keydown_Escape_run (w : World H) :
  keydown "Escape" w =
    (Ok tt,
     mkWorld (with_mergeMode ModeNull
                (with_yellowSelection []
                   (with_redSelection [] (with_blueSelection [] (ui w)))))
             (host w) (trace w ++ redraw)).
Proof.
  unfold keydown. cbn [String.eqb Ascii.eqb Bool.eqb andb]. unfold_script.
  cbn [ui host trace]. rewrite <- !app_assoc. reflexivity.
Qed.

(** C5: pressing Escape, whatever the merge stage and whatever the three
    selections hold, empties Current, Source and Target and sets the merge
    stage to idle; the other variables and the browser are left alone. *)
Theorem escape_clears_all_selections (w : World H) :
  let w' := snd (keydown "Escape" w) in
  fst (keydown "Escape" w) = Ok tt /\
  blueSelection (ui w') = [] /\
  redSelection (ui w') = [] /\
  yellowSelection (ui w') = [] /\
  mergeMode (ui w') = ModeNull /\
  windowsData (ui w') = windowsData (ui w) /\
  activeWindowId (ui w') = activeWindowId (ui w) /\
  host w' = host w /\
  trace w' = trace w ++ redraw.
Proof.
  rewrite keydown_Escape_run. cbn. repeat split; reflexivity.
Qed.

Lemma toggleAllTabsInWindow_ui (w : World H) windowId window :
  find_window windowId (windowsData (ui w)) = Some window ->
  ui (snd (toggleAllTabsInWindow windowId w)) =
    with_blueSelection
      (if forallb (includes (blueSelection (ui w))) (tab_ids window)
       then filter (fun id => negb (includes (tab_ids window) id)) (blueSelection (ui w))
       else fold_left add_if_absent (tab_ids window) (blueSelection (ui w)))
      (ui w).
Proof.
  intros Hfind. unfold toggleAllTabsInWindow. unfold_script. cbn [ui host trace].
  rewrite Hfind. destruct (forallb _ _); reflexivity.
Qed.

Lemma windowTab_click_toggle_ui (w : World H) windowId ctrl meta :
  ctrl || meta = true ->
  ui (snd (windowTab_click windowId ctrl meta w)) =
    ui (snd (toggleAllTabsInWindow windowId w)).
Proof.
  intros Hmod. unfold windowTab_click. rewrite Hmod. unfold_script.
  destruct (toggleAllTabsInWindow windowId w) as [[[]|e] w1]; reflexivity.
Qed.

(** Membership in Current after two toggle-clicks on the header of a window
    whose tab ids are [ids]. *)
Lemma toggle_twice_membership (ids blue : list Z) :
  let step sel :=
    if forallb (includes sel) ids
    then filter (fun id => negb (includes ids id)) sel
    else fold_left add_if_absent ids sel in
  forall x,
    In x (step (step blue)) <->
    (if forallb (includes blue) ids then In x blue else In x blue /\ ~ In x ids).
Proof.
  intros step x. unfold step at 2.
  destruct (forallb (includes blue) ids) eqn:Hall.
  - apply forallb_includes in Hall. rewrite Forall_forall in Hall.
    unfold step. destruct (forallb _ ids) eqn:Hall1.
    + apply forallb_includes in Hall1. rewrite Forall_forall in Hall1.
      rewrite !In_remove_window_tabs. split; [tauto|]. intros Hx.
      assert (~ In x ids)
        by (intros Hin; pose proof (Hall1 _ Hin) as Hf;
            apply In_remove_window_tabs in Hf; tauto).
      tauto.
    + change (fold_left add_if_absent) with (fold_left Set_add).
      rewrite In_fold_Set_add, In_remove_window_tabs.
      destruct (includes ids x) eqn:Hx.
      * apply includes_In in Hx. split; auto.
      * apply includes_not_In in Hx. tauto.
  - unfold step. change (fold_left add_if_absent) with (fold_left Set_add).
    assert (Hall1 : forallb (includes (fold_left Set_add ids blue)) ids = true).
    { apply forallb_includes, Forall_forall. intros y Hy.
      apply In_fold_Set_add. auto. }
    rewrite Hall1, In_remove_window_tabs, In_fold_Set_add. tauto.
Qed.

(** C8 (amended): for a window of the mirror and any Current selection, two
    toggle-clicks (Ctrl or Cmd held) on its header give every tab back its
    Current-membership when the window's tabs were all in Current or all
    absent from it; when only some of them were in Current, the first click
    completes the selection and the second removes it, so that afterwards none
    of the window's tabs is in Current (tabs of other windows keep their
    membership in both cases). *)
Theorem window_toggle_twice (w : World H) windowId window ctrl meta :
  ctrl || meta = true ->
  find_window windowId (windowsData (ui w)) = Some window ->
  let blue := blueSelection (ui w) in
  let w2 := snd (windowTab_click windowId ctrl meta
                   (snd (windowTab_click windowId ctrl meta w))) in
  (Forall (fun id => In id blue) (tab_ids window) \/
   Forall (fun id => ~ In id blue) (tab_ids window) ->
   forall id, In id (blueSelection (ui w2)) <-> In id blue) /\
  (~ Forall (fun id => In id blue) (tab_ids window) ->
   forall id, In id (blueSelection (ui w2)) <-> In id blue /\ ~ In id (tab_ids window)).
Proof.
  intros Hmod Hfind blue w2.
  assert (Hblue2 : forall x,
    In x (blueSelection (ui w2)) <->
    (if forallb (includes blue) (tab_ids window) then In x blue
     else In x blue /\ ~ In x (tab_ids window))).
  { intros x. rewrite <- (toggle_twice_membership (tab_ids window) blue x).
    unfold w2. rewrite (windowTab_click_toggle_ui _ _ _ _ Hmod).
    set (w1 := snd (windowTab_click windowId ctrl meta w)).
    assert (Hw1 : ui w1 = ui (snd (toggleAllTabsInWindow windowId w)))
      by (apply windowTab_click_toggle_ui; exact Hmod).
    rewrite (toggleAllTabsInWindow_ui w _ Hfind) in Hw1.
    rewrite (toggleAllTabsInWindow_ui w1 windowId (window := window))
      by (rewrite Hw1; exact Hfind).
    rewrite Hw1. reflexivity. }
  split.
  - intros Hcase id. rewrite Hblue2.
    destruct (forallb (includes blue) (tab_ids window)) eqn:Hall; [tauto|].
    destruct Hcase as [Hin|Hout].
    + apply forallb_includes in Hin. congruence.
    + rewrite Forall_forall in Hout. split; [tauto|]. intros Hid. split; [exact Hid|].
      intros Hw. exact (Hout _ Hw Hid).
  - intros Hnot id. rewrite Hblue2.
    destruct (forallb (includes blue) (tab_ids window)) eqn:Hall; [|tauto].
    apply forallb_includes in Hall. contradiction.
Qed.

Lemma windowTab_dblclick_ui (w : World H) windowId window :
  find_window windowId (windowsData (ui w)) = Some window ->
  ui (snd (windowTab_dblclick windowId w)) =
    with_blueSelection (blueSelection (ui w) ++ tab_ids window)
      (with_activeWindowId (Some windowId) (ui w)).
Proof.
  intros Hfind. unfold windowTab_dblclick, selectAllTabsInWindow. unfold_script.
  cbn [ui host trace windowsData with_activeWindowId]. rewrite Hfind. reflexivity.
Qed.

(** ** The staged merge *)

Lemma length_eqb_0 {A} (l : list A) : (List.length l =? 0)%nat = true <-> l = [].
Proof. destruct l; simpl; split; congruence. Qed.

Lemma mergeBtn_no_selection (w : World H) :
  blueSelection (ui w) = [] ->
  mergeMode (ui w) <> ModeYellow ->
  mergeBtn_onclick w =
    (Ok tt, mkWorld (ui (refreshed w)) (host (refreshed w))
              (trace (refreshed w) ++ [Alert "No tabs selected"])).
Proof.
  intros Hblue Hmode. unfold mergeBtn_onclick. rewrite bind_refresh.
  pose proof (refreshed_selections w) as Hsel. unfold selections in Hsel.
  injection Hsel as Hb Hr Hy Hm.
  unfold_script. cbn [ui host trace]. rewrite Hb, Hm, Hblue.
  destruct (mergeMode (ui w)); try congruence; reflexivity.
Qed.

Lemma mergeBtn_stage1 (w : World H) :
  mergeMode (ui w) = ModeNull ->
  blueSelection (ui w) <> [] ->
  mergeBtn_onclick w =
    (Ok tt,
     mkWorld (with_mergeMode ModeRed
                (with_blueSelection []
                   (with_redSelection (blueSelection (ui w)) (ui (refreshed w)))))
             (host (refreshed w)) (trace (refreshed w) ++ redraw)).
Proof.
  intros Hmode Hblue. unfold mergeBtn_onclick. rewrite bind_refresh.
  pose proof (refreshed_selections w) as Hsel. unfold selections in Hsel.
  injection Hsel as Hb Hr Hy Hm.
  unfold_script. cbn [ui host trace]. rewrite Hb, Hm, Hmode.
  destruct (blueSelection (ui w)) as [|b bs]; [congruence|].
  cbn [List.length Nat.eqb andb]. rewrite <- !app_assoc. reflexivity.
Qed.

Lemma mergeBtn_stage2 (w : World H) :
  mergeMode (ui w) = ModeRed ->
  blueSelection (ui w) <> [] ->
  mergeBtn_onclick w =
    (Ok tt,
     mkWorld (with_mergeMode ModeYellow
                (with_blueSelection []
                   (with_yellowSelection (blueSelection (ui w)) (ui (refreshed w)))))
             (host (refreshed w)) (trace (refreshed w) ++ redraw)).
Proof.
  intros Hmode Hblue. unfold mergeBtn_onclick. rewrite bind_refresh.
  pose proof (refreshed_selections w) as Hsel. unfold selections in Hsel.
  injection Hsel as Hb Hr Hy Hm.
  unfold_script. cbn [ui host trace]. rewrite Hb, Hm, Hmode.
  destruct (blueSelection (ui w)) as [|b bs]; [congruence|].
  cbn [List.length Nat.eqb andb negb MergeMode_eqb yellowSelection with_mergeMode
       with_blueSelection with_yellowSelection].
  rewrite <- !app_assoc. reflexivity.
Qed.

(** C10: a double-click on a window header makes that window active and
    appends the window's whole ordered list of tab ids to Current as it is:
    an id that was already in Current and belongs to the window is in Current
    at least twice afterwards, and the next Merge click copies the list,
    duplicates included, into Source (from idle) or Target (from
    source-staged). *)
Theorem dblclick_appends_without_dedup (w : World H) windowId window :
  find_window windowId (windowsData (ui w)) = Some window ->
  let w' := snd (windowTab_dblclick windowId w) in
  blueSelection (ui w') = blueSelection (ui w) ++ tab_ids window /\
  activeWindowId (ui w') = Some windowId /\
  (forall id, In id (blueSelection (ui w)) -> In id (tab_ids window) ->
     (2 <= count_occ Z.eq_dec (blueSelection (ui w')) id)%nat) /\
  (blueSelection (ui w') <> [] -> mergeMode (ui w) = ModeNull ->
     redSelection (ui (snd (mergeBtn_onclick w'))) = blueSelection (ui w')) /\
  (blueSelection (ui w') <> [] -> mergeMode (ui w) = ModeRed ->
     yellowSelection (ui (snd (mergeBtn_onclick w'))) = blueSelection (ui w')).
Proof.
  intros Hfind w'.
  assert (Hui : ui w' = with_blueSelection (blueSelection (ui w) ++ tab_ids window)
                          (with_activeWindowId (Some windowId) (ui w)))
    by (apply windowTab_dblclick_ui; exact Hfind).
  assert (Hmode : mergeMode (ui w') = mergeMode (ui w)) by (rewrite Hui; reflexivity).
  repeat split.
  - rewrite Hui. reflexivity.
  - rewrite Hui. reflexivity.
  - intros id Hb Hw. rewrite Hui. cbn [blueSelection with_blueSelection].
    rewrite count_occ_app.
    apply (count_occ_In Z.eq_dec) in Hb. apply (count_occ_In Z.eq_dec) in Hw.
    unfold TabId in *. lia.
  - intros Hne Hnull. rewrite mergeBtn_stage1 by congruence. reflexivity.
  - intros Hne Hred. rewrite mergeBtn_stage2 by congruence. reflexivity.
Qed.

Lemma merge_execute_success (w1 : World H) first rest newWin h1 h2 :
  redSelection (ui w1) ++ yellowSelection (ui w1) = first :: rest ->
  windows_create (Some first) (host w1) = (Ok (Some newWin), h1) ->
  move_accepted rest (Window.id newWin) h1 h2 ->
  merge_execute w1 =
    (Ok tt,
     snd (loadWindowsAndTabs
            (mkWorld (with_yellowSelection []
                        (with_redSelection [] (with_mergeMode ModeNull (ui w1))))
                     h2
                     (trace w1 ++ WindowsCreate (Some first)
                                  :: move_effects rest (Window.id newWin))))).
Proof.
  intros Hcomb Hcreate Hmove. unfold merge_execute. unfold_script.
  cbn [ui host trace]. rewrite Hcomb. cbn [nth_error skipn]. rewrite Hcreate.
  cbn [ui host trace]. destruct rest as [|r rest]; cbn [List.length Nat.ltb Nat.leb].
  - cbn in Hmove. subst h2. reflexivity.
  - cbn in Hmove. cbn [ui host trace]. rewrite Hmove. cbn [ui host trace move_effects].
    rewrite <- app_assoc. reflexivity.
Qed.

Lemma mergeBtn_stage3 (w : World H) :
  mergeMode (ui w) = ModeYellow ->
  mergeBtn_onclick w =
    try_catch merge_execute
      (fun _ =>
         bind (console_error "Merge failed:") (fun _ =>
         bind (alert "Merge failed") (fun _ =>
         bind (modify (with_mergeMode ModeNull)) (fun _ =>
         bind (modify (with_redSelection [])) (fun _ =>
         bind (modify (with_yellowSelection [])) (fun _ =>
         renderWindowContent))))))
      (refreshed w).
Proof.
  intros Hmode. unfold mergeBtn_onclick. rewrite bind_refresh.
  pose proof (refreshed_selections w) as Hsel. unfold selections in Hsel.
  injection Hsel as Hb Hr Hy Hm.
  unfold bind at 1 2. unfold gets at 1 2. cbn [ui]. rewrite Hm, Hmode.
  cbn [MergeMode_eqb negb]. rewrite andb_false_r. reflexivity.
Qed.

(** C1: at stage 3 (target-staged) the Merge click builds the combination
    Source followed by Target, asks the browser for a new window seeded with
    the combination's first id, and moves all the remaining ids, in the
    combination's order and in one call, to the end (index -1) of that new
    window; when the browser accepts both, Source and Target are emptied, the
    stage is idle again, and the handler ends in a refresh
    ([loadWindowsAndTabs]). *)
Theorem merge_stage3_seeds_and_appends (w : World H) first rest newWin h1 h2 :
  mergeMode (ui w) = ModeYellow ->
  redSelection (ui w) ++ yellowSelection (ui w) = first :: rest ->
  windows_create (Some first) (host (refreshed w)) = (Ok (Some newWin), h1) ->
  move_accepted rest (Window.id newWin) h1 h2 ->
  let merged :=
    mkWorld (with_yellowSelection []
               (with_redSelection [] (with_mergeMode ModeNull (ui (refreshed w)))))
            h2
            (trace w ++ TabsQuery (ui_url w) :: WindowsCreate (Some first)
                        :: move_effects rest (Window.id newWin)) in
  let w' := snd (mergeBtn_onclick w) in
  mergeBtn_onclick w = (Ok tt, snd (loadWindowsAndTabs merged)) /\
  redSelection (ui w') = [] /\
  yellowSelection (ui w') = [] /\
  mergeMode (ui w') = ModeNull.
Proof.
  intros Hmode Hcomb Hcreate Hmove merged w'.
  pose proof (refreshed_selections w) as Hsel. unfold selections in Hsel.
  injection Hsel as Hb Hr Hy Hm.
  assert (Hrun : mergeBtn_onclick w = (Ok tt, snd (loadWindowsAndTabs merged))).
  { rewrite (mergeBtn_stage3 w Hmode). unfold try_catch.
    rewrite (@merge_execute_success (refreshed w) first rest newWin h1 h2);
      try assumption.
    - unfold merged. rewrite refreshed_trace, <- app_assoc. reflexivity.
    - rewrite Hr, Hy. exact Hcomb. }
  split; [exact Hrun|].
  pose proof (loadWindowsAndTabs_selections merged) as Hkeep.
  unfold w'. rewrite Hrun. cbn [snd]. unfold selections in Hkeep.
  injection Hkeep as Kb Kr Ky Km. rewrite Kr, Ky, Km. repeat split.
Qed.

(** C6 (amended): when the staged merge completes successfully, Source and
    Target are emptied and the stage returns to idle, while Current is left
    exactly as it was before the click (empty unless tabs were selected after
    the target was staged). *)
Theorem merge_success_clears_staged_only (w : World H) first rest newWin h1 h2 :
  mergeMode (ui w) = ModeYellow ->
  redSelection (ui w) ++ yellowSelection (ui w) = first :: rest ->
  windows_create (Some first) (host (refreshed w)) = (Ok (Some newWin), h1) ->
  move_accepted rest (Window.id newWin) h1 h2 ->
  let w' := snd (mergeBtn_onclick w) in
  fst (mergeBtn_onclick w) = Ok tt /\
  redSelection (ui w') = [] /\
  yellowSelection (ui w') = [] /\
  mergeMode (ui w') = ModeNull /\
  blueSelection (ui w') = blueSelection (ui w).
Proof.
  intros Hmode Hcomb Hcreate Hmove w'.
  pose proof (refreshed_selections w) as Hsel. unfold selections in Hsel.
  injection Hsel as Hb Hr Hy Hm.
  unfold w'. rewrite (mergeBtn_stage3 w Hmode). unfold try_catch.
  rewrite (@merge_execute_success (refreshed w) first rest newWin h1 h2);
    try assumption.
  - cbn [fst snd].
    match goal with |- context [loadWindowsAndTabs ?m] =>
      pose proof (loadWindowsAndTabs_selections m) as Hkeep end.
    unfold selections in Hkeep. injection Hkeep as Kb Kr Ky Km.
    rewrite Kb, Kr, Ky, Km. cbn. rewrite Hb. repeat split.
  - rewrite Hr, Hy. exact Hcomb.
Qed.

Lemma mergeBtn_stage3_never_shows_target_notice :
  never_records (Alert "No target tabs selected")
    (try_catch merge_execute
       (fun _ =>
          bind (console_error "Merge failed:") (fun _ =>
          bind (alert "Merge failed") (fun _ =>
          bind (modify (with_mergeMode ModeNull)) (fun _ =>
          bind (modify (with_redSelection [])) (fun _ =>
          bind (modify (with_yellowSelection [])) (fun _ =>
          renderWindowContent))))))).
Proof.
  unfold merge_execute, window_id_of, renderWindowContent, renderWindowTabs,
    attachTopControls, alert, console_error, chrome_windows_create, chrome_tabs_move.
  walk_script. apply loadWindowsAndTabs_never_alerts.
Qed.

(** C2: at stage 2 (source-staged) a Merge click with an empty Current is
    stopped by the handler's opening guard: the notice shown is
    "No tabs selected", the stage stays source-staged, and Source and Target
    are as before.  The notice "No target tabs selected" of the stage-2 branch
    is shown by no Merge click at all, whatever the state and the browser. *)
Theorem merge_stage2_empty_current_notice (w : World H) :
  let w' := snd (mergeBtn_onclick w) in
  (mergeMode (ui w) = ModeRed ->
   blueSelection (ui w) = [] ->
     trace w' = trace w ++ [TabsQuery (ui_url w); Alert "No tabs selected"] /\
     mergeMode (ui w') = ModeRed /\
     redSelection (ui w') = redSelection (ui w) /\
     yellowSelection (ui w') = yellowSelection (ui w) /\
     blueSelection (ui w') = []) /\
  never_records (Alert "No target tabs selected") mergeBtn_onclick.
Proof.
  intros w'. split.
  - intros Hmode Hblue.
    pose proof (refreshed_selections w) as Hsel. unfold selections in Hsel.
    injection Hsel as Hb Hr Hy Hm. unfold w'.
    rewrite mergeBtn_no_selection by congruence. cbn [snd ui trace].
    rewrite refreshed_trace, <- app_assoc, Hb, Hr, Hy, Hm. repeat split; assumption.
  - clear w w'. intros w.
    assert (Hshown : forall w1 : World H,
      (exists shown, trace w1 = trace (refreshed w) ++ shown /\
                     ~ In (Alert "No target tabs selected") shown) ->
      exists recorded, trace w1 = trace w ++ recorded /\
                       ~ In (Alert "No target tabs selected") recorded).
    { intros w1 (shown & Htr & Hno). exists (TabsQuery (ui_url w) :: shown).
      rewrite Htr, refreshed_trace, <- app_assoc. split; [reflexivity|].
      intros [Hq|Hin]; [discriminate | exact (Hno Hin)]. }
    apply Hshown.
    destruct (mergeMode (ui w)) eqn:Hmode;
      [destruct (blueSelection (ui w)) as [|b bs] eqn:Hblue
      |destruct (blueSelection (ui w)) as [|b bs] eqn:Hblue |].
    + rewrite mergeBtn_no_selection by congruence. eexists. split; [reflexivity|].
      cbn. intros [Ha|[]]; discriminate.
    + rewrite mergeBtn_stage1 by congruence. eexists. split; [reflexivity|].
      cbn. intros [Ha|[Ha|[Ha|[]]]]; discriminate.
    + rewrite mergeBtn_no_selection by congruence. eexists. split; [reflexivity|].
      cbn. intros [Ha|[]]; discriminate.
    + rewrite mergeBtn_stage2 by congruence. eexists. split; [reflexivity|].
      cbn. intros [Ha|[Ha|[Ha|[]]]]; discriminate.
    + rewrite (mergeBtn_stage3 w Hmode).
      apply mergeBtn_stage3_never_shows_target_notice.
Qed.

(** ** Split *)

Lemma splitBtn_nonempty (w : World H) :
  blueSelection (ui w) <> [] ->
  splitBtn_onclick w =
    try_catch split_execute
      (fun _ => bind (console_error "Split failed:") (fun _ => alert "Split failed"))
      (refreshed w).
Proof.
  intros Hblue. unfold splitBtn_onclick. rewrite bind_refresh.
  pose proof (refreshed_selections w) as Hsel. unfold selections in Hsel.
  injection Hsel as Hb Hr Hy Hm.
  unfold bind at 1. unfold gets at 1. cbn [ui]. rewrite Hb.
  destruct (blueSelection (ui w)); [congruence|reflexivity].
Qed.

Lemma split_execute_success (w1 : World H) first rest newWin h1 h2 :
  blueSelection (ui w1) = first :: rest ->
  windows_create (Some first) (host w1) = (Ok (Some newWin), h1) ->
  move_accepted rest (Window.id newWin) h1 h2 ->
  split_execute w1 =
    (Ok tt,
     snd (loadWindowsAndTabs
            (mkWorld (with_blueSelection [] (ui w1)) h2
                     (trace w1 ++ WindowsCreate (Some first)
                                  :: move_effects rest (Window.id newWin) ++ redraw)))).
Proof.
  intros Hblue Hcreate Hmove. unfold split_execute. unfold_script.
  cbn [ui host trace]. rewrite Hblue. cbn [hd_error tl]. rewrite Hcreate.
  cbn [ui host trace]. destruct rest as [|r rest]; cbn [List.length Nat.ltb Nat.leb].
  - cbn in Hmove. subst h2. cbn [ui host trace move_effects app].
    rewrite <- !app_assoc. reflexivity.
  - cbn in Hmove. cbn [ui host trace]. rewrite Hmove. cbn [ui host trace move_effects].
    rewrite <- !app_assoc. reflexivity.
Qed.

(** A single id whose window the browser did not create (the callback got
    [undefined]): no id is left to move, [newWin.id] is never read, and the
    handler goes on as after a success. *)
Lemma split_execute_single_undefined (w1 : World H) first h1 :
  blueSelection (ui w1) = [first] ->
  windows_create (Some first) (host w1) = (Ok None, h1) ->
  split_execute w1 =
    (Ok tt,
     snd (loadWindowsAndTabs
            (mkWorld (with_blueSelection [] (ui w1)) h1
                     (trace w1 ++ WindowsCreate (Some first) :: redraw)))).
Proof.
  intros Hblue Hcreate. unfold split_execute. unfold_script.
  cbn [ui host trace]. rewrite Hblue. cbn [hd_error tl]. rewrite Hcreate.
  cbn [ui host trace List.length Nat.ltb Nat.leb]. rewrite <- !app_assoc. reflexivity.
Qed.

(** C3: the Split click.  With an empty Current it shows "No tabs selected"
    and asks the browser for no window.  Otherwise the first id of Current
    seeds a new window and all the remaining ids are moved, in order, to the
    end (index -1) of that window; when the browser accepts both, Current is
    emptied, the content is redrawn and the handler ends in a refresh.  When
    the [try] block fails (window creation throws, the new window is
    [undefined] while ids remain to be moved, or the move is rejected) the
    notice "Split failed" is shown and the attempt changes no variable of
    the script, Current included.  One failure does not reach the [catch]
    block: with a single id in Current and a creation the browser reports as
    failed (the callback gets [undefined]), [newWin.id] is never read, and the
    handler goes on as after a success: Current is emptied, the content is
    redrawn, a refresh is started and no notice is shown. *)
Theorem split_click (w : World H) :
  let w' := snd (splitBtn_onclick w) in
  let failed h calls :=
    splitBtn_onclick w =
      (Ok tt, mkWorld (ui (refreshed w)) h
                (trace w ++ TabsQuery (ui_url w) :: calls
                         ++ failure_notice "Split failed:" "Split failed")) /\
    blueSelection (ui w') = blueSelection (ui w) in
  (blueSelection (ui w) = [] ->
     splitBtn_onclick w =
       (Ok tt, mkWorld (ui (refreshed w)) (host (refreshed w))
                 (trace w ++ [TabsQuery (ui_url w); Alert "No tabs selected"]))) /\
  (forall first rest newWin h1 h2,
     blueSelection (ui w) = first :: rest ->
     windows_create (Some first) (host (refreshed w)) = (Ok (Some newWin), h1) ->
     move_accepted rest (Window.id newWin) h1 h2 ->
     splitBtn_onclick w =
       (Ok tt,
        snd (loadWindowsAndTabs
               (mkWorld (with_blueSelection [] (ui (refreshed w))) h2
                  (trace w ++ TabsQuery (ui_url w) :: WindowsCreate (Some first)
                           :: move_effects rest (Window.id newWin) ++ redraw)))) /\
     blueSelection (ui w') = []) /\
  (forall first rest e h1,
     blueSelection (ui w) = first :: rest ->
     windows_create (Some first) (host (refreshed w)) = (Throw e, h1) ->
     failed h1 [WindowsCreate (Some first)]) /\
  (forall first r rest h1,
     blueSelection (ui w) = first :: r :: rest ->
     windows_create (Some first) (host (refreshed w)) = (Ok None, h1) ->
     failed h1 [WindowsCreate (Some first)]) /\
  (forall first r rest newWin e h1 h2,
     blueSelection (ui w) = first :: r :: rest ->
     windows_create (Some first) (host (refreshed w)) = (Ok (Some newWin), h1) ->
     tabs_move (r :: rest) (Window.id newWin) (-1) h1 = (Throw e, h2) ->
     failed h2 [WindowsCreate (Some first); TabsMove (r :: rest) (Window.id newWin) (-1)]) /\
  (forall first h1,
     blueSelection (ui w) = [first] ->
     windows_create (Some first) (host (refreshed w)) = (Ok None, h1) ->
     splitBtn_onclick w =
       (Ok tt,
        snd (loadWindowsAndTabs
               (mkWorld (with_blueSelection [] (ui (refreshed w))) h1
                  (trace w ++ TabsQuery (ui_url w) :: WindowsCreate (Some first)
                           :: redraw)))) /\
     blueSelection (ui w') = [] /\
     exists refresh,
       trace w' = trace w ++ TabsQuery (ui_url w) :: WindowsCreate (Some first)
                          :: redraw ++ refresh /\
       forall msg, ~ In (Alert msg) refresh).
Proof.
  intros w' failed.
  pose proof (refreshed_selections w) as Hsel. unfold selections in Hsel.
  injection Hsel as Hb Hr Hy Hm.
  assert (Hfail : forall h calls e,
    blueSelection (ui w) <> [] ->
    split_execute (refreshed w) =
      (Throw e, mkWorld (ui (refreshed w)) h (trace (refreshed w) ++ calls)) ->
    failed h calls).
  { intros h calls e Hne Hthrow. unfold failed, w'.
    rewrite (splitBtn_nonempty w Hne). unfold try_catch. rewrite Hthrow.
    unfold failure_notice. unfold_script. cbn [ui host trace snd].
    rewrite refreshed_trace, <- !app_assoc. split; [reflexivity | exact Hb]. }
  repeat apply conj.
  - intros Hblue. unfold splitBtn_onclick. rewrite bind_refresh.
    unfold_script. cbn [ui]. rewrite Hb, Hblue. cbn [List.length Nat.eqb].
    rewrite refreshed_trace, <- app_assoc. reflexivity.
  - intros first rest newWin h1 h2 Hblue Hcreate Hmove.
    assert (Hrun : splitBtn_onclick w =
      (Ok tt,
       snd (loadWindowsAndTabs
              (mkWorld (with_blueSelection [] (ui (refreshed w))) h2
                 (trace w ++ TabsQuery (ui_url w) :: WindowsCreate (Some first)
                          :: move_effects rest (Window.id newWin) ++ redraw))))).
    { rewrite splitBtn_nonempty by congruence. unfold try_catch.
      rewrite (@split_execute_success (refreshed w) first rest newWin h1 h2);
        try assumption; [|congruence].
      rewrite refreshed_trace, <- app_assoc. reflexivity. }
    split; [exact Hrun|]. unfold w'. rewrite Hrun. cbn [snd].
    match goal with |- context [loadWindowsAndTabs ?m] =>
      pose proof (loadWindowsAndTabs_selections m) as Hkeep end.
    unfold selections in Hkeep. injection Hkeep as Kb Kr Ky Km. rewrite Kb. reflexivity.
  - intros first rest e h1 Hblue Hcreate. apply (Hfail _ _ e); [congruence|].
    unfold split_execute. unfold_script. cbn [ui host trace]. rewrite Hb, Hblue.
    cbn [hd_error tl]. rewrite Hcreate. reflexivity.
  - intros first r rest h1 Hblue Hcreate.
    eapply (Hfail _ _ _); [congruence|].
    unfold split_execute. unfold_script. cbn [ui host trace]. rewrite Hb, Hblue.
    cbn [hd_error tl]. rewrite Hcreate. cbn [ui host trace List.length Nat.ltb Nat.leb].
    reflexivity.
  - intros first r rest newWin e h1 h2 Hblue Hcreate Hmove.
    apply (Hfail _ _ e); [congruence|].
    unfold split_execute. unfold_script. cbn [ui host trace]. rewrite Hb, Hblue.
    cbn [hd_error tl]. rewrite Hcreate. cbn [ui host trace List.length Nat.ltb Nat.leb].
    rewrite Hmove. cbn [ui host trace]. rewrite <- app_assoc. reflexivity.
  - intros first h1 Hblue Hcreate.
    assert (Hrun : splitBtn_onclick w =
      (Ok tt,
       snd (loadWindowsAndTabs
              (mkWorld (with_blueSelection [] (ui (refreshed w))) h1
                 (trace w ++ TabsQuery (ui_url w) :: WindowsCreate (Some first)
                          :: redraw))))).
    { rewrite splitBtn_nonempty by congruence. unfold try_catch.
      rewrite (@split_execute_single_undefined (refreshed w) first h1);
        [|congruence|exact Hcreate].
      rewrite refreshed_trace, <- app_assoc. reflexivity. }
    split; [exact Hrun|]. unfold w'. rewrite Hrun. cbn [snd].
    match goal with |- context [loadWindowsAndTabs ?m] =>
      pose proof (loadWindowsAndTabs_selections m) as Hkeep;
      destruct (loadWindowsAndTabs_never_alerts EmptyString m)
        as (refresh & Htrace & _);
      pose proof (fun msg => loadWindowsAndTabs_never_alerts msg m) as Hsilent
    end.
    unfold selections in Hkeep. injection Hkeep as Kb Kr Ky Km.
    split; [rewrite Kb; reflexivity|].
    exists refresh. split.
    + rewrite Htrace. cbn [trace]. rewrite <- app_assoc. reflexivity.
    + intros msg Hin. destruct (Hsilent msg) as (recorded & Hsame & Hnot).
      rewrite Htrace in Hsame. apply app_inv_head in Hsame. subst recorded.
      exact (Hnot Hin).
Qed.

(** ** Drag release *)

Lemma Array_from_Set_spec (arr : list Z) :
  NoDup (Array_from_Set arr) /\ forall x, In x (Array_from_Set arr) <-> In x arr.
Proof.
  unfold Array_from_Set. split.
  - apply NoDup_fold_Set_add. constructor.
  - intros x. rewrite In_fold_Set_add. simpl. tauto.
Qed.

(** C7 (amended): on a drag release whose marquee intersects at least one
    card: with Shift or Cmd (meta) held, Current becomes the union of its
    prior contents and the intersecting ids, in first-occurrence order and
    without duplicates, also when Ctrl is held too; with none of Shift, Cmd
    and Ctrl held, Current is replaced by the intersecting ids; with Ctrl held
    and neither Shift nor Cmd, the drag result is ignored and Current is
    unchanged. *)
Theorem drag_release_updates_current (w : World H) (e : MouseEvent)
    (cards : list Card) (p : Point) :
  isDragging (ui w) = true ->
  dragStart (ui w) = Some p ->
  let selectedIds := intersecting_ids (marquee_rect p e) cards in
  selectedIds <> [] ->
  let blue := blueSelection (ui w) in
  let w' := snd (endDrag e cards w) in
  fst (endDrag e cards w) = Ok tt /\
  isDragging (ui w') = false /\
  (shiftKey e || metaKey e = true ->
     blueSelection (ui w') = Array_from_Set (blue ++ selectedIds) /\
     NoDup (blueSelection (ui w')) /\
     forall id, In id (blueSelection (ui w')) <-> In id blue \/ In id selectedIds) /\
  (shiftKey e = false -> metaKey e = false -> ctrlKey e = false ->
     blueSelection (ui w') = selectedIds) /\
  (shiftKey e = false -> metaKey e = false -> ctrlKey e = true ->
     blueSelection (ui w') = blue).
Proof.
  intros Hdrag Hstart selectedIds Hsel blue w'.
  assert (Hrun : endDrag e cards w =
    (Ok tt,
     mkWorld
       (with_marqueeEl false
          ((if shiftKey e || metaKey e
            then with_blueSelection (Array_from_Set (blue ++ selectedIds))
            else if negb (ctrlKey e) then with_blueSelection selectedIds
                 else fun s => s)
             (with_isDragging false (ui w))))
       (host w) (trace w))).
  { unfold endDrag. unfold_script. cbn [ui host trace]. rewrite Hdrag.
    cbn [negb dragStart with_isDragging]. rewrite Hstart.
    fold selectedIds. destruct selectedIds as [|i ids]; [congruence|].
    cbn [List.length Nat.ltb Nat.leb].
    destruct (shiftKey e || metaKey e); [reflexivity|].
    destruct (ctrlKey e); reflexivity. }
  unfold w'. rewrite Hrun. cbn [fst snd ui].
  split; [reflexivity|]. split.
  { destruct (shiftKey e || metaKey e); [reflexivity|].
    destruct (ctrlKey e); reflexivity. }
  repeat apply conj.
  - intros ->. cbn [blueSelection with_marqueeEl with_blueSelection].
    destruct (Array_from_Set_spec (blue ++ selectedIds)) as [Hnd Hin].
    split; [reflexivity|]. split; [exact Hnd|].
    intros id. rewrite Hin, in_app_iff. reflexivity.
  - intros -> -> ->. reflexivity.
  - intros -> -> ->. reflexivity.
Qed.

(** ** Refresh and the selections *)

Lemma same_snapshot_refl (snapshot : string) : same_snapshot (Some snapshot) snapshot = true.
Proof. apply String.eqb_refl. Qed.

(** C9: a refresh ([loadWindowsAndTabs]) never throws and leaves Current,
    Source, Target and the merge stage as they were, in every state and for
    every answer of the browser.  When the fetched universe has the cached
    snapshot, nothing is redrawn and the cached snapshot, the window mirror
    and the active window are kept; when the fetch fails, the error is logged
    and the cached snapshot, the window mirror and the active window are kept
    as well. *)
Theorem refresh_leaves_selections_untouched (w : World H) :
  let w' := snd (loadWindowsAndTabs w) in
  let mirror_kept :=
    lastSnapshot (ui w') = lastSnapshot (ui w) /\
    windowsData (ui w') = windowsData (ui w) /\
    activeWindowId (ui w') = activeWindowId (ui w) in
  fst (loadWindowsAndTabs w) = Ok tt /\
  blueSelection (ui w') = blueSelection (ui w) /\
  redSelection (ui w') = redSelection (ui w) /\
  yellowSelection (ui w') = yellowSelection (ui w) /\
  mergeMode (ui w') = mergeMode (ui w) /\
  (forall ws h',
     windows_getAll (host (refreshed w)) = (Ok ws, h') ->
     lastSnapshot (ui w) = Some (snapshot_of (sort_windows ws)) ->
     mirror_kept /\
     trace w' = trace w ++ [TabsQuery (ui_url w); WindowsGetAll]) /\
  (forall e h',
     windows_getAll (host (refreshed w)) = (Throw e, h') ->
     mirror_kept /\
     trace w' = trace w ++ [TabsQuery (ui_url w); WindowsGetAll;
                            ConsoleError "Error loading windows:"]).
Proof.
  intros w' mirror_kept.
  pose proof (loadWindowsAndTabs_selections w) as Hsel. unfold selections in Hsel.
  injection Hsel as Hb Hr Hy Hm.
  destruct (refreshed_ui w) as [u Hu].
  assert (Hkept : ui w' = ui (refreshed w) -> mirror_kept).
  { intros Heq. unfold mirror_kept. rewrite Heq, Hu. repeat split. }
  split; [apply loadWindowsAndTabs_ok|].
  repeat (split; [assumption|]). split.
  - intros ws h' Hget Hlast.
    assert (Hrun := loadWindowsAndTabs_unchanged w Hget).
    rewrite Hu in Hrun at 1. cbn [lastSnapshot with_uiWindowId] in Hrun.
    rewrite Hlast in Hrun. specialize (Hrun (same_snapshot_refl _)).
    unfold w'. rewrite Hrun. cbn [snd ui trace]. split.
    + apply Hkept. unfold w'. rewrite Hrun. reflexivity.
    + rewrite refreshed_trace, <- app_assoc. reflexivity.
  - intros e h' Hget.
    assert (Hrun := loadWindowsAndTabs_fetch_failed w Hget).
    unfold w'. rewrite Hrun. cbn [snd ui trace]. split.
    + apply Hkept. unfold w'. rewrite Hrun. reflexivity.
    + rewrite refreshed_trace, <- app_assoc. reflexivity.
Qed.

(** ** Merge All *)

Lemma insert_window_perm (x : Window.t) (ws : list Window.t) :
  Permutation (x :: ws) (insert_window x ws).
Proof.
  induction ws as [|y ys IH]; simpl; [reflexivity|].
  destruct (Window.id x <=? Window.id y); [reflexivity|].
  rewrite perm_swap. constructor. exact IH.
Qed.

Lemma sort_windows_perm (ws : list Window.t) : Permutation ws (sort_windows ws).
Proof.
  induction ws as [|x xs IH]; simpl; [constructor|].
  rewrite <- insert_window_perm. constructor. exact IH.
Qed.

Lemma insert_window_sorted (x : Window.t) (ws : list Window.t) :
  StronglySorted by_id ws -> StronglySorted by_id (insert_window x ws).
Proof.
  induction 1 as [|y ys Hs IH Hall]; simpl.
  - repeat constructor.
  - destruct (Window.id x <=? Window.id y) eqn:Hle.
    + apply Z.leb_le in Hle. constructor; [constructor; assumption|].
      constructor; [exact Hle|].
      eapply Forall_impl; [|exact Hall]. unfold by_id. intros; lia.
    + apply Z.leb_gt in Hle. constructor; [exact IH|].
      eapply Permutation_Forall; [apply insert_window_perm|].
      constructor; [unfold by_id; lia | exact Hall].
Qed.

Lemma sort_windows_sorted (ws : list Window.t) : StronglySorted by_id (sort_windows ws).
Proof.
  induction ws as [|x xs IH]; simpl; [constructor|].
  apply insert_window_sorted. exact IH.
Qed.

Lemma loadWindowsAndTabs_changed (w : World H) ws h' :
  windows_getAll (host (refreshed w)) = (Ok ws, h') ->
  same_snapshot (lastSnapshot (ui w)) (snapshot_of (sort_windows ws)) = false ->
  windowsData (ui (snd (loadWindowsAndTabs w))) = sort_windows ws.
Proof.
  intros Hget Hsame.
  assert (Hlast : lastSnapshot (ui (refreshed w)) = lastSnapshot (ui w))
    by (destruct (refreshed_ui w) as [u ->]; reflexivity).
  unfold loadWindowsAndTabs. rewrite bind_refresh. unfold_script.
  rewrite Hget. cbn [ui host trace]. rewrite Hlast, Hsame.
  cbn [ui host trace snd windowsData with_windowsData].
  destruct (sort_windows ws); [reflexivity|].
  cbn [activeWindowId with_windowsData with_lastSnapshot].
  destruct (negb _); reflexivity.
Qed.

Lemma filter_Boolean_ids (tabs : list Tab.t) :
  Forall (fun tb => Tab.id tb <> 0) tabs ->
  filter Boolean (map Tab.id tabs) = map Tab.id tabs.
Proof.
  induction 1 as [|tb tabs Hid _ IH]; simpl; [reflexivity|].
  unfold Boolean at 1. apply Z.eqb_neq in Hid. rewrite Hid. simpl. f_equal. exact IH.
Qed.

Lemma mergeFromWindow_run (w : World H) target source :
  source <> target ->
  mergeFromWindow target source w =
    bind (chrome_windows_get source)
      (fun src =>
         if (List.length (filter Boolean (tab_ids src)) =? 0)%nat then ret tt
         else bind (chrome_tabs_move (filter Boolean (tab_ids src)) target (-1))
                (fun _ => chrome_windows_update_focused target)) w.
Proof.
  intros Hne. unfold mergeFromWindow. apply Z.eqb_neq in Hne. rewrite Hne. reflexivity.
Qed.

Lemma mergeAll_loop_cons (target : WindowId) win rest (v : World H) :
  mergeAll_loop target (win :: rest) v =
    if Window.id win =? target then mergeAll_loop target rest v
    else match mergeFromWindow target (Window.id win) v with
         | (Ok _, v1) => mergeAll_loop target rest v1
         | (Throw e, v1) => (Throw e, v1)
         end.
Proof.
  cbn [mergeAll_loop]. unfold bind at 1.
  destruct (Window.id win =? target); reflexivity.
Qed.

Lemma mergeAllBtn_run (w : World H) target :
  mergeAll_target (ui (refreshed w)) = Some target ->
  target <> 0 ->
  mergeAllBtn_onclick w =
    match mergeAll_loop target (windowsData (ui w)) (refreshed w) with
    | (Ok _, v) => (Ok tt, snd (loadWindowsAndTabs v))
    | (Throw _, v) =>
        (Ok tt, mkWorld (ui v) (host v)
                  (trace v ++ failure_notice "Merge All failed:" "Merge All failed"))
    end.
Proof.
  intros Htarget Hne.
  assert (Hwd : windowsData (ui (refreshed w)) = windowsData (ui w))
    by (destruct (refreshed_ui w) as [u ->]; reflexivity).
  unfold mergeAllBtn_onclick. rewrite bind_refresh.
  unfold bind at 1. unfold gets at 1. rewrite Htarget.
  unfold Boolean. apply Z.eqb_neq in Hne. rewrite Hne. cbn [negb].
  unfold try_catch. unfold bind at 1. unfold gets at 1. rewrite Hwd.
  unfold bind at 1.
  destruct (mergeAll_loop target (windowsData (ui w)) (refreshed w)) as [[[]|e] v].
  - reflexivity.
  - unfold failure_notice. unfold_script. cbn [ui host trace].
    rewrite <- app_assoc. reflexivity.
Qed.

Lemma mergeAllBtn_no_target (w : World H) :
  truthy (mergeAll_target (ui (refreshed w))) = false ->
  mergeAllBtn_onclick w =
    (Ok tt, mkWorld (ui (refreshed w)) (host (refreshed w))
              (trace w ++ [TabsQuery (ui_url w); Alert "No target window to merge into"])).
Proof.
  intros Hfalsy. unfold mergeAllBtn_onclick. rewrite bind_refresh.
  unfold bind at 1. unfold gets at 1.
  destruct (mergeAll_target (ui (refreshed w))) as [t|]; cbn [truthy] in Hfalsy.
  - rewrite Hfalsy. unfold_script. rewrite refreshed_trace, <- app_assoc. reflexivity.
  - unfold_script. rewrite refreshed_trace, <- app_assoc. reflexivity.
Qed.

Section LoopStep.

Variables (target : WindowId) (win : Window.t) (rest : list Window.t) (v : World H).
Hypothesis other : Window.id win <> target.

Lemma mergeAll_loop_other :
  mergeAll_loop target (win :: rest) v =
    match mergeFromWindow target (Window.id win) v with
    | (Ok _, v1) => mergeAll_loop target rest v1
    | (Throw e, v1) => (Throw e, v1)
    end.
Proof.
  rewrite mergeAll_loop_cons. apply Z.eqb_neq in other. rewrite other. reflexivity.
Qed.

Lemma loop_get_fails e h1 :
  windows_get (Window.id win) (host v) = (Throw e, h1) ->
  mergeAll_loop target (win :: rest) v =
    (Throw e, after_calls v h1 [WindowsGet (Window.id win)]).
Proof.
  intros Hget. rewrite mergeAll_loop_other, mergeFromWindow_run by exact other.
  unfold_script. rewrite Hget. reflexivity.
Qed.

Lemma loop_no_tabs src h1 :
  windows_get (Window.id win) (host v) = (Ok src, h1) ->
  Window.tabs src = [] ->
  mergeAll_loop target (win :: rest) v =
    mergeAll_loop target rest (after_calls v h1 [WindowsGet (Window.id win)]).
Proof.
  intros Hget Hempty. rewrite mergeAll_loop_other, mergeFromWindow_run by exact other.
  unfold_script. rewrite Hget. unfold tab_ids. rewrite Hempty. reflexivity.
Qed.

Section WithTabs.

Variables (src : Window.t) (h1 : H).
Hypothesis fetched : windows_get (Window.id win) (host v) = (Ok src, h1).
Hypothesis some_tabs : Window.tabs src <> [].
Hypothesis ids_truthy : Forall (fun tb => Tab.id tb <> 0) (Window.tabs src).

Lemma mergeFromWindow_with_tabs :
  mergeFromWindow target (Window.id win) v =
    bind (chrome_tabs_move (tab_ids src) target (-1))
      (fun _ => chrome_windows_update_focused target)
      (after_calls v h1 [WindowsGet (Window.id win)]).
Proof.
  rewrite mergeFromWindow_run by exact other.
  unfold bind at 1. unfold chrome_windows_get at 1. unfold call at 1.
  rewrite fetched. unfold tab_ids. rewrite (filter_Boolean_ids ids_truthy).
  destruct (Window.tabs src) as [|tb tbs]; [congruence|]. reflexivity.
Qed.

Lemma loop_move_fails e h2 :
  tabs_move (tab_ids src) target (-1) h1 = (Throw e, h2) ->
  mergeAll_loop target (win :: rest) v =
    (Throw e,
     after_calls v h2 [WindowsGet (Window.id win); TabsMove (tab_ids src) target (-1)]).
Proof.
  intros Hmove. rewrite mergeAll_loop_other, mergeFromWindow_with_tabs.
  unfold after_calls. unfold_script. cbn [ui host trace]. rewrite Hmove.
  rewrite <- app_assoc. reflexivity.
Qed.

Lemma loop_focus_fails e h2 h3 :
  tabs_move (tab_ids src) target (-1) h1 = (Ok tt, h2) ->
  windows_update_focused target h2 = (Throw e, h3) ->
  mergeAll_loop target (win :: rest) v =
    (Throw e,
     after_calls v h3 [WindowsGet (Window.id win); TabsMove (tab_ids src) target (-1);
                       WindowsUpdateFocused target]).
Proof.
  intros Hmove Hfocus. rewrite mergeAll_loop_other, mergeFromWindow_with_tabs.
  unfold after_calls. unfold_script. cbn [ui host trace]. rewrite Hmove.
  cbn [ui host trace]. rewrite Hfocus. rewrite <- !app_assoc. reflexivity.
Qed.

Lemma loop_merges h2 h3 :
  tabs_move (tab_ids src) target (-1) h1 = (Ok tt, h2) ->
  windows_update_focused target h2 = (Ok tt, h3) ->
  mergeAll_loop target (win :: rest) v =
    mergeAll_loop target rest
      (after_calls v h3 [WindowsGet (Window.id win); TabsMove (tab_ids src) target (-1);
                         WindowsUpdateFocused target]).
Proof.
  intros Hmove Hfocus. rewrite mergeAll_loop_other, mergeFromWindow_with_tabs.
  unfold after_calls. unfold_script. cbn [ui host trace]. rewrite Hmove.
  cbn [ui host trace]. rewrite Hfocus. rewrite <- !app_assoc. reflexivity.
Qed.

End WithTabs.

End LoopStep.

(** C4: the Merge All click.  The target is the window the extension page is
    found in, else the last window it was known to be in, else the active
    window, else the first window of the mirror (a missing or zero id counts
    as absent); the mirror is kept sorted by ascending window id by the
    refresh.  The click then walks the mirror in order, one window at a time:
    the target itself is passed over; for any other window the browser is
    asked for its current tabs and, when there are none, nothing more is done
    for it; otherwise all its tab ids (none of them zero, which
    [filter(Boolean)] would drop) are moved in one call to the end (index -1)
    of the target and the target is focused, before the next window is
    looked at.  The first call that fails ends the loop: no call is
    issued for the windows that remain, nothing is undone, the notice
    "Merge All failed" is shown; when no call fails the handler ends in a
    refresh. *)
Theorem merge_all_click (w : World H) :
  let s := ui (refreshed w) in
  let first_window :=
    match windowsData (ui w) with
    | w0 :: _ => Some (Window.id w0)
    | [] => None
    end in
  (forall t0 others h',
     tabs_query (ui_url w) (host w) = (Ok (Some (t0 :: others)), h') ->
     Tab.windowId t0 <> 0 ->
     mergeAll_target s = Some (Tab.windowId t0)) /\
  (truthy (uiWindowId s) = true -> mergeAll_target s = uiWindowId s) /\
  (truthy (uiWindowId s) = false -> truthy (activeWindowId (ui w)) = true ->
     mergeAll_target s = activeWindowId (ui w)) /\
  (truthy (uiWindowId s) = false -> truthy (activeWindowId (ui w)) = false ->
     mergeAll_target s = first_window) /\
  (truthy (mergeAll_target s) = false ->
     mergeAllBtn_onclick w =
       (Ok tt, mkWorld s (host (refreshed w))
                 (trace w ++ [TabsQuery (ui_url w);
                              Alert "No target window to merge into"]))) /\
  (forall target,
     mergeAll_target s = Some target -> target <> 0 ->
     mergeAllBtn_onclick w =
       match mergeAll_loop target (windowsData (ui w)) (refreshed w) with
       | (Ok _, v) => (Ok tt, snd (loadWindowsAndTabs v))
       | (Throw _, v) =>
           (Ok tt, mkWorld (ui v) (host v)
                     (trace v ++ failure_notice "Merge All failed:" "Merge All failed"))
       end) /\
  (forall target win rest (v : World H),
     let next v1 := mergeAll_loop target rest v1 in
     let after := after_calls v in
     let get := WindowsGet (Window.id win) in
     let focus := WindowsUpdateFocused target in
     mergeAll_loop target [] v = (Ok tt, v) /\
     (Window.id win = target -> mergeAll_loop target (win :: rest) v = next v) /\
     (Window.id win <> target ->
      (forall e h1,
         windows_get (Window.id win) (host v) = (Throw e, h1) ->
         mergeAll_loop target (win :: rest) v = (Throw e, after h1 [get])) /\
      (forall src h1,
         windows_get (Window.id win) (host v) = (Ok src, h1) ->
         (Window.tabs src = [] ->
            mergeAll_loop target (win :: rest) v = next (after h1 [get])) /\
         (Window.tabs src <> [] ->
          Forall (fun tb => Tab.id tb <> 0) (Window.tabs src) ->
          let move := TabsMove (tab_ids src) target (-1) in
          (forall e h2,
             tabs_move (tab_ids src) target (-1) h1 = (Throw e, h2) ->
             mergeAll_loop target (win :: rest) v = (Throw e, after h2 [get; move])) /\
          (forall h2,
             tabs_move (tab_ids src) target (-1) h1 = (Ok tt, h2) ->
             (forall e h3,
                windows_update_focused target h2 = (Throw e, h3) ->
                mergeAll_loop target (win :: rest) v =
                  (Throw e, after h3 [get; move; focus])) /\
             (forall h3,
                windows_update_focused target h2 = (Ok tt, h3) ->
                mergeAll_loop target (win :: rest) v =
                  next (after h3 [get; move; focus]))))))) /\
  (forall ws h',
     windows_getAll (host (refreshed w)) = (Ok ws, h') ->
     same_snapshot (lastSnapshot (ui w)) (snapshot_of (sort_windows ws)) = false ->
     windowsData (ui (snd (loadWindowsAndTabs w))) = sort_windows ws /\
     StronglySorted by_id (sort_windows ws) /\
     Permutation ws (sort_windows ws)).
Proof.
  intros s first_window.
  assert (Hs : exists u, s = with_uiWindowId u (ui w)) by apply refreshed_ui.
  destruct Hs as [u Hs].
  assert (Hact : activeWindowId s = activeWindowId (ui w)) by (rewrite Hs; reflexivity).
  assert (Hwd : windowsData s = windowsData (ui w)) by (rewrite Hs; reflexivity).
  split.
  { intros t0 others h' Hq Hne. unfold mergeAll_target, js_or.
    unfold s. rewrite refreshed_located, Hq. cbn [fst truthy].
    unfold Boolean. apply Z.eqb_neq in Hne. rewrite Hne. reflexivity. }
  split.
  { intros Hui. unfold mergeAll_target, js_or. rewrite Hui. reflexivity. }
  split.
  { intros Hui Hactive. unfold mergeAll_target, js_or. rewrite Hui, Hact, Hactive.
    reflexivity. }
  split.
  { intros Hui Hactive. unfold mergeAll_target, js_or.
    rewrite Hui, Hact, Hactive, Hwd. reflexivity. }
  split; [apply mergeAllBtn_no_target|].
  split; [apply mergeAllBtn_run|].
  split.
  { intros target win rest v next after get focus.
    split; [reflexivity|]. split.
    { intros Heq. rewrite mergeAll_loop_cons. apply Z.eqb_eq in Heq. rewrite Heq.
      reflexivity. }
    intros Hother. split; [intros e h1; apply loop_get_fails; exact Hother|].
    intros src h1 Hget. split; [apply loop_no_tabs; assumption|].
    intros Hsome Hids move. split.
    { intros e h2. apply loop_move_fails with (h1 := h1); assumption. }
    intros h2 Hmove. split.
    { intros e h3. apply loop_focus_fails with (h1 := h1); assumption. }
    intros h3. apply loop_merges with (h1 := h1); assumption. }
  intros ws h' Hget Hsame. split; [apply loadWindowsAndTabs_changed with (h' := h'); assumption|].
  split; [apply sort_windows_sorted | apply sort_windows_perm].
Qed.

(** * Beyond the claims *)

(** ** What a computation keeps *)

Section Keeps.

Context {X : Type} (proj : State -> X).

Lemma keeps_ret {A} (a : A) : keeps proj (ret a).
Proof. intros w. reflexivity. Qed.

Lemma keeps_throw {A} (err : string) : keeps proj (throw (A := A) err).
Proof. intros w. reflexivity. Qed.

Lemma keeps_gets {A} (f : State -> A) : keeps proj (gets f).
Proof. intros w. reflexivity. Qed.

Lemma keeps_getURL (path : string) : keeps proj (getURL path).
Proof. intros w. reflexivity. Qed.

Lemma keeps_emit (e : Effect) : keeps proj (emit e).
Proof. intros w. reflexivity. Qed.

Lemma keeps_call {A} (e : Effect) (op : H -> Result A * H) : keeps proj (call e op).
Proof. intros w. unfold call. destruct (op (host w)). reflexivity. Qed.

Lemma keeps_modify (f : State -> State) :
  (forall s, proj (f s) = proj s) -> keeps proj (modify f).
Proof. intros Hf w. apply Hf. Qed.

Lemma keeps_bind {A B} (m : M H A) (f : A -> M H B) :
  keeps proj m -> (forall a, keeps proj (f a)) -> keeps proj (bind m f).
Proof.
  intros Hm Hf w. unfold bind. specialize (Hm w).
  destruct (m w) as [[a|err] w1]; cbn [snd] in *; [|exact Hm].
  rewrite Hf. exact Hm.
Qed.

Lemma keeps_try_catch {A} (m : M H A) (handler : string -> M H A) :
  keeps proj m -> (forall err, keeps proj (handler err)) ->
  keeps proj (try_catch m handler).
Proof.
  intros Hm Hh w. unfold try_catch. specialize (Hm w).
  destruct (m w) as [[a|err] w1]; cbn [snd] in *; [exact Hm|].
  rewrite Hh. exact Hm.
Qed.

Lemma keeps_detached (m : M H unit) : keeps proj m -> keeps proj (detached m).
Proof. intros Hm w. exact (Hm w). Qed.

End Keeps.

Section KeepsHost.

Lemma keeps_host_ret {A} (a : A) : keeps_host (ret a).
Proof. intros w. reflexivity. Qed.

Lemma keeps_host_throw {A} (err : string) : keeps_host (throw (A := A) err).
Proof. intros w. reflexivity. Qed.

Lemma keeps_host_gets {A} (f : State -> A) : keeps_host (gets f).
Proof. intros w. reflexivity. Qed.

Lemma keeps_host_modify (f : State -> State) : keeps_host (modify f).
Proof. intros w. reflexivity. Qed.

Lemma keeps_host_emit (e : Effect) : keeps_host (emit e).
Proof. intros w. reflexivity. Qed.

Lemma keeps_host_bind {A B} (m : M H A) (f : A -> M H B) :
  keeps_host m -> (forall a, keeps_host (f a)) -> keeps_host (bind m f).
Proof.
  intros Hm Hf w. unfold bind. specialize (Hm w).
  destruct (m w) as [[a|err] w1]; cbn [snd] in *; [|exact Hm].
  rewrite Hf. exact Hm.
Qed.

End KeepsHost.

Section OnlyRecords.

Variable allowed : Effect -> bool.

Lemma only_records_ret {A} (a : A) : only_records allowed (ret a).
Proof. intros w. exists []. rewrite app_nil_r. split; reflexivity. Qed.

Lemma only_records_throw {A} (err : string) : only_records allowed (throw (A := A) err).
Proof. intros w. exists []. rewrite app_nil_r. split; reflexivity. Qed.

Lemma only_records_gets {A} (f : State -> A) : only_records allowed (gets f).
Proof. intros w. exists []. rewrite app_nil_r. split; reflexivity. Qed.

Lemma only_records_modify (f : State -> State) : only_records allowed (modify f).
Proof. intros w. exists []. simpl. rewrite app_nil_r. split; reflexivity. Qed.

Lemma only_records_getURL (path : string) : only_records allowed (getURL path).
Proof. intros w. exists []. rewrite app_nil_r. split; reflexivity. Qed.

Lemma only_records_emit (e : Effect) : allowed e = true -> only_records allowed (emit e).
Proof. intros He w. exists [e]. simpl. rewrite He. split; reflexivity. Qed.

Lemma only_records_call {A} (e : Effect) (op : H -> Result A * H) :
  allowed e = true -> only_records allowed (call e op).
Proof.
  intros He w. exists [e]. unfold call. destruct (op (host w)) as [r h'].
  simpl. rewrite He. split; reflexivity.
Qed.

Lemma only_records_bind {A B} (m : M H A) (f : A -> M H B) :
  only_records allowed m -> (forall a, only_records allowed (f a)) ->
  only_records allowed (bind m f).
Proof.
  intros Hm Hf w. unfold bind. destruct (Hm w) as (r1 & Htr1 & Hok1).
  destruct (m w) as [[a|err] w1]; cbn [snd] in *.
  - destruct (Hf a w1) as (r2 & Htr2 & Hok2). exists (r1 ++ r2).
    rewrite Htr2, Htr1, app_assoc, forallb_app, Hok1, Hok2. split; reflexivity.
  - exists r1. split; assumption.
Qed.

Lemma only_records_try_catch {A} (m : M H A) (handler : string -> M H A) :
  only_records allowed m -> (forall err, only_records allowed (handler err)) ->
  only_records allowed (try_catch m handler).
Proof.
  intros Hm Hh w. unfold try_catch. destruct (Hm w) as (r1 & Htr1 & Hok1).
  destruct (m w) as [[a|err] w1]; cbn [snd] in *.
  - exists r1. split; assumption.
  - destruct (Hh err w1) as (r2 & Htr2 & Hok2). exists (r1 ++ r2).
    rewrite Htr2, Htr1, app_assoc, forallb_app, Hok1, Hok2. split; reflexivity.
Qed.

Lemma only_records_detached (m : M H unit) :
  only_records allowed m -> only_records allowed (detached m).
Proof. intros Hm w. exact (Hm w). Qed.

End OnlyRecords.

(** The three walks through the text of a computation. *)
Ltac walk_keeps :=
  repeat
    match goal with
    | |- keeps _ (bind _ _) => apply keeps_bind; [|intros]
    | |- keeps _ (try_catch _ _) => apply keeps_try_catch; [|intros]
    | |- keeps _ (detached _) => apply keeps_detached
    | |- keeps _ (ret _) => apply keeps_ret
    | |- keeps _ (throw _) => apply keeps_throw
    | |- keeps _ (gets _) => apply keeps_gets
    | |- keeps _ (getURL _) => apply keeps_getURL
    | |- keeps _ (emit _) => apply keeps_emit
    | |- keeps _ (call _ _) => apply keeps_call
    | |- keeps _ (modify _) => apply keeps_modify; intros; reflexivity
    | |- keeps _ (if ?c then _ else _) => destruct c
    | |- keeps _ (match ?x with _ => _ end) => destruct x
    end.

Ltac walk_host :=
  repeat
    match goal with
    | |- keeps_host (bind _ _) => apply keeps_host_bind; [|intros]
    | |- keeps_host (ret _) => apply keeps_host_ret
    | |- keeps_host (throw _) => apply keeps_host_throw
    | |- keeps_host (gets _) => apply keeps_host_gets
    | |- keeps_host (modify _) => apply keeps_host_modify
    | |- keeps_host (emit _) => apply keeps_host_emit
    | |- keeps_host (if ?c then _ else _) => destruct c
    | |- keeps_host (match ?x with _ => _ end) => destruct x
    end.

Ltac walk_records :=
  repeat
    match goal with
    | |- only_records _ (bind _ _) => apply only_records_bind; [|intros]
    | |- only_records _ (try_catch _ _) => apply only_records_try_catch; [|intros]
    | |- only_records _ (detached _) => apply only_records_detached
    | |- only_records _ (ret _) => apply only_records_ret
    | |- only_records _ (throw _) => apply only_records_throw
    | |- only_records _ (gets _) => apply only_records_gets
    | |- only_records _ (modify _) => apply only_records_modify
    | |- only_records _ (getURL _) => apply only_records_getURL
    | |- only_records _ (emit _) => apply only_records_emit; reflexivity
    | |- only_records _ (call _ _) => apply only_records_call; reflexivity
    | |- only_records _ (if ?c then _ else _) => destruct c
    | |- only_records _ (match ?x with _ => _ end) => destruct x
    end.

Ltac unfold_handlers :=
  unfold handle, keydown,
    windowTab_click, windowTab_dblclick, toggleAllTabsInWindow, selectAllTabsInWindow,
    card_click, toggleTabSelection, mousedown, mousemove, endDrag, endDrag_timeout,
    splitBtn_onclick, split_execute, mergeBtn_onclick, merge_execute,
    mergeAllBtn_onclick, mergeFromWindow, splitCurrentWindow,
    loadWindowsAndTabs, refreshUiWindowId,
    chrome_windows_create_awaited, window_id_of,
    renderWindowContent, renderWindowTabs, attachTopControls, showEmptyState,
    alert, console_error, chrome_tabs_query, chrome_windows_getAll,
    chrome_windows_get, chrome_windows_create, chrome_tabs_move,
    chrome_windows_update_focused.

(** The refresh only reads: it asks for the extension page and for the
    windows, logs a failed fetch and redraws. *)
Lemma loadWindowsAndTabs_only_reads :
  only_records is_read_or_redraw loadWindowsAndTabs.
Proof. unfold_handlers. walk_records. Qed.

Lemma loadWindowsAndTabs_keeps_staged : keeps staged loadWindowsAndTabs.
Proof. unfold_handlers. walk_keeps. Qed.

Lemma loadWindowsAndTabs_keeps_blue : keeps blueSelection loadWindowsAndTabs.
Proof. unfold_handlers. walk_keeps. Qed.

(** ** Gestures *)

(** X1: the keyboard, click and drag listeners never call the browser: they
    hand it back as it was, record redraws only, and leave the window mirror,
    the cached snapshot and the known window of the page alone. *)
Theorem gestures_leave_browser_and_mirror_alone (ev : Event) :
  is_gesture ev = true ->
  keeps_host (handle ev) /\
  only_records is_redraw (handle ev) /\
  keeps mirror (handle ev) /\
  keeps uiWindowId (handle ev).
Proof.
  intros Hev. destruct ev; try discriminate Hev; clear Hev;
    (split; [|split; [|split]]); unfold_handlers.
  all: try solve [walk_host].
  all: try solve [walk_records].
  all: try solve [walk_keeps].
Qed.

(** X2: except for the Escape key, these listeners leave Source, Target and
    the merge stage as they are; a key other than Escape changes nothing at
    all. *)
Theorem gestures_leave_staging_alone (ev : Event) :
  is_gesture ev = true ->
  ev <> Keydown "Escape" ->
  keeps staged (handle ev) /\
  (forall key, ev = Keydown key -> forall w, handle ev w = (Ok tt, w)).
Proof.
  intros Hev Hkey. destruct ev; try discriminate Hev; clear Hev.
  - cbn [handle]. unfold keydown.
    destruct (String.eqb_spec key "Escape") as [->|Hother];
      [exfalso; apply Hkey; reflexivity|].
    split; [apply keeps_ret | intros; reflexivity].
  - split; [unfold_handlers; walk_keeps | discriminate].
  - split; [unfold_handlers; walk_keeps | discriminate].
  - split; [unfold_handlers; walk_keeps | discriminate].
  - split; [unfold_handlers; walk_keeps | discriminate].
  - split; [unfold_handlers; walk_keeps | discriminate].
  - split; [unfold_handlers; walk_keeps | discriminate].
  - split; [unfold_handlers; walk_keeps | discriminate].
Qed.

Lemma In_without (sel : list Z) (tabId x : Z) :
  In x (filter (fun id => negb (id =? tabId)) sel) <-> In x sel /\ x <> tabId.
Proof. rewrite filter_In, negb_true_iff, Z.eqb_neq. tauto. Qed.

(** One click on a card, listener after listener. *)
Lemma card_click_gesture_run (w : World H) (e : MouseEvent) (cards : list Card) tabId :
  button e = 0 ->
  on_close_btn e = false ->
  under_pointer e cards = [tabId] ->
  run (card_click_gesture e cards tabId) w =
    mkWorld
      (mkState (windowsData (ui w)) (activeWindowId (ui w)) (lastSnapshot (ui w))
         (uiWindowId (ui w)) (after_card_click (ui w) e tabId)
         (redSelection (ui w)) (yellowSelection (ui w)) (mergeMode (ui w))
         false (Some {| px := clientX e; py := clientY e |}) false false)
      (host w) (trace w ++ redraw).
Proof.
  intros Hbutton Hclose Hunder. unfold under_pointer in Hunder.
  destruct w as [[wd act snap page blue red yellow mode dragging anchor marquee flag] h tr].
  unfold card_click_gesture, after_card_click. cbn [run handle].
  unfold mousedown, endDrag, card_click, toggleTabSelection, endDrag_timeout.
  unfold_script. rewrite Hbutton, Hclose.
  cbn -[intersecting_ids marquee_rect Array_from_Set includes filter app].
  rewrite Hunder.
  destruct (shiftKey e), (metaKey e), (ctrlKey e);
    cbn -[Array_from_Set includes filter app];
    destruct (includes red tabId), (includes yellow tabId);
    cbn -[Array_from_Set includes filter app];
    try match goal with
        | |- context [includes ?sel tabId] => destruct (includes sel tabId)
        end;
    cbn -[Array_from_Set includes filter app];
    rewrite <- ?app_assoc; reflexivity.
Qed.
(** X5: a release is handled once.  [endDrag] does nothing when no drag is in
    progress, and it ends the drag it handles: the [mouseleave] that follows a
    [mouseup] finds nothing to do, wherever the pointer is by then. *)
Theorem release_is_handled_once (w : World H) (e1 e2 : MouseEvent)
    (cards1 cards2 : list Card) :
  (isDragging (ui w) = false -> endDrag e1 cards1 w = (Ok tt, w)) /\
  (let w1 := snd (endDrag e1 cards1 w) in
   isDragging (ui w1) = false /\
   endDrag e2 cards2 w1 = (Ok tt, w1)).
Proof.
  assert (Hidle : forall (v : World H) e cards,
            isDragging (ui v) = false -> endDrag e cards v = (Ok tt, v)).
  { intros v e cards Hv. unfold endDrag. unfold_script. rewrite Hv. reflexivity. }
  split; [apply Hidle|]. intros w1.
  assert (Hended : isDragging (ui w1) = false).
  { unfold w1, endDrag. unfold_script. cbn [ui].
    destruct (isDragging (ui w)) eqn:Hdrag; cbn [negb snd ui]; [|exact Hdrag].
    cbn [dragStart with_isDragging].
    destruct (dragStart (ui w)); [|reflexivity].
    destruct (0 <? _)%nat; [|reflexivity].
    destruct (shiftKey e1 || metaKey e1); [reflexivity|].
    destruct (negb (ctrlKey e1)); reflexivity. }
  split; [exact Hended | apply Hidle; exact Hended].
Qed.


(** ** Marquee geometry *)

Lemma rectsIntersect_spec (a b : Rect) :
  rectsIntersect a b = true <->
  left a <= right b /\ left b <= right a /\ top a <= bottom b /\ top b <= bottom a.
Proof.
  unfold rectsIntersect. rewrite negb_true_iff, !orb_false_iff, !Z.gtb_ltb, !Z.ltb_ge.
  tauto.
Qed.

Lemma rects_share_a_point (a b : Rect) :
  well_formed a -> well_formed b ->
  (rectsIntersect a b = true <-> exists x y, contains a x y /\ contains b x y).
Proof.
  intros [Ha1 Ha2] [Hb1 Hb2]. rewrite rectsIntersect_spec. unfold contains. split.
  - intros (H1 & H2 & H3 & H4).
    exists (Z.max (left a) (left b)), (Z.max (top a) (top b)). lia.
  - intros (x & y & ? & ?). lia.
Qed.

(** X7: [rectsIntersect] does not depend on the order of its arguments, and
    for two rectangles whose left is not right of their right and whose top
    is not below their bottom it answers true exactly when they have a point
    in common (borders count). *)
Theorem rectsIntersect_iff_common_point (a b : Rect) :
  rectsIntersect a b = rectsIntersect b a /\
  (well_formed a -> well_formed b ->
   (rectsIntersect a b = true <-> exists x y, contains a x y /\ contains b x y)).
Proof.
  split.
  - unfold rectsIntersect. rewrite !Z.gtb_ltb.
    destruct (right b <? left a), (right a <? left b),
             (bottom b <? top a), (bottom a <? top b); reflexivity.
  - apply rects_share_a_point.
Qed.

(** X8: the marquee is the same rectangle whichever of its two corners the
    drag started from, it contains both the press point and the release
    point, and the ids the release collects are exactly those of the cards
    that share a point with it; a release at the press point collects the
    cards the pointer is on. *)
Theorem marquee_picks_cards_sharing_a_point (p : Point) (e : MouseEvent)
    (cards : list Card) :
  let m := marquee_rect p e in
  let back := {| button := button e; clientX := px p; clientY := py p;
                 shiftKey := shiftKey e; ctrlKey := ctrlKey e; metaKey := metaKey e;
                 on_close_btn := on_close_btn e |} in
  marquee_rect {| px := clientX e; py := clientY e |} back = m /\
  well_formed m /\
  contains m (px p) (py p) /\
  contains m (clientX e) (clientY e) /\
  (Forall (fun c => well_formed (card_rect c)) cards ->
   (forall id,
      In id (intersecting_ids m cards) <->
      exists c x y, In c cards /\ card_tabId c = id /\
                    contains m x y /\ contains (card_rect c) x y) /\
   (clientX e = px p -> clientY e = py p ->
    forall id,
      In id (intersecting_ids m cards) <->
      exists c, In c cards /\ card_tabId c = id /\
                contains (card_rect c) (px p) (py p))).
Proof.
  intros m back.
  assert (Hwf : well_formed m) by (unfold well_formed, m, marquee_rect; cbn; lia).
  split.
  { unfold m, marquee_rect. cbn. f_equal; lia. }
  split; [exact Hwf|].
  split; [unfold contains, m, marquee_rect; cbn; lia|].
  split; [unfold contains, m, marquee_rect; cbn; lia|].
  intros Hcards. rewrite Forall_forall in Hcards. unfold intersecting_ids. split.
  - intros id. rewrite in_map_iff. split.
    + intros (c & Hid & Hin). apply filter_In in Hin. destruct Hin as [Hc Hi].
      apply (rects_share_a_point Hwf (Hcards c Hc)) in Hi.
      destruct Hi as (x & y & Hm & Hcard). exists c, x, y. tauto.
    + intros (c & x & y & Hc & Hid & Hm & Hcard). exists c. split; [exact Hid|].
      apply filter_In. split; [exact Hc|].
      apply (rects_share_a_point Hwf (Hcards c Hc)). exists x, y. tauto.
  - intros Hx Hy id. rewrite in_map_iff.
    assert (Hpoint : forall c, In c cards ->
              (rectsIntersect m (card_rect c) = true <->
               contains (card_rect c) (px p) (py p))).
    { intros c Hc. rewrite rectsIntersect_spec.
      specialize (Hcards c Hc). unfold well_formed in Hcards.
      unfold contains, m, marquee_rect. cbn. rewrite Hx, Hy, !Z.min_id, !Z.max_id. lia. }
    split.
    + intros (c & Hid & Hin). apply filter_In in Hin. destruct Hin as [Hc Hi].
      exists c. split; [exact Hc|]. split; [exact Hid|]. apply Hpoint; assumption.
    + intros (c & Hc & Hid & Hon). exists c. split; [exact Hid|].
      apply filter_In. split; [exact Hc|]. apply Hpoint; assumption.
Qed.

(** ** Union on release *)

Lemma fold_Set_add_extends (xs acc : list Z) :
  exists added,
    fold_left Set_add xs acc = acc ++ added /\
    NoDup added /\
    (forall x, In x added <-> In x xs /\ ~ In x acc).
Proof.
  revert acc. induction xs as [|y ys IH]; intros acc; cbn [fold_left].
  - exists []. rewrite app_nil_r. split; [reflexivity|]. split; [constructor|].
    cbn. tauto.
  - unfold Set_add at 2. destruct (includes acc y) eqn:Hy.
    + apply includes_In in Hy. destruct (IH acc) as (added & Heq & Hnd & Hin).
      exists added. split; [exact Heq|]. split; [exact Hnd|].
      intros x. rewrite Hin. cbn. split; [tauto|]. intros [[<-|Hx] Hno]; tauto.
    + apply includes_not_In in Hy. destruct (IH (acc ++ [y])) as (added & Heq & Hnd & Hin).
      exists (y :: added). rewrite Heq, <- app_assoc. split; [reflexivity|]. split.
      * constructor; [|exact Hnd]. rewrite Hin, in_app_iff. cbn. tauto.
      * intros x. cbn. rewrite Hin, in_app_iff. cbn.
        destruct (Z.eq_dec y x) as [<-|Hne]; [tauto|]. tauto.
Qed.

Lemma fold_Set_add_disjoint (xs acc : list Z) :
  NoDup xs -> (forall x, In x xs -> ~ In x acc) ->
  fold_left Set_add xs acc = acc ++ xs.
Proof.
  intros Hnd. revert acc.
  induction Hnd as [|y ys Hy Hnd IH]; intros acc Hdis; cbn [fold_left].
  - rewrite app_nil_r. reflexivity.
  - unfold Set_add at 2.
    assert (Hno : includes acc y = false)
      by (apply includes_not_In, Hdis; left; reflexivity).
    rewrite Hno, IH.
    + rewrite <- app_assoc. reflexivity.
    + intros x Hx. rewrite in_app_iff. cbn. intros [Hacc|[<-|[]]].
      * exact (Hdis x (or_intror Hx) Hacc).
      * exact (Hy Hx).
Qed.

Lemma fold_Set_add_NoDup (xs : list Z) :
  NoDup xs -> fold_left Set_add xs [] = xs.
Proof.
  intros Hnd. apply (@fold_Set_add_disjoint xs [] Hnd). intros x _ [].
Qed.

(** X9: a release with Shift or Cmd held, over a Current without duplicates,
    keeps Current in place and in order and appends the ids the marquee adds,
    each once and in the order the cards are met; when all the collected ids
    are in Current already, Current is left exactly as it is. *)
Theorem union_release_appends_new_ids (w : World H) (e : MouseEvent)
    (cards : list Card) (p : Point) :
  isDragging (ui w) = true ->
  dragStart (ui w) = Some p ->
  shiftKey e || metaKey e = true ->
  NoDup (blueSelection (ui w)) ->
  let selectedIds := intersecting_ids (marquee_rect p e) cards in
  let blue := blueSelection (ui w) in
  let blue' := blueSelection (ui (snd (endDrag e cards w))) in
  (exists added,
     blue' = blue ++ added /\
     NoDup added /\
     (forall id, In id added <-> In id selectedIds /\ ~ In id blue)) /\
  ((forall id, In id selectedIds -> In id blue) -> blue' = blue).
Proof.
  intros Hdrag Hstart Hmod Hnd selectedIds blue blue'.
  assert (Hblue' : blue' = fold_left Set_add selectedIds blue).
  { unfold blue', endDrag. unfold_script. cbn [ui]. rewrite Hdrag.
    cbn [negb dragStart with_isDragging ui]. rewrite Hstart. fold selectedIds.
    destruct selectedIds as [|i ids] eqn:Hsel.
    - reflexivity.
    - cbn [List.length Nat.ltb Nat.leb]. rewrite Hmod.
      cbn [snd ui blueSelection with_marqueeEl with_blueSelection with_isDragging].
      unfold Array_from_Set. rewrite fold_left_app.
      f_equal. exact (fold_Set_add_NoDup Hnd). }
  destruct (fold_Set_add_extends selectedIds blue) as (added & Heq & Hadded & Hin).
  split.
  - exists added. rewrite Hblue', Heq. split; [reflexivity|]. split; [exact Hadded | exact Hin].
  - intros Hall. rewrite Hblue', Heq.
    destruct added as [|a added]; [apply app_nil_r|].
    exfalso. destruct (proj1 (Hin a) (or_introl eq_refl)) as [Hs Hno].
    exact (Hno (Hall a Hs)).
Qed.

(** ** The window of a set of tabs *)

Lemma window_has_tab_in_spec (tabIds : list TabId) (tabs : list Tab.t) :
  window_has_tab_in tabIds tabs = true <->
  exists tab, In tab tabs /\ In (Tab.id tab) tabIds.
Proof.
  induction tabs as [|tab rest IH]; cbn [window_has_tab_in].
  - split; [discriminate | intros (t & [] & _)].
  - destruct (includes tabIds (Tab.id tab)) eqn:Hin.
    + apply includes_In in Hin. split; [|reflexivity]. intros _. exists tab. cbn. tauto.
    + apply includes_not_In in Hin. rewrite IH. split.
      * intros (t & Ht & Hid). exists t. cbn. tauto.
      * intros (t & [<-|Ht] & Hid); [contradiction|]. exists t. tauto.
Qed.

(** X10: [getWindowIdForTabs] answers with the id of the first window of the
    mirror, in mirror order, that holds one of the given tabs, and with
    nothing ([null]) exactly when no window of the mirror holds any of them;
    it changes nothing. *)
Theorem getWindowIdForTabs_first_match (w : World H) (tabIds : list TabId) :
  let holds win := exists tab, In tab (Window.tabs win) /\ In (Tab.id tab) tabIds in
  exists r,
    getWindowIdForTabs tabIds w = (Ok r, w) /\
    match r with
    | Some windowId =>
        exists before win after,
          windowsData (ui w) = before ++ win :: after /\
          Window.id win = windowId /\
          holds win /\
          (forall win0, In win0 before -> ~ holds win0)
    | None => forall win, In win (windowsData (ui w)) -> ~ holds win
    end.
Proof.
  intros holds. exists (getWindowIdForTabs_in tabIds (windowsData (ui w))).
  split; [reflexivity|].
  induction (windowsData (ui w)) as [|win rest IH]; cbn [getWindowIdForTabs_in].
  - intros win [].
  - destruct (window_has_tab_in tabIds (Window.tabs win)) eqn:Hhas.
    + apply window_has_tab_in_spec in Hhas. exists [], win, rest.
      repeat split; [exact Hhas | intros win0 []].
    + assert (Hno : ~ holds win).
      { intros Hh. apply window_has_tab_in_spec in Hh. congruence. }
      destruct (getWindowIdForTabs_in tabIds rest) as [windowId|].
      * destruct IH as (before & win1 & after & Heq & Hid & Hh & Hfirst).
        exists (win :: before), win1, after. rewrite Heq.
        repeat split; try assumption. intros win0 [<-|Hin]; [exact Hno | auto].
      * intros win0 [<-|Hin]; [exact Hno | auto].
Qed.

(** ** Locating the extension page *)

(** X11: [refreshUiWindowId] never throws and issues exactly one query.  When
    the query answers with at least one tab, [uiWindowId] becomes the window
    of the first one; when it answers with no tab, with [undefined] or with an
    exception, the last known value is kept.  The value returned is the value
    of [uiWindowId], and nothing else in the script's state changes. *)
Theorem refreshUiWindowId_locates_or_keeps (w : World H) :
  let answer := fst (tabs_query (ui_url w) (host w)) in
  let w' := snd (refreshUiWindowId w) in
  fst (refreshUiWindowId w) = Ok (uiWindowId (ui w')) /\
  ui w' = with_uiWindowId (uiWindowId (ui w')) (ui w) /\
  host w' = snd (tabs_query (ui_url w) (host w)) /\
  trace w' = trace w ++ [TabsQuery (ui_url w)] /\
  (forall t0 others, answer = Ok (Some (t0 :: others)) ->
     uiWindowId (ui w') = Some (Tab.windowId t0)) /\
  (answer = Ok (Some []) \/ answer = Ok None \/ (exists err, answer = Throw err) ->
     uiWindowId (ui w') = uiWindowId (ui w)).
Proof.
  intros answer w'. unfold answer, w', ui_url.
  destruct w as [s h tr]. unfold refreshUiWindowId. unfold_script. cbn [ui host trace].
  destruct (tabs_query (runtime_getURL "ui.html" h) h) as [[[[|t0 l]|]|err] h'];
    cbn [fst snd ui host trace uiWindowId with_uiWindowId].
  all: split; [reflexivity|].
  all: split; [destruct s; reflexivity|].
  all: split; [reflexivity|].
  all: split; [reflexivity|].
  all: split; [intros t1 others Heq; congruence|].
  all: try (intros _; reflexivity).
  intros [Heq|[Heq|[err Heq]]]; discriminate.
Qed.

(** ** The stages of the merge *)

Lemma merge_execute_keeps_blue : keeps blueSelection merge_execute.
Proof. unfold_handlers. walk_keeps. Qed.

(** Whatever the browser answers, the stage-3 click ends idle with Source and
    Target empty. *)
Lemma merge_stage3_always_clears (w1 : World H) :
  let r :=
    try_catch merge_execute
      (fun _ =>
         bind (console_error "Merge failed:") (fun _ =>
         bind (alert "Merge failed") (fun _ =>
         bind (modify (with_mergeMode ModeNull)) (fun _ =>
         bind (modify (with_redSelection [])) (fun _ =>
         bind (modify (with_yellowSelection [])) (fun _ =>
         renderWindowContent)))))) w1 in
  fst r = Ok tt /\ selections (ui (snd r)) = (blueSelection (ui w1), [], [], ModeNull).
Proof.
  cbn zeta. unfold try_catch.
  pose proof (merge_execute_keeps_blue w1) as Hblue.
  assert (Hcases :
    (exists w2, merge_execute w1 = (Ok tt, w2) /\ staged (ui w2) = ([], [], ModeNull)) \/
    (exists err w2, merge_execute w1 = (Throw err, w2))).
  { unfold merge_execute. unfold_script. cbn [ui host trace].
    destruct (windows_create _ (host w1)) as [[newWin|err] h1]; cbn [ui host trace];
      [|right; eauto].
    destruct (0 <? _)%nat.
    - destruct newWin as [nw|]; cbn [ui host trace]; [|right; eauto].
      destruct (tabs_move _ _ _ h1) as [[[]|err] h2]; cbn [ui host trace];
        [|right; eauto].
      left. eexists. split; [reflexivity|].
      rewrite loadWindowsAndTabs_keeps_staged. reflexivity.
    - left. eexists. split; [reflexivity|].
      rewrite loadWindowsAndTabs_keeps_staged. reflexivity. }
  destruct Hcases as [(w2 & Hrun & Hstaged)|(err & w2 & Hrun)]; rewrite Hrun in *;
    cbn [fst snd] in *.
  - split; [reflexivity|]. unfold selections. unfold staged in Hstaged.
    injection Hstaged as Hr Hy Hm. rewrite Hblue, Hr, Hy, Hm. reflexivity.
  - unfold_script. cbn [fst snd ui]. split; [reflexivity|].
    unfold selections. cbn. rewrite Hblue. reflexivity.
Qed.

Lemma mergeBtn_onclick_selections (w : World H) :
  let w' := snd (mergeBtn_onclick w) in
  let blue := blueSelection (ui w) in
  fst (mergeBtn_onclick w) = Ok tt /\
  selections (ui w') =
    match mergeMode (ui w) with
    | ModeYellow => (blue, [], [], ModeNull)
    | ModeNull =>
        match blue with
        | [] => selections (ui w)
        | _ :: _ => ([], blue, yellowSelection (ui w), ModeRed)
        end
    | ModeRed =>
        match blue with
        | [] => selections (ui w)
        | _ :: _ => ([], redSelection (ui w), blue, ModeYellow)
        end
    end.
Proof.
  intros w' blue. unfold w', blue.
  pose proof (refreshed_selections w) as Hsel. unfold selections in Hsel.
  injection Hsel as Hb Hr Hy Hm.
  destruct (mergeMode (ui w)) eqn:Hmode;
    [destruct (blueSelection (ui w)) as [|b bs] eqn:Hblue
    |destruct (blueSelection (ui w)) as [|b bs] eqn:Hblue |].
  - rewrite mergeBtn_no_selection by congruence. cbn [fst snd ui].
    split; [reflexivity|]. unfold selections. rewrite Hb, Hr, Hy, Hm, Hblue, Hmode.
    reflexivity.
  - rewrite mergeBtn_stage1 by congruence. cbn [fst snd ui].
    split; [reflexivity|]. unfold selections. cbn. rewrite Hy, Hblue. reflexivity.
  - rewrite mergeBtn_no_selection by congruence. cbn [fst snd ui].
    split; [reflexivity|]. unfold selections. rewrite Hb, Hr, Hy, Hm, Hblue, Hmode.
    reflexivity.
  - rewrite mergeBtn_stage2 by congruence. cbn [fst snd ui].
    split; [reflexivity|]. unfold selections. cbn. rewrite Hr, Hblue. reflexivity.
  - rewrite (mergeBtn_stage3 w Hmode).
    destruct (merge_stage3_always_clears (refreshed w)) as [Hok Hcleared].
    split; [exact Hok|]. rewrite Hcleared, Hb. reflexivity.
Qed.

(** X12: what a Merge click does to the selections, for every state and
    every browser: from idle or source-staged with an empty Current, nothing;
    from idle, Current becomes Source; from source-staged, Current becomes
    Target; from target-staged, Source and Target are emptied and the stage is
    idle again whether the browser accepted the calls or not, Current being
    kept.  The handler itself never throws. *)
Theorem merge_click_stage_transitions (w : World H) :
  let w' := snd (mergeBtn_onclick w) in
  let blue := blueSelection (ui w) in
  fst (mergeBtn_onclick w) = Ok tt /\
  selections (ui w') =
    match mergeMode (ui w) with
    | ModeYellow => (blue, [], [], ModeNull)
    | ModeNull =>
        match blue with
        | [] => selections (ui w)
        | _ :: _ => ([], blue, yellowSelection (ui w), ModeRed)
        end
    | ModeRed =>
        match blue with
        | [] => selections (ui w)
        | _ :: _ => ([], redSelection (ui w), blue, ModeYellow)
        end
    end.
Proof. exact (mergeBtn_onclick_selections w). Qed.

(** X13: a failed stage-3 merge.  When the window creation throws, when the
    new window is [undefined] while ids remain to be moved, or when the move
    is rejected, the handler logs the error, shows "Merge failed", empties
    Source and Target, goes back to idle and redraws; it starts no refresh and
    leaves Current as it is. *)
Theorem merge_stage3_failure (w : World H) first rest :
  mergeMode (ui w) = ModeYellow ->
  redSelection (ui w) ++ yellowSelection (ui w) = first :: rest ->
  let failed h calls :=
    mergeBtn_onclick w =
      (Ok tt,
       mkWorld (with_yellowSelection []
                  (with_redSelection [] (with_mergeMode ModeNull (ui (refreshed w)))))
               h
               (trace w ++ TabsQuery (ui_url w) :: calls
                        ++ failure_notice "Merge failed:" "Merge failed" ++ redraw)) in
  (forall e h1,
     windows_create (Some first) (host (refreshed w)) = (Throw e, h1) ->
     failed h1 [WindowsCreate (Some first)]) /\
  (forall h1,
     rest <> [] ->
     windows_create (Some first) (host (refreshed w)) = (Ok None, h1) ->
     failed h1 [WindowsCreate (Some first)]) /\
  (forall newWin e h1 h2,
     rest <> [] ->
     windows_create (Some first) (host (refreshed w)) = (Ok (Some newWin), h1) ->
     tabs_move rest (Window.id newWin) (-1) h1 = (Throw e, h2) ->
     failed h2 [WindowsCreate (Some first); TabsMove rest (Window.id newWin) (-1)]).
Proof.
  intros Hmode Hcomb failed.
  pose proof (refreshed_selections w) as Hsel. unfold selections in Hsel.
  injection Hsel as Hb Hr Hy Hm.
  assert (Hfail : forall h calls e,
    merge_execute (refreshed w) =
      (Throw e, mkWorld (ui (refreshed w)) h (trace (refreshed w) ++ calls)) ->
    failed h calls).
  { intros h calls e Hthrow. unfold failed.
    rewrite (mergeBtn_stage3 w Hmode). unfold try_catch. rewrite Hthrow.
    unfold failure_notice, redraw. unfold_script. cbn [ui host trace].
    rewrite refreshed_trace, <- !app_assoc. reflexivity. }
  split; [|split].
  - intros e h1 Hcreate. apply (Hfail _ _ e).
    unfold merge_execute. unfold_script. cbn [ui host trace]. rewrite Hr, Hy, Hcomb.
    cbn [nth_error]. rewrite Hcreate. reflexivity.
  - intros h1 Hrest Hcreate. eapply (Hfail _ _ _).
    unfold merge_execute. unfold_script. cbn [ui host trace]. rewrite Hr, Hy, Hcomb.
    cbn [nth_error skipn]. rewrite Hcreate.
    destruct rest as [|r rest]; [congruence|]. reflexivity.
  - intros newWin e h1 h2 Hrest Hcreate Hmove. apply (Hfail _ _ e).
    unfold merge_execute. unfold_script. cbn [ui host trace]. rewrite Hr, Hy, Hcomb.
    cbn [nth_error skipn]. rewrite Hcreate.
    destruct rest as [|r rest]; [congruence|].
    cbn [ui host trace List.length Nat.ltb Nat.leb]. rewrite Hmove.
    cbn [ui host trace]. rewrite <- app_assoc. reflexivity.
Qed.

(** ** What holds in every state the script can reach *)

Section Maintains.

Variable I : State -> Prop.

Lemma maintains_ret {A} (a : A) : maintains I (ret a).
Proof. intros w Hw. exact Hw. Qed.

Lemma maintains_throw {A} (err : string) : maintains I (throw (A := A) err).
Proof. intros w Hw. exact Hw. Qed.

Lemma maintains_gets {A} (f : State -> A) : maintains I (gets f).
Proof. intros w Hw. exact Hw. Qed.

Lemma maintains_emit (e : Effect) : maintains I (emit e).
Proof. intros w Hw. exact Hw. Qed.

Lemma maintains_call {A} (e : Effect) (op : H -> Result A * H) : maintains I (call e op).
Proof. intros w Hw. unfold call. destruct (op (host w)). exact Hw. Qed.

Lemma maintains_modify (f : State -> State) :
  (forall s, I s -> I (f s)) -> maintains I (modify f).
Proof. intros Hf w Hw. apply Hf. exact Hw. Qed.

Lemma maintains_bind {A B} (m : M H A) (f : A -> M H B) :
  maintains I m -> (forall a, maintains I (f a)) -> maintains I (bind m f).
Proof.
  intros Hm Hf w Hw. unfold bind. specialize (Hm w Hw).
  destruct (m w) as [[a|err] w1]; cbn [snd] in *; [|exact Hm].
  apply Hf. exact Hm.
Qed.

Lemma maintains_try_catch {A} (m : M H A) (handler : string -> M H A) :
  maintains I m -> (forall err, maintains I (handler err)) ->
  maintains I (try_catch m handler).
Proof.
  intros Hm Hh w Hw. unfold try_catch. specialize (Hm w Hw).
  destruct (m w) as [[a|err] w1]; cbn [snd] in *; [exact Hm|].
  apply Hh. exact Hm.
Qed.

Lemma maintains_detached (m : M H unit) : maintains I m -> maintains I (detached m).
Proof. intros Hm w Hw. exact (Hm w Hw). Qed.

End Maintains.

(** Walks a computation whose assignments leave the fields [I] reads alone. *)
Ltac walk_maintains :=
  repeat
    match goal with
    | |- maintains _ (bind _ _) => apply maintains_bind; [|intros]
    | |- maintains _ (try_catch _ _) => apply maintains_try_catch; [|intros]
    | |- maintains _ (detached _) => apply maintains_detached
    | |- maintains _ (ret _) => apply maintains_ret
    | |- maintains _ (throw _) => apply maintains_throw
    | |- maintains _ (gets _) => apply maintains_gets
    | |- maintains _ (getURL _) => apply maintains_gets
    | |- maintains _ (emit _) => apply maintains_emit
    | |- maintains _ (call _ _) => apply maintains_call
    | |- maintains _ (modify _) =>
        apply maintains_modify; let s := fresh "s" in let Hs := fresh "Hs" in
        intros s Hs; exact Hs
    | |- maintains _ (if ?c then _ else _) => destruct c
    | |- maintains _ (match ?x with _ => _ end) => destruct x
    end.

Ltac unfold_handlers_above_load :=
  unfold handle, keydown,
    windowTab_click, windowTab_dblclick, toggleAllTabsInWindow, selectAllTabsInWindow,
    card_click, toggleTabSelection, mousedown, mousemove, endDrag, endDrag_timeout,
    splitBtn_onclick, split_execute, mergeBtn_onclick, merge_execute,
    mergeAllBtn_onclick, mergeFromWindow, splitCurrentWindow,
    chrome_windows_create_awaited, window_id_of,
    renderWindowContent, renderWindowTabs, attachTopControls, showEmptyState,
    alert, console_error, chrome_tabs_query, chrome_windows_getAll,
    chrome_windows_get, chrome_windows_create, chrome_tabs_move,
    chrome_windows_update_focused.

Lemma mergeAll_loop_maintains (I : State -> Prop) target wins :
  maintains I (mergeAll_loop target wins).
Proof.
  induction wins as [|win rest IH]; cbn [mergeAll_loop].
  - apply maintains_ret.
  - apply maintains_bind; [|intros; exact IH].
    unfold mergeFromWindow, chrome_windows_get, chrome_tabs_move,
      chrome_windows_update_focused.
    walk_maintains.
Qed.

Lemma refreshUiWindowId_maintains (I : State -> Prop) :
  (forall u s, I s -> I (with_uiWindowId u s)) ->
  maintains I refreshUiWindowId.
Proof.
  intros HI w Hw. change (snd (refreshUiWindowId w)) with (refreshed w).
  destruct (refreshed_ui w) as [u ->]. apply HI. exact Hw.
Qed.

Lemma loadWindowsAndTabs_mirror (w : World H) :
  mirror (ui (snd (loadWindowsAndTabs w))) = mirror (ui w) \/
  exists ws,
    mirror (ui (snd (loadWindowsAndTabs w))) =
      (sort_windows ws, Some (snapshot_of (sort_windows ws))).
Proof.
  assert (Hsame : mirror (ui (refreshed w)) = mirror (ui w))
    by (destruct (refreshed_ui w) as [u ->]; reflexivity).
  unfold loadWindowsAndTabs. rewrite bind_refresh. unfold_script.
  destruct (windows_getAll (host (refreshed w))) as [[ws|e] h']; cbn [ui host trace snd];
    [|left; exact Hsame].
  destruct (same_snapshot _ _); [left; exact Hsame|]. right. exists ws.
  cbn [ui host trace snd windowsData with_windowsData].
  destruct (sort_windows ws); [reflexivity|].
  cbn [activeWindowId with_windowsData with_lastSnapshot].
  destruct (negb _); reflexivity.
Qed.

Lemma loadWindowsAndTabs_maintains_mirror_ok : maintains mirror_ok loadWindowsAndTabs.
Proof.
  intros w Hw. unfold mirror_ok in *.
  destruct (loadWindowsAndTabs_mirror w) as [Hsame|[ws Hnew]];
    unfold mirror in *.
  - injection Hsame as Hwd Hlast. rewrite Hwd, Hlast. exact Hw.
  - injection Hnew as Hwd Hlast. rewrite Hwd, Hlast.
    split; [apply sort_windows_sorted | right; reflexivity].
Qed.

Lemma handle_maintains_mirror_ok (ev : Event) : maintains mirror_ok (handle ev).
Proof.
  destruct ev; unfold_handlers_above_load; walk_maintains;
    first [ apply loadWindowsAndTabs_maintains_mirror_ok
          | apply mergeAll_loop_maintains
          | apply refreshUiWindowId_maintains; intros u s Hs; exact Hs ].
Qed.

Lemma stage_ok_staged (s s' : State) : staged s' = staged s -> stage_ok s -> stage_ok s'.
Proof.
  unfold staged, stage_ok. intros Heq. injection Heq as -> -> ->. tauto.
Qed.

Lemma mergeAll_loop_keeps {X} (proj : State -> X) target wins :
  keeps proj (mergeAll_loop target wins).
Proof.
  induction wins as [|win rest IH]; cbn [mergeAll_loop].
  - apply keeps_ret.
  - apply keeps_bind; [|intros; exact IH].
    unfold mergeFromWindow, chrome_windows_get, chrome_tabs_move,
      chrome_windows_update_focused.
    walk_keeps.
Qed.

Lemma handle_keeps_staged (ev : Event) :
  (forall key, ev <> Keydown key) -> ev <> MergeClick ->
  keeps staged (handle ev).
Proof.
  intros Hkey Hmerge.
  destruct ev; try (exfalso; apply (Hkey key); reflexivity);
    try (exfalso; apply Hmerge; reflexivity);
    unfold_handlers; walk_keeps; apply mergeAll_loop_keeps.
Qed.

Lemma handle_maintains_stage_ok (ev : Event) : maintains stage_ok (handle ev).
Proof.
  intros w Hw.
  destruct ev.
  1: { cbn [handle]. unfold keydown. destruct (String.eqb key "Escape"); [|exact Hw].
       unfold_script. cbn. unfold stage_ok. cbn. split; reflexivity. }
  5: { cbn [handle]. destruct (mergeBtn_onclick_selections w) as [_ Hsel].
       revert Hsel Hw. unfold stage_ok, selections.
       destruct (mergeMode (ui w)); destruct (blueSelection (ui w));
         intros Hsel; injection Hsel as _ -> -> ->; intuition congruence. }
  all: eapply stage_ok_staged; [apply handle_keeps_staged; discriminate | exact Hw].
Qed.

Lemma run_maintains (I : State -> Prop) :
  (forall ev, maintains I (handle ev)) ->
  forall evs w, I (ui w) -> I (ui (run evs w)).
Proof.
  intros Hstep evs. induction evs as [|ev rest IH]; intros w Hw; cbn [run].
  - exact Hw.
  - apply IH, Hstep. exact Hw.
Qed.

(** X14: in every state the script reaches from its initial state, whatever
    the events and whatever the browser answers, the merge stage and the
    staged selections agree: idle means Source and Target are empty,
    source-staged means Source is not empty and Target is, target-staged
    means neither is empty. *)
Theorem stage_agrees_with_staged_selections (h : H) (evs : list Event) :
  stage_ok (ui (run evs (start initial_state h))).
Proof.
  apply run_maintains; [exact handle_maintains_stage_ok|].
  unfold stage_ok. cbn. split; reflexivity.
Qed.

(** X15: in every state the script reaches from its initial state, the
    window mirror is sorted by ascending window id, and the cached snapshot
    is the snapshot of that very mirror (or there is none yet and the mirror
    is empty). *)
Theorem mirror_is_sorted_and_cached (h : H) (evs : list Event) :
  mirror_ok (ui (run evs (start initial_state h))).
Proof.
  apply run_maintains; [exact handle_maintains_mirror_ok|].
  unfold mirror_ok. cbn. split; [constructor | left; split; reflexivity].
Qed.

(** ** What the controls ask of the browser *)

Lemma mergeAll_loop_only_records allowed target wins :
  (forall id, allowed (WindowsGet id) = true) ->
  (forall ids id index, allowed (TabsMove ids id index) = true) ->
  (forall id, allowed (WindowsUpdateFocused id) = true) ->
  only_records allowed (mergeAll_loop target wins).
Proof.
  intros Hget Hmove Hfocus.
  induction wins as [|win rest IH]; cbn [mergeAll_loop].
  - apply only_records_ret.
  - apply only_records_bind; [|intros; exact IH].
    unfold mergeFromWindow, chrome_windows_get, chrome_tabs_move,
      chrome_windows_update_focused.
    repeat
      match goal with
      | |- only_records _ (bind _ _) => apply only_records_bind; [|intros]
      | |- only_records _ (ret _) => apply only_records_ret
      | |- only_records _ (call (WindowsGet _) _) => apply only_records_call, Hget
      | |- only_records _ (call (TabsMove _ _ _) _) => apply only_records_call, Hmove
      | |- only_records _ (call (WindowsUpdateFocused _) _) =>
          apply only_records_call, Hfocus
      | |- only_records _ (if ?c then _ else _) => destruct c
      end.
Qed.

(** X16: what each part of the script may ask of the browser.  A refresh only
    reads (the query for the page, the list of windows), logs and redraws:
    it never creates a window, moves a tab, focuses a window or shows a
    notice.  Merge All never creates a window.  Merge and Split never read a
    single window and never change the focus. *)
Theorem controls_call_profile :
  only_records is_read_or_redraw loadWindowsAndTabs /\
  only_records is_not_create mergeAllBtn_onclick /\
  only_records is_not_get_or_focus mergeBtn_onclick /\
  only_records is_not_get_or_focus splitBtn_onclick.
Proof.
  split; [exact loadWindowsAndTabs_only_reads|].
  split; [|split]; unfold_handlers; walk_records.
  apply mergeAll_loop_only_records; reflexivity.
Qed.

(** ** No blank window *)

Lemma never_records_create_none_load : never_records (WindowsCreate None) loadWindowsAndTabs.
Proof. unfold_handlers. walk_script. Qed.

Lemma mergeAll_loop_never_creates target wins :
  never_records (WindowsCreate None) (mergeAll_loop target wins).
Proof.
  induction wins as [|win rest IH]; cbn [mergeAll_loop].
  - apply never_records_ret.
  - apply never_records_bind; [|intros; exact IH].
    unfold mergeFromWindow, chrome_windows_get, chrome_tabs_move,
      chrome_windows_update_focused.
    walk_script.
Qed.

(** After the creation call with a tab id, neither control creates again. *)
Lemma seeded_split_never_blank (first : TabId) (rest : list TabId) :
  never_records (WindowsCreate None)
    (try_catch
       (bind (chrome_windows_create (Some first)) (fun newWin =>
        bind (if (0 <? List.length rest)%nat
              then bind (window_id_of newWin)
                     (fun windowId => chrome_tabs_move rest windowId (-1))
              else ret tt) (fun _ =>
        bind (modify (with_blueSelection [])) (fun _ =>
        bind renderWindowContent (fun _ =>
        detached loadWindowsAndTabs)))))
       (fun _ => bind (console_error "Split failed:") (fun _ => alert "Split failed"))).
Proof.
  unfold window_id_of, renderWindowContent, renderWindowTabs, attachTopControls,
    alert, console_error, chrome_windows_create, chrome_tabs_move.
  walk_script. all: apply never_records_create_none_load.
Qed.

Lemma seeded_merge_never_blank (first : TabId) (rest : list TabId) :
  never_records (WindowsCreate None)
    (try_catch
       (bind (chrome_windows_create (Some first)) (fun newWin =>
        bind (if (0 <? List.length rest)%nat
              then bind (window_id_of newWin)
                     (fun windowId => chrome_tabs_move rest windowId (-1))
              else ret tt) (fun _ =>
        bind (modify (with_mergeMode ModeNull)) (fun _ =>
        bind (modify (with_redSelection [])) (fun _ =>
        bind (modify (with_yellowSelection [])) (fun _ =>
        detached loadWindowsAndTabs))))))
       (fun _ =>
          bind (console_error "Merge failed:") (fun _ =>
          bind (alert "Merge failed") (fun _ =>
          bind (modify (with_mergeMode ModeNull)) (fun _ =>
          bind (modify (with_redSelection [])) (fun _ =>
          bind (modify (with_yellowSelection [])) (fun _ =>
          renderWindowContent))))))).
Proof.
  unfold window_id_of, renderWindowContent, renderWindowTabs, attachTopControls,
    alert, console_error, chrome_windows_create, chrome_tabs_move.
  walk_script. all: apply never_records_create_none_load.
Qed.

Lemma after_refresh_never (e : Effect) {A} (k : M H A) (w : World H) :
  (forall url, TabsQuery url <> e) ->
  (exists recorded, trace (snd (k (refreshed w))) = trace (refreshed w) ++ recorded /\
                    ~ In e recorded) ->
  exists recorded, trace (snd (bind refreshUiWindowId (fun _ => k) w)) =
                     trace w ++ recorded /\ ~ In e recorded.
Proof.
  intros Hq (recorded & Htr & Hno). rewrite bind_refresh.
  exists (TabsQuery (ui_url w) :: recorded).
  rewrite Htr, refreshed_trace, <- app_assoc. split; [reflexivity|].
  intros [Heq|Hin]; [exact (Hq _ Heq) | exact (Hno Hin)].
Qed.

Lemma handle_never_blank (ev : Event) (w : World H) :
  is_modal ev = false ->
  stage_ok (ui w) ->
  exists recorded,
    trace (snd (handle ev w)) = trace w ++ recorded /\
    ~ In (WindowsCreate None) recorded.
Proof.
  intros Hev Hstage.
  pose proof (refreshed_selections w) as Hsel. unfold selections in Hsel.
  injection Hsel as Hb Hr Hy Hm.
  destruct ev; try discriminate Hev; clear Hev.
  6: { (* Merge *)
    cbn [handle]. unfold mergeBtn_onclick.
    apply after_refresh_never; [discriminate|].
    unfold bind at 1 2. unfold gets at 1 2. cbn [ui]. rewrite Hb, Hm.
    unfold stage_ok in Hstage.
    destruct (mergeMode (ui w)) eqn:Hmode; cbn [MergeMode_eqb negb].
    - destruct (blueSelection (ui w)); cbn [List.length Nat.eqb andb];
        match goal with |- exists _, trace (snd (?m ?v)) = _ /\ _ =>
          assert (Hq : never_records (WindowsCreate None) m)
            by (unfold renderWindowContent, renderWindowTabs, attachTopControls, alert;
                walk_script);
          exact (Hq v) end.
    - destruct (blueSelection (ui w)); cbn [List.length Nat.eqb andb];
        match goal with |- exists _, trace (snd (?m ?v)) = _ /\ _ =>
          assert (Hq : never_records (WindowsCreate None) m)
            by (unfold renderWindowContent, renderWindowTabs, attachTopControls, alert;
                walk_script);
          exact (Hq v) end.
    - rewrite andb_false_r. destruct Hstage as [Hred _].
      destruct (redSelection (ui w)) as [|first reds] eqn:Hreds; [congruence|].
      unfold try_catch at 1, merge_execute at 1.
      unfold bind at 1 2. unfold gets at 1 2. cbn [ui]. rewrite Hr, Hy.
      cbn [app nth_error skipn].
      exact (seeded_merge_never_blank first (reds ++ yellowSelection (ui w)) (refreshed w)). }
  7: { (* Split *)
    cbn [handle]. unfold splitBtn_onclick.
    apply after_refresh_never; [discriminate|].
    unfold bind at 1. unfold gets at 1. cbn [ui]. rewrite Hb.
    destruct (blueSelection (ui w)) as [|first rest] eqn:Hblue;
      cbn [List.length Nat.eqb].
    - exact (never_records_emit (e := WindowsCreate None) (e' := Alert "No tabs selected")
               ltac:(discriminate) (refreshed w)).
    - unfold try_catch at 1, split_execute at 1.
      unfold bind at 1. unfold gets at 1. cbn [ui]. rewrite Hb.
      cbn [hd_error tl].
      exact (seeded_split_never_blank first rest (refreshed w)). }
  all: match goal with |- exists _, trace (snd (?m ?v)) = _ /\ _ =>
         assert (Hq : never_records (WindowsCreate None) m)
           by (unfold_handlers; walk_script; apply mergeAll_loop_never_creates);
         exact (Hq v) end.
Qed.

(** X17: in whatever state the script has reached from its initial state, the
    keyboard, click and drag listeners, a refresh, Merge, Merge All and Split
    never ask the browser for a window without a seed tab (which would open a
    blank window): the staged Merge always has a first id to give. *)
Theorem reachable_controls_never_open_blank_window (h : H) (evs : list Event)
    (ev : Event) :
  is_modal ev = false ->
  let w := run evs (start initial_state h) in
  exists recorded,
    trace (snd (handle ev w)) = trace w ++ recorded /\
    ~ In (WindowsCreate None) recorded.
Proof.
  intros Hev w. apply handle_never_blank; [exact Hev|].
  apply run_maintains; [exact handle_maintains_stage_ok|].
  unfold stage_ok. cbn. split; reflexivity.
Qed.

(** ** The refresh and the active window *)

Lemma sort_windows_head_least (ws : list Window.t) w0 rest :
  sort_windows ws = w0 :: rest ->
  forall x, In x ws -> Window.id w0 <= Window.id x.
Proof.
  intros Hsort x Hx.
  pose proof (sort_windows_sorted ws) as Hsorted. rewrite Hsort in Hsorted.
  apply (Permutation_in _ (sort_windows_perm ws)) in Hx. rewrite Hsort in Hx.
  apply StronglySorted_inv in Hsorted. destruct Hsorted as [_ Hall].
  rewrite Forall_forall in Hall. destruct Hx as [<-|Hx]; [lia|]. exact (Hall x Hx).
Qed.

Lemma loadWindowsAndTabs_changed_run (w : World H) ws h' :
  windows_getAll (host (refreshed w)) = (Ok ws, h') ->
  same_snapshot (lastSnapshot (ui w)) (snapshot_of (sort_windows ws)) = false ->
  loadWindowsAndTabs w =
    (Ok tt,
     let s1 := with_windowsData (sort_windows ws)
                 (with_lastSnapshot (Some (snapshot_of (sort_windows ws)))
                    (ui (refreshed w))) in
     match sort_windows ws with
     | [] => mkWorld s1 h' (trace w ++ [TabsQuery (ui_url w); WindowsGetAll;
                                        ShowEmptyState])
     | w0 :: _ =>
         mkWorld (if truthy (activeWindowId (ui w)) then s1
                  else with_activeWindowId (Some (Window.id w0)) s1)
                 h'
                 (trace w ++ [TabsQuery (ui_url w); WindowsGetAll;
                              RenderWindowTabs; AttachTopControls]
                          ++ redraw ++ [AttachTopControls])
     end).
Proof.
  intros Hget Hsame.
  assert (Hlast : lastSnapshot (ui (refreshed w)) = lastSnapshot (ui w))
    by (destruct (refreshed_ui w) as [u ->]; reflexivity).
  assert (Hact : activeWindowId (ui (refreshed w)) = activeWindowId (ui w))
    by (destruct (refreshed_ui w) as [u ->]; reflexivity).
  unfold loadWindowsAndTabs. rewrite bind_refresh. unfold_script.
  rewrite Hget. cbn [ui host trace]. rewrite Hlast, Hsame.
  cbn [ui host trace snd windowsData with_windowsData]. cbn zeta.
  destruct (sort_windows ws) as [|w0 rest].
  - cbn [ui host trace]. rewrite refreshed_trace, <- !app_assoc. reflexivity.
  - cbn [ui host trace activeWindowId with_windowsData with_lastSnapshot]. rewrite Hact.
    destruct (truthy (activeWindowId (ui w))); cbn [negb ui host trace];
      unfold redraw; rewrite refreshed_trace, <- !app_assoc; reflexivity.
Qed.

(** X18: a refresh that finds a changed, non-empty universe makes the window
    with the smallest id the active one when no active window is set, and
    keeps an active window that is set, whether or not that window is still
    among the fetched ones.  A changed universe without windows empties the
    mirror, shows the empty state and draws nothing else. *)
Theorem refresh_assigns_active_window_once (w : World H) ws h' :
  windows_getAll (host (refreshed w)) = (Ok ws, h') ->
  same_snapshot (lastSnapshot (ui w)) (snapshot_of (sort_windows ws)) = false ->
  let w' := snd (loadWindowsAndTabs w) in
  (truthy (activeWindowId (ui w)) = true ->
   activeWindowId (ui w') = activeWindowId (ui w)) /\
  (truthy (activeWindowId (ui w)) = false ->
   forall w0 rest, sort_windows ws = w0 :: rest ->
     activeWindowId (ui w') = Some (Window.id w0) /\
     (forall x, In x ws -> Window.id w0 <= Window.id x)) /\
  (ws = [] ->
   windowsData (ui w') = [] /\
   activeWindowId (ui w') = activeWindowId (ui w) /\
   trace w' = trace w ++ [TabsQuery (ui_url w); WindowsGetAll; ShowEmptyState]).
Proof.
  intros Hget Hsame w'.
  assert (Hact : activeWindowId (ui (refreshed w)) = activeWindowId (ui w))
    by (destruct (refreshed_ui w) as [u ->]; reflexivity).
  unfold w'. rewrite (loadWindowsAndTabs_changed_run w Hget Hsame). cbn [snd]. cbn zeta.
  split; [|split].
  - intros Htruthy. destruct (sort_windows ws); cbn [ui]; [exact Hact|].
    rewrite Htruthy. exact Hact.
  - intros Hfalsy w0 rest Hsort. rewrite Hsort. cbn [ui]. rewrite Hfalsy.
    split; [reflexivity|]. exact (sort_windows_head_least ws Hsort).
  - intros ->. cbn. repeat split. exact Hact.
Qed.

(** ** The order the browser lists windows in *)

Lemma sorted_same_windows (a b : list Window.t) :
  StronglySorted by_id a -> StronglySorted by_id b ->
  Permutation a b ->
  NoDup (map Window.id a) ->
  a = b.
Proof.
  intros Ha. revert b. induction Ha as [|x a Ha IH Hx]; intros b Hb Hperm Hnd.
  - apply Permutation_nil in Hperm. congruence.
  - destruct b as [|y b]; [apply Permutation_sym, Permutation_nil in Hperm; discriminate|].
    apply StronglySorted_inv in Hb. destruct Hb as [Hb Hy].
    rewrite Forall_forall in Hx, Hy. cbn [map] in Hnd. apply NoDup_cons_iff in Hnd.
    destruct Hnd as [Hfresh Hnd].
    assert (Hxy : x = y).
    { assert (Hxin : In x (y :: b)) by (apply (Permutation_in _ Hperm); left; reflexivity).
      assert (Hyin : In y (x :: a))
        by (apply (Permutation_in _ (Permutation_sym Hperm)); left; reflexivity).
      destruct Hxin as [->|Hxb]; [reflexivity|].
      destruct Hyin as [->|Hya]; [reflexivity|].
      exfalso. apply Hfresh.
      assert (Hid : Window.id x = Window.id y)
        by (pose proof (Hx y Hya); pose proof (Hy x Hxb); unfold by_id in *; lia).
      rewrite Hid. apply in_map. exact Hya. }
    subst y. f_equal. apply IH; [exact Hb | | exact Hnd].
    exact (Permutation_cons_inv Hperm).
Qed.

Lemma sort_windows_of_permutation (ws ws' : list Window.t) :
  Permutation ws ws' ->
  NoDup (map Window.id ws) ->
  sort_windows ws' = sort_windows ws.
Proof.
  intros Hperm Hnd. symmetry.
  apply sorted_same_windows; try apply sort_windows_sorted.
  - rewrite <- (sort_windows_perm ws), <- (sort_windows_perm ws'). exact Hperm.
  - apply (Permutation_NoDup (l := map Window.id ws)); [|exact Hnd].
    apply Permutation_map, sort_windows_perm.
Qed.

(** X19: the order in which the browser lists the windows does not matter.
    When the cached snapshot was taken from windows with distinct ids and the
    browser now answers with the same windows in another order, the refresh
    finds nothing changed: it redraws nothing and assigns none of the script's
    variables beyond the opening update of the page's window. *)
Theorem refresh_ignores_listing_order (w : World H) ws ws' h' :
  lastSnapshot (ui w) = Some (snapshot_of (sort_windows ws)) ->
  NoDup (map Window.id ws) ->
  Permutation ws ws' ->
  windows_getAll (host (refreshed w)) = (Ok ws', h') ->
  loadWindowsAndTabs w =
    (Ok tt, mkWorld (ui (refreshed w)) h'
              (trace w ++ [TabsQuery (ui_url w); WindowsGetAll])).
Proof.
  intros Hlast Hnd Hperm Hget.
  assert (Hkept : lastSnapshot (ui (refreshed w)) = lastSnapshot (ui w))
    by (destruct (refreshed_ui w) as [u ->]; reflexivity).
  rewrite (loadWindowsAndTabs_unchanged w Hget).
  - rewrite refreshed_trace, <- app_assoc. reflexivity.
  - rewrite Hkept, Hlast, (sort_windows_of_permutation Hperm Hnd).
    apply same_snapshot_refl.
Qed.

(** ** The split of the modal dialog *)

Lemma only_records_weaken {A} (allowed allowed' : Effect -> bool) (m : M H A) :
  (forall e, allowed e = true -> allowed' e = true) ->
  only_records allowed m -> only_records allowed' m.
Proof.
  intros Himp Hm w. destruct (Hm w) as (recorded & Htrace & Hall).
  exists recorded. split; [exact Htrace|].
  rewrite forallb_forall in *. auto.
Qed.

Lemma active_or_first_In (tabs : list Tab.t) (t : Tab.t) :
  active_or_first tabs = Some t -> In t tabs.
Proof.
  unfold active_or_first. destruct (find Tab.active tabs) eqn:Hfind.
  - intros [= <-]. exact (proj1 (find_some _ _ Hfind)).
  - destruct tabs; [discriminate|]. intros [= <-]. left. reflexivity.
Qed.

Lemma other_tab_ids (kept : TabId) (tabs : list Tab.t) :
  map Tab.id (filter (fun t => negb (Tab.id t =? kept)) tabs) =
  filter (fun id => negb (id =? kept)) (map Tab.id tabs).
Proof.
  induction tabs as [|t tabs IH]; [reflexivity|]. simpl.
  destruct (Tab.id t =? kept); simpl; rewrite IH; reflexivity.
Qed.

(** Two tabs with distinct ids: one of them is not the kept one. *)
Lemma others_not_empty (kept : TabId) (ids : list TabId) :
  (1 < List.length ids)%nat -> NoDup ids ->
  filter (fun id => negb (id =? kept)) ids <> [].
Proof.
  destruct ids as [|a [|b ids]]; simpl; try lia. intros _ Hnd.
  destruct (Z.eqb_spec a kept) as [->|_]; simpl; [|discriminate].
  destruct (Z.eqb_spec b kept) as [->|_]; simpl; [|discriminate].
  apply NoDup_cons_iff in Hnd. simpl in Hnd. tauto.
Qed.

Lemma refresh_follows_split (rest : list TabId) :
  only_records (follows_split rest) loadWindowsAndTabs.
Proof.
  apply (only_records_weaken (allowed := is_read_or_redraw));
    [|exact loadWindowsAndTabs_only_reads].
  intros [] He; try discriminate; reflexivity.
Qed.

Lemma bind_assoc {A B C} (m : M H A) (f : A -> M H B) (g : B -> M H C) (w : World H) :
  bind (bind m f) g w = bind m (fun a => bind (f a) g) w.
Proof. unfold bind. destruct (m w) as [[a|err] w1]; reflexivity. Qed.

(** A call is recorded first; what follows it records what its continuation
    may record. *)
Lemma records_after_call {A B} (allowed : Effect -> bool) (e : Effect)
    (op : H -> Result A * H) (k : A -> M H B) (w : World H) :
  (forall a, only_records allowed (k a)) ->
  exists more,
    trace (snd (bind (call e op) k w)) = trace w ++ e :: more /\
    forallb allowed more = true.
Proof.
  intros Hk. unfold bind, call. destruct (op (host w)) as [[a|err] h'].
  - destruct (Hk a (mkWorld (ui w) h' (trace w ++ [e]))) as (more & Htrace & Hall).
    exists more. rewrite Htrace. cbn [trace]. rewrite <- app_assoc. auto.
  - exists []. auto.
Qed.

(** X20: the split of the modal dialog gives up early on a window it cannot
    split.  When the browser does not hand the window over, the rejection
    leaves the function after the one read; when the window has fewer than two
    tabs, the function shows its notice and returns.  In both cases, whatever
    the option, nothing is created or moved, no refresh is started and the
    script's variables stay as they are. *)
Theorem modal_split_needs_two_tabs (w : World H) windowId option :
  (forall err h1, windows_get windowId (host w) = (Throw err, h1) ->
     splitCurrentWindow windowId option w =
       (Throw err, after_calls w h1 [WindowsGet windowId])) /\
  (forall win h1, windows_get windowId (host w) = (Ok win, h1) ->
     (List.length (Window.tabs win) <= 1)%nat ->
     splitCurrentWindow windowId option w =
       (Ok tt, after_calls w h1 [WindowsGet windowId; Alert "Not enough tabs to split"])).
Proof.
  split.
  - intros err h1 Hget. unfold splitCurrentWindow. unfold_script. rewrite Hget.
    reflexivity.
  - intros win h1 Hget Hfew. unfold splitCurrentWindow. unfold_script. rewrite Hget.
    apply Nat.leb_le in Hfew. rewrite Hfew. unfold after_calls. cbn [ui host trace].
    rewrite <- app_assoc. reflexivity.
Qed.

Lemma modal_split_run (w : World H) windowId option win h1 activeTab :
  windows_get windowId (host w) = (Ok win, h1) ->
  (1 < List.length (Window.tabs win))%nat ->
  active_or_first (Window.tabs win) = Some activeTab ->
  splitCurrentWindow windowId option w =
    bind
      (if String.eqb option "others-to-new" then
         let otherTabIds :=
           filter (fun id => negb (id =? Tab.id activeTab)) (tab_ids win) in
         bind (chrome_windows_create (hd_error otherTabIds)) (fun newWin =>
         bind (if (0 <? List.length (tl otherTabIds))%nat
               then bind (window_id_of newWin) (fun windowId =>
                    chrome_tabs_move (tl otherTabIds) windowId (-1))
               else ret tt) (fun _ =>
         bind (window_id_of newWin) (fun newId =>
         chrome_windows_update_focused newId)))
       else if String.eqb option "active-to-new" then
         bind (chrome_windows_create_awaited (Some (Tab.id activeTab))) (fun _ => ret tt)
       else ret tt)
      (fun _ => detached loadWindowsAndTabs)
      (mkWorld (ui w) h1 (trace w ++ [WindowsGet windowId])).
Proof.
  intros Hget Hmany Hactive. unfold splitCurrentWindow at 1.
  unfold bind at 1. unfold chrome_windows_get at 1, call at 1. rewrite Hget.
  apply Nat.leb_gt in Hmany. rewrite Hmany, Hactive.
  unfold tab_ids. rewrite <- other_tab_ids. reflexivity.
Qed.

(** X21: what the split of the modal dialog does with a window of two or more
    tabs with distinct ids, after reading it.  The tab it keeps apart is the
    first active tab of the window, or the first tab when none is active.
    With "others-to-new" it creates a window from the first of the other tabs
    and, whatever the browser answers, at most moves the remaining others to
    the end of a window, focuses a window and refreshes: the kept tab is in no
    call.  With "active-to-new" it creates a window from the kept tab, and
    with any other option it creates nothing; both then only refresh. *)
Theorem modal_split_call_profile (w : World H) windowId win h1 activeTab :
  windows_get windowId (host w) = (Ok win, h1) ->
  (1 < List.length (Window.tabs win))%nat ->
  NoDup (tab_ids win) ->
  active_or_first (Window.tabs win) = Some activeTab ->
  let kept := Tab.id activeTab in
  let others := filter (fun id => negb (id =? kept)) (tab_ids win) in
  let recorded_by option more :=
    trace (snd (splitCurrentWindow windowId option w)) =
      trace w ++ WindowsGet windowId :: more in
  In activeTab (Window.tabs win) /\
  ~ In kept others /\
  (exists first rest more,
     others = first :: rest /\
     recorded_by "others-to-new" (WindowsCreate (Some first) :: more) /\
     forallb (follows_split rest) more = true) /\
  (exists more,
     recorded_by "active-to-new" (WindowsCreate (Some kept) :: more) /\
     forallb is_read_or_redraw more = true) /\
  (forall option,
     String.eqb option "others-to-new" = false ->
     String.eqb option "active-to-new" = false ->
     exists more,
       recorded_by option more /\ forallb is_read_or_redraw more = true).
Proof.
  intros Hget Hmany Hnd Hactive kept others recorded_by. unfold recorded_by.
  split; [exact (active_or_first_In _ Hactive)|].
  split.
  { unfold others. rewrite filter_In, negb_true_iff, Z.eqb_neq. tauto. }
  split; [|split].
  - assert (Hothers : others <> [])
      by (apply others_not_empty; [unfold tab_ids; rewrite length_map; exact Hmany
                                  | exact Hnd]).
    destruct others as [|first rest] eqn:Hlist; [congruence|].
    exists first, rest.
    rewrite (@modal_split_run w windowId "others-to-new" _ _ _ Hget Hmany Hactive).
    cbn [String.eqb Ascii.eqb Bool.eqb andb]. cbn zeta.
    fold kept. fold others. rewrite Hlist. cbn [hd_error tl].
    rewrite bind_assoc. unfold chrome_windows_create at 1.
    edestruct (@records_after_call (option Window.t) unit (follows_split rest)
                 (WindowsCreate (Some first)) (windows_create (Some first)))
      as (more & Htrace & Hall);
      [|exists more; split; [reflexivity|]; split;
        [rewrite Htrace; cbn [trace]; rewrite <- app_assoc; reflexivity
        | exact Hall]].
    intros newWin. cbn beta.
    unfold window_id_of, chrome_tabs_move, chrome_windows_update_focused.
    walk_records.
    all: try (apply only_records_call; cbn [follows_split];
              destruct (list_eq_dec Z.eq_dec rest rest); [reflexivity | congruence]).
    all: apply refresh_follows_split.
  - rewrite (@modal_split_run w windowId "active-to-new" _ _ _ Hget Hmany Hactive).
    cbn [String.eqb Ascii.eqb Bool.eqb andb]. fold kept.
    unfold chrome_windows_create_awaited. rewrite !bind_assoc.
    unfold chrome_windows_create at 1.
    edestruct (@records_after_call (option Window.t) unit is_read_or_redraw
                 (WindowsCreate (Some kept)) (windows_create (Some kept)))
      as (more & Htrace & Hall);
      [|exists more; split;
        [rewrite Htrace; cbn [trace]; rewrite <- app_assoc; reflexivity
        | exact Hall]].
    intros newWin. cbn beta. walk_records. all: apply loadWindowsAndTabs_only_reads.
  - intros option Hothers Hmove.
    rewrite (@modal_split_run w windowId option _ _ _ Hget Hmany Hactive).
    rewrite Hothers, Hmove.
    destruct (@only_records_detached is_read_or_redraw _ loadWindowsAndTabs_only_reads
                (mkWorld (ui w) h1 (trace w ++ [WindowsGet windowId])))
      as (more & Htrace & Hall).
    exists more. split; [|exact Hall].
    unfold bind at 1, ret at 1. rewrite Htrace. cbn [trace].
    rewrite <- app_assoc. reflexivity.
Qed.

(** ** The colour of a window header *)

Lemma forallb_includes_after_fill (ids sel : list Z) :
  forallb (includes (fold_left add_if_absent ids sel)) ids = true.
Proof.
  apply forallb_includes, Forall_forall. intros x Hx.
  change (fold_left add_if_absent) with (fold_left Set_add).
  apply In_fold_Set_add. auto.
Qed.

Lemma forallb_includes_after_removal (ids sel : list Z) :
  ids <> [] ->
  forallb (includes (filter (fun id => negb (includes ids id)) sel)) ids = false.
Proof.
  destruct ids as [|x ids]; [congruence|]. intros _.
  cbn [forallb]. apply andb_false_iff. left. apply includes_not_In.
  rewrite In_remove_window_tabs. simpl. tauto.
Qed.

Lemma forallb_includes_app (ids sel : list Z) :
  forallb (includes (sel ++ ids)) ids = true.
Proof.
  apply forallb_includes, Forall_forall. intros x Hx. apply in_app_iff. auto.
Qed.

(** X22: the colour [renderWindowTabs] gives the header of a window of the
    mirror after a gesture on that header, from the colour it had before.  A
    header shown red or yellow keeps its colour under a toggle-click and under
    a double click.  Otherwise a toggle-click turns a blue header uncoloured
    and an uncoloured header blue, and a double click leaves the header blue;
    the header of a window without tabs never gets a colour. *)
Theorem header_colour_after_gesture (w : World H) windowId window ctrl meta :
  ctrl || meta = true ->
  find_window windowId (windowsData (ui w)) = Some window ->
  window_tab_colour (ui (snd (windowTab_click windowId ctrl meta w))) window =
    toggled_colour (window_tab_colour (ui w) window) window /\
  window_tab_colour (ui (snd (windowTab_dblclick windowId w))) window =
    selected_colour (window_tab_colour (ui w) window) window.
Proof.
  intros Hmod Hfind.
  rewrite (windowTab_click_toggle_ui _ _ _ _ Hmod), (toggleAllTabsInWindow_ui w _ Hfind),
    (windowTab_dblclick_ui w _ Hfind).
  unfold window_tab_colour, toggled_colour, selected_colour.
  cbn [redSelection yellowSelection blueSelection with_blueSelection with_activeWindowId].
  destruct (tab_ids window) as [|x ids] eqn:Hids; [split; reflexivity|].
  change (0 <? List.length (x :: ids))%nat with true. cbv iota.
  destruct (forallb (includes (redSelection (ui w))) (x :: ids)); [split; reflexivity|].
  destruct (forallb (includes (yellowSelection (ui w))) (x :: ids)); [split; reflexivity|].
  rewrite forallb_includes_app.
  destruct (forallb (includes (blueSelection (ui w))) (x :: ids)) eqn:Hblue.
  - rewrite forallb_includes_after_removal by discriminate. split; reflexivity.
  - rewrite forallb_includes_after_fill. split; reflexivity.
Qed.

(** ** What the snapshot string tells apart *)

Lemma split_at_delimiter (s1 s2 : string) c1 c2 (r1 r2 : string) :
  delimiter_free s1 = true -> delimiter_free s2 = true ->
  is_delimiter c1 = true -> is_delimiter c2 = true ->
  (s1 ++ String c1 r1 = s2 ++ String c2 r2)%string ->
  s1 = s2 /\ c1 = c2 /\ r1 = r2.
Proof.
  revert s2. induction s1 as [|a s1 IH]; intros [|b s2] H1 H2 Hc1 Hc2 Heq;
    cbn [String.append delimiter_free] in *.
  - injection Heq as -> ->. auto.
  - injection Heq as -> _. apply andb_true_iff in H2. rewrite Hc1 in H2.
    destruct H2; discriminate.
  - injection Heq as -> _. apply andb_true_iff in H1. rewrite Hc2 in H1.
    destruct H1; discriminate.
  - injection Heq as -> Heq. apply andb_true_iff in H1, H2.
    destruct (IH s2) as (-> & -> & ->); tauto.
Qed.

Lemma uint_delimiter_free (d : Decimal.uint) :
  delimiter_free (NilEmpty.string_of_uint d) = true.
Proof. induction d; cbn; auto. Qed.

Lemma json_number_delimiter_free (n : Z) : delimiter_free (json_number n) = true.
Proof.
  unfold json_number, NilZero.string_of_int, NilZero.string_of_uint.
  destruct (Z.to_int n) as [[]|[]]; try reflexivity;
    cbn [delimiter_free]; try (apply uint_delimiter_free);
    rewrite ?uint_delimiter_free; reflexivity.
Qed.

Lemma json_number_not_empty (n : Z) : json_number n <> EmptyString.
Proof.
  unfold json_number, NilZero.string_of_int, NilZero.string_of_uint.
  destruct (Z.to_int n) as [[]|[]]; discriminate.
Qed.

Lemma json_number_inj (a b : Z) : json_number a = json_number b -> a = b.
Proof.
  intros Heq.
  assert (Hint : forall n, NilZero.int_of_string (json_number n) = Some (Z.to_int n)).
  { intros n. apply NilZero.isi; destruct n; cbn; try discriminate;
      intros [= Hnil]; exact (DecimalPos.Unsigned.to_uint_nonnil _ Hnil). }
  pose proof (Hint a) as Ha. rewrite Heq, Hint in Ha.
  injection Ha as Ha. rewrite <- (DecimalZ.of_to a), <- (DecimalZ.of_to b), Ha.
  reflexivity.
Qed.

Lemma append_assoc (a b c : string) : ((a ++ b) ++ c = a ++ (b ++ c))%string.
Proof. induction a as [|x a IH]; cbn; [reflexivity|]. rewrite IH. reflexivity. Qed.

(** ** Arrays of self-delimiting items *)
Section Joined.

Variables (X K : Type) (enc : X -> string) (key : X -> K).

(** An item is read back from a text in which a comma or a closing bracket
    follows it. *)
Hypothesis enc_inj : forall x y c1 c2 t1 t2,
  is_delimiter c1 = true -> is_delimiter c2 = true ->
  (enc x ++ String c1 t1 = enc y ++ String c2 t2)%string ->
  key x = key y /\ c1 = c2 /\ t1 = t2.

(** No item starts like the end of the array. *)
Hypothesis enc_head : forall x t,
  exists c r, (enc x ++ t)%string = String c r /\ c <> Ascii.ascii_of_nat 93.

Lemma json_join_cons (x : X) (xs : list X) (t : string) :
  (json_join (map enc (x :: xs)) ++ String (Ascii.ascii_of_nat 93) t)%string =
  (enc x ++ match xs with
           | [] => String (Ascii.ascii_of_nat 93) t
           | _ :: _ =>
               String (Ascii.ascii_of_nat 44)
                 (json_join (map enc xs) ++ String (Ascii.ascii_of_nat 93) t)
           end)%string.
Proof.
  destruct xs as [|y ys]; [reflexivity|].
  cbn [map json_join]. rewrite append_assoc. reflexivity.
Qed.

Lemma json_join_inj (xs ys : list X) (t1 t2 : string) :
  (json_join (map enc xs) ++ String (Ascii.ascii_of_nat 93) t1 =
   json_join (map enc ys) ++ String (Ascii.ascii_of_nat 93) t2)%string ->
  map key xs = map key ys /\ t1 = t2.
Proof.
  revert ys t1 t2. induction xs as [|x xs IH]; intros [|y ys] t1 t2 Heq.
  - cbn in Heq. injection Heq as ->. auto.
  - rewrite json_join_cons in Heq. cbn [map json_join String.append] in Heq.
    destruct (enc_head y (match ys with
                          | [] => String (Ascii.ascii_of_nat 93) t2
                          | _ :: _ => String (Ascii.ascii_of_nat 44)
                              (json_join (map enc ys) ++ String (Ascii.ascii_of_nat 93) t2)
                          end)) as (c & r & Hhead & Hc).
    rewrite Hhead in Heq. injection Heq as Heq _. congruence.
  - rewrite json_join_cons in Heq. cbn [map json_join String.append] in Heq.
    destruct (enc_head x (match xs with
                          | [] => String (Ascii.ascii_of_nat 93) t1
                          | _ :: _ => String (Ascii.ascii_of_nat 44)
                              (json_join (map enc xs) ++ String (Ascii.ascii_of_nat 93) t1)
                          end)) as (c & r & Hhead & Hc).
    rewrite Hhead in Heq. injection Heq as Heq _. congruence.
  - rewrite !json_join_cons in Heq.
    destruct xs as [|x' xs], ys as [|y' ys];
      apply enc_inj in Heq; try reflexivity; destruct Heq as (Hkey & Hc & Ht);
      try discriminate.
    + cbn [map]. rewrite Hkey, Ht. auto.
    + apply IH in Ht. destruct Ht as [Hkeys ->]. cbn [map] in *.
      rewrite Hkey, Hkeys. auto.
Qed.

End Joined.

Lemma json_number_tail_inj (a b : Z) c1 c2 (t1 t2 : string) :
  is_delimiter c1 = true -> is_delimiter c2 = true ->
  (json_number a ++ String c1 t1 = json_number b ++ String c2 t2)%string ->
  a = b /\ c1 = c2 /\ t1 = t2.
Proof.
  intros Hc1 Hc2 Heq.
  apply split_at_delimiter in Heq; auto using json_number_delimiter_free.
  destruct Heq as (Hnum & -> & ->). apply json_number_inj in Hnum. auto.
Qed.

Lemma json_number_head (n : Z) (t : string) :
  exists c r, (json_number n ++ t)%string = String c r /\ c <> Ascii.ascii_of_nat 93.
Proof.
  pose proof (json_number_delimiter_free n) as Hfree.
  pose proof (json_number_not_empty n) as Hne.
  destruct (json_number n) as [|c r]; [congruence|].
  exists c, (r ++ t)%string. split; [reflexivity|].
  intros ->. discriminate.
Qed.

Lemma json_window_tail (w : Window.t) (t : string) :
  (json_window w ++ t)%string =
  ("{" ++ json_key "id" ++ json_number (Window.id w)
       ++ String (Ascii.ascii_of_nat 44)
            (json_key "tabs" ++ "["
               ++ json_join (map json_number (tab_ids w))
               ++ String (Ascii.ascii_of_nat 93) ("}" ++ t)))%string.
Proof.
  unfold json_window, json_array. rewrite !append_assoc. reflexivity.
Qed.

Lemma json_window_tail_inj (x y : Window.t) c1 c2 (t1 t2 : string) :
  is_delimiter c1 = true -> is_delimiter c2 = true ->
  (json_window x ++ String c1 t1 = json_window y ++ String c2 t2)%string ->
  (Window.id x, tab_ids x) = (Window.id y, tab_ids y) /\ c1 = c2 /\ t1 = t2.
Proof.
  intros _ _ Heq. rewrite !json_window_tail in Heq.
  cbn [json_key dquote String.append] in Heq. injection Heq as Heq.
  apply json_number_tail_inj in Heq; try reflexivity.
  destruct Heq as (Hid & _ & Heq). injection Heq as Heq.
  apply (json_join_inj json_number (fun n : Z => n) json_number_tail_inj
           json_number_head) in Heq.
  destruct Heq as [Htabs Heq]. rewrite !map_id in Htabs.
  injection Heq as -> ->. rewrite Hid, Htabs. auto.
Qed.

Lemma json_window_head (w : Window.t) (t : string) :
  exists c r, (json_window w ++ t)%string = String c r /\ c <> Ascii.ascii_of_nat 93.
Proof.
  rewrite json_window_tail. cbn [String.append]. eexists _, _.
  split; [reflexivity|]. discriminate.
Qed.

Lemma snapshot_of_inj (a b : list Window.t) :
  snapshot_of a = snapshot_of b -> shape a = shape b.
Proof.
  unfold snapshot_of, json_array. cbn [String.append]. intros Heq.
  injection Heq as Heq.
  exact (proj1 (json_join_inj json_window (fun w => (Window.id w, tab_ids w))
                  json_window_tail_inj json_window_head a b _ _ Heq)).
Qed.

Lemma snapshot_of_shape (a b : list Window.t) :
  shape a = shape b -> snapshot_of a = snapshot_of b.
Proof.
  unfold snapshot_of. intros Heq. f_equal.
  revert b Heq. induction a as [|x a IH]; intros [|y b] Heq; try discriminate;
    [reflexivity|].
  cbn [shape map] in *. injection Heq as Hid Htabs Heq.
  rewrite (IH b Heq). unfold json_window. rewrite Hid, Htabs. reflexivity.
Qed.

(** X23: the refresh redraws exactly when the window ids or the order of the
    tab ids changed.  When the browser's windows, sorted, have the ids and the
    tab ids of the cached snapshot, nothing is redrawn and the mirror is left
    as it is, whatever else changed in the tabs (title, address, active tab);
    when they differ, the mirror and the snapshot are replaced and the page is
    redrawn. *)
Theorem refresh_redraws_iff_ids_changed (w : World H) old ws h' :
  lastSnapshot (ui w) = Some (snapshot_of old) ->
  windows_getAll (host (refreshed w)) = (Ok ws, h') ->
  let w' := snd (loadWindowsAndTabs w) in
  (shape (sort_windows ws) = shape old ->
   w' = mkWorld (ui (refreshed w)) h'
          (trace w ++ [TabsQuery (ui_url w); WindowsGetAll])) /\
  (shape (sort_windows ws) <> shape old ->
   windowsData (ui w') = sort_windows ws /\
   lastSnapshot (ui w') = Some (snapshot_of (sort_windows ws)) /\
   exists redraws,
     trace w' = trace w ++ [TabsQuery (ui_url w); WindowsGetAll] ++ redraws /\
     redraws <> [] /\ forallb is_redraw redraws = true).
Proof.
  intros Hlast Hget w'.
  assert (Hkept : lastSnapshot (ui (refreshed w)) = lastSnapshot (ui w))
    by (destruct (refreshed_ui w) as [u ->]; reflexivity).
  split.
  - intros Hshape. unfold w'. rewrite (loadWindowsAndTabs_unchanged w Hget).
    + cbn [snd]. rewrite refreshed_trace, <- app_assoc. reflexivity.
    + rewrite Hkept, Hlast, (snapshot_of_shape _ _ Hshape). apply same_snapshot_refl.
  - intros Hshape.
    assert (Hsame : same_snapshot (lastSnapshot (ui w))
                      (snapshot_of (sort_windows ws)) = false).
    { rewrite Hlast. cbn [same_snapshot]. apply String.eqb_neq. intros Heq.
      apply Hshape. symmetry. exact (snapshot_of_inj Heq). }
    unfold w'. rewrite (loadWindowsAndTabs_changed_run w Hget Hsame). cbn [snd]. cbn zeta.
    destruct (sort_windows ws) as [|w0 rest].
    + cbn [ui trace windowsData lastSnapshot with_windowsData with_lastSnapshot].
      repeat split. exists [ShowEmptyState]. repeat split. discriminate.
    + destruct (truthy (activeWindowId (ui w)));
        cbn [ui trace windowsData lastSnapshot with_windowsData with_lastSnapshot
             with_activeWindowId];
        (repeat split);
        exists ([RenderWindowTabs; AttachTopControls] ++ redraw ++ [AttachTopControls]);
        (repeat split); try discriminate;
        rewrite <- !app_assoc; reflexivity.
Qed.

(** ** Exceptions that escape a listener *)

Section Returns.

Lemma returns_ret {A} (a : A) : returns (ret a).
Proof. intros w. exists a. reflexivity. Qed.

Lemma returns_gets {A} (f : State -> A) : returns (gets f).
Proof. intros w. eexists. reflexivity. Qed.

Lemma returns_getURL (path : string) : returns (getURL path).
Proof. intros w. eexists. reflexivity. Qed.

Lemma returns_modify (f : State -> State) : returns (modify f).
Proof. intros w. exists tt. reflexivity. Qed.

Lemma returns_emit (e : Effect) : returns (emit e).
Proof. intros w. exists tt. reflexivity. Qed.

Lemma returns_detached (m : M H unit) : returns (detached m).
Proof. intros w. exists tt. reflexivity. Qed.

Lemma returns_bind {A B} (m : M H A) (f : A -> M H B) :
  returns m -> (forall a, returns (f a)) -> returns (bind m f).
Proof.
  intros Hm Hf w. unfold bind. destruct (Hm w) as [a Ha].
  destruct (m w) as [[a'|err] w1]; cbn [fst] in Ha; [|discriminate].
  apply Hf.
Qed.

(** A [try] whose [catch] block returns normally does so itself. *)
Lemma returns_try_catch {A} (m : M H A) (handler : string -> M H A) :
  (forall err, returns (handler err)) -> returns (try_catch m handler).
Proof.
  intros Hh w. unfold try_catch. destruct (m w) as [[a|err] w1].
  - exists a. reflexivity.
  - apply Hh.
Qed.

End Returns.

Ltac walk_returns :=
  repeat
    match goal with
    | |- returns (bind _ _) => apply returns_bind; [|intros]
    | |- returns (try_catch _ _) => apply returns_try_catch; intros
    | |- returns (detached _) => apply returns_detached
    | |- returns (ret _) => apply returns_ret
    | |- returns (gets _) => apply returns_gets
    | |- returns (getURL _) => apply returns_getURL
    | |- returns (modify _) => apply returns_modify
    | |- returns (emit _) => apply returns_emit
    | |- returns (if ?c then _ else _) => destruct c
    | |- returns (match ?x with _ => _ end) => destruct x
    end.

(** Every listener that does not read the anchor of the marquee keeps its
    exceptions to itself. *)
Lemma handle_returns (ev : Event) :
  is_modal ev = false ->
  (forall e, ev <> Mousemove e) -> (forall e cards, ev <> Mouseup e cards) ->
  returns (handle ev).
Proof.
  intros Hmodal Hmove Hup.
  destruct ev; try discriminate;
    try (exfalso; apply (Hmove e); reflexivity);
    try (exfalso; apply (Hup e cards); reflexivity);
    unfold_handlers; walk_returns.
Qed.

(** The two listeners that read [dragStart.x] find the anchor. *)
Lemma mousemove_returns (e : MouseEvent) (w : World H) :
  drag_ok (ui w) -> fst (mousemove e w) = Ok tt.
Proof.
  intros Hok. unfold mousemove. unfold_script. cbn [ui host trace].
  destruct (isDragging (ui w)) eqn:Hdrag; [|reflexivity].
  destruct (marqueeEl (ui w)); [|reflexivity].
  destruct (Hok Hdrag) as [p Hp].
  cbn [negb orb ui dragStart with_dragWasActive]. rewrite Hp. reflexivity.
Qed.

Lemma endDrag_returns (e : MouseEvent) (cards : list Card) (w : World H) :
  drag_ok (ui w) -> fst (endDrag e cards w) = Ok tt.
Proof.
  intros Hok. unfold endDrag. unfold_script. cbn [ui host trace].
  destruct (isDragging (ui w)) eqn:Hdrag; [|reflexivity].
  destruct (Hok Hdrag) as [p Hp].
  cbn [negb ui dragStart with_isDragging]. rewrite Hp.
  destruct (0 <? List.length (intersecting_ids (marquee_rect p e) cards))%nat;
    [|reflexivity].
  destruct (shiftKey e || metaKey e); [reflexivity|].
  destruct (negb (ctrlKey e)); reflexivity.
Qed.

Lemma handle_keeps_drag (ev : Event) :
  (forall e, ev <> Mousedown e) -> (forall e cards, ev <> Mouseup e cards) ->
  keeps drag (handle ev).
Proof.
  intros Hdown Hup.
  destruct ev; try (exfalso; apply (Hdown e); reflexivity);
    try (exfalso; apply (Hup e cards); reflexivity);
    unfold_handlers; walk_keeps; apply mergeAll_loop_keeps.
Qed.

Lemma handle_maintains_drag_ok (ev : Event) : maintains drag_ok (handle ev).
Proof.
  intros w Hw.
  assert (Hkept : forall s', drag s' = drag (ui w) -> drag_ok s').
  { intros s' Heq. unfold drag in Heq. injection Heq as Hd Hs.
    unfold drag_ok. rewrite Hd, Hs. exact Hw. }
  destruct ev.
  9: { cbn [handle]. unfold mousedown. unfold_script.
       destruct (negb (button e =? 0)); [exact Hw|].
       destruct (on_close_btn e); [exact Hw|].
       intros _. cbn. eexists. reflexivity. }
  10: { cbn [handle]. unfold endDrag. unfold_script. cbn [ui host trace].
        destruct (isDragging (ui w)) eqn:Hdrag; cbn [negb]; [|exact Hw].
        intros Hafter. exfalso. revert Hafter.
        destruct (dragStart (with_isDragging false (ui w))); [|discriminate].
        destruct (0 <? _)%nat; [|discriminate].
        destruct (shiftKey e || metaKey e); [discriminate|].
        destruct (negb (ctrlKey e)); discriminate. }
  all: apply Hkept; apply handle_keeps_drag; discriminate.
Qed.

(** Without the anchor both listeners throw, as the script does on
    [dragStart.x]: the invariant is what keeps them from it. *)
Lemma drag_listeners_need_anchor (e : MouseEvent) (cards : list Card) (w : World H) :
  isDragging (ui w) = true -> marqueeEl (ui w) = true -> dragStart (ui w) = None ->
  (exists err v, mousemove e w = (Throw err, v)) /\
  (exists err v, endDrag e cards w = (Throw err, v)).
Proof.
  intros Hdrag Hmarquee Hanchor. unfold mousemove, endDrag. unfold_script.
  cbn [ui host trace]. rewrite Hdrag, Hmarquee.
  cbn [negb orb ui dragStart with_dragWasActive with_isDragging]. rewrite Hanchor.
  split; eexists _, _; reflexivity.
Qed.

(** X24: in whatever state the script has reached from its initial state and
    whatever the browser answers, no listener lets an exception of a browser
    call or of its own reads escape (writes to the page are taken not to
    fail): the handlers of the keyboard, of the clicks, of Merge, Merge All
    and Split and the refresh return normally, and so do the move and the
    release of a drag, which read the anchor of the marquee and find it
    whenever a drag is in progress. *)
Theorem listeners_never_throw (h : H) (evs : list Event) (ev : Event) :
  is_modal ev = false ->
  fst (handle ev (run evs (start initial_state h))) = Ok tt.
Proof.
  intros Hmodal.
  assert (Hdrag : drag_ok (ui (run evs (start initial_state h)))).
  { apply run_maintains; [exact handle_maintains_drag_ok|]. intros Hd. discriminate. }
  destruct ev; try discriminate.
  10: { cbn [handle]. apply mousemove_returns. exact Hdrag. }
  10: { cbn [handle]. apply endDrag_returns. exact Hdrag. }
  all: match goal with
       | |- fst (handle ?ev ?w) = _ =>
           destruct (@handle_returns ev eq_refl ltac:(discriminate) ltac:(discriminate) w)
             as [[] Hret];
           exact Hret
       end.
Qed.

(** ** Clicks on a card, as the page delivers them *)

Section CardClicks.

Variables (e : MouseEvent) (cards : list Card) (tabId : TabId).
Hypothesis left_button : button e = 0.
Hypothesis not_on_close_btn : on_close_btn e = false.
Hypothesis on_the_card : under_pointer e cards = [tabId].

Let click : World H -> World H := run (card_click_gesture e cards tabId).

Lemma click_keeps_staged (w : World H) : staged (ui (click w)) = staged (ui w).
Proof.
  unfold click. rewrite card_click_gesture_run by assumption. reflexivity.
Qed.

Lemma click_blue (w : World H) :
  blueSelection (ui (click w)) = after_card_click (ui w) e tabId.
Proof.
  unfold click. rewrite card_click_gesture_run by assumption. reflexivity.
Qed.

Lemma clicks_keep_staged (n : nat) (w : World H) :
  staged (ui (Nat.iter n click w)) = staged (ui w).
Proof.
  induction n as [|n IH]; [reflexivity|].
  rewrite Nat.iter_succ, click_keeps_staged. exact IH.
Qed.

(** What one click makes of Current when the card is not staged. *)
Lemma after_card_click_unstaged (s : State) :
  includes (redSelection s) tabId = false ->
  includes (yellowSelection s) tabId = false ->
  let blue := blueSelection s in
  let blue' := after_card_click s e tabId in
  (ctrlKey e || metaKey e = false -> blue' = [tabId]) /\
  (ctrlKey e || metaKey e = true ->
   forall x, x <> tabId -> (In x blue' <-> In x blue)) /\
  (ctrlKey e = true -> shiftKey e = false -> metaKey e = false ->
   (In tabId blue' <-> ~ In tabId blue)) /\
  (ctrlKey e || metaKey e = true -> shiftKey e || metaKey e = true ->
   ~ In tabId blue').
Proof.
  intros Hred Hyellow blue blue'. unfold blue', after_card_click.
  rewrite Hred, Hyellow. cbn [orb]. fold blue.
  assert (Hset : forall x, In x (Array_from_Set (blue ++ [tabId])) <-> In x blue \/ x = tabId).
  { intros x. rewrite (proj2 (Array_from_Set_spec _)), in_app_iff. cbn [In].
    intuition congruence. }
  assert (Htoggle : forall sel x,
    In x (if includes sel tabId
          then filter (fun id => negb (id =? tabId)) sel
          else sel ++ [tabId]) <->
    (x <> tabId /\ In x sel) \/ (x = tabId /\ ~ In tabId sel)).
  { intros sel x. destruct (includes sel tabId) eqn:Hin.
    - apply includes_In in Hin. rewrite In_without.
      destruct (Z.eq_dec x tabId); unfold TabId in *; intuition congruence.
    - apply includes_not_In in Hin. rewrite in_app_iff. cbn [In].
      destruct (Z.eq_dec x tabId); unfold TabId in *; subst; intuition congruence. }
  split; [intros ->; reflexivity|].
  split; [|split].
  - intros Hmod x Hx. rewrite Hmod, Htoggle.
    destruct (ctrlKey e), (metaKey e), (shiftKey e); try discriminate Hmod;
      cbn [orb negb]; rewrite ?Hset; unfold TabId in *; tauto.
  - intros -> -> ->. cbn [orb negb]. rewrite Htoggle. unfold TabId in *.
    intuition congruence.
  - intros -> ->. rewrite Htoggle, !Hset. unfold TabId in *. intuition congruence.
Qed.

(** X3: one click on the card of a tab that is neither in Source nor in
    Target, as the page delivers it: the press and the release on the
    container, then the card's own listener, with the pointer on that card
    alone.  Without Ctrl and Cmd the tab becomes the whole of Current.  With
    Ctrl or Cmd held the other tabs keep their membership in Current; with
    Ctrl alone the tab's membership is flipped ([n] clicks flip it [n]
    times); with Cmd, or with Ctrl and Shift, the release first adds the tab
    and the card's listener then takes it out, so the tab is never in Current
    afterwards.  Source, Target and the merge stage are kept. *)
Theorem modifier_clicks_on_card (w : World H) :
  includes (redSelection (ui w)) tabId = false ->
  includes (yellowSelection (ui w)) tabId = false ->
  let blue := blueSelection (ui w) in
  let after n :=
    blueSelection (ui (Nat.iter n (run (card_click_gesture e cards tabId)) w)) in
  (ctrlKey e || metaKey e = false -> after 1%nat = [tabId]) /\
  (ctrlKey e || metaKey e = true ->
   forall n x, x <> tabId -> (In x (after n) <-> In x blue)) /\
  (ctrlKey e = true -> shiftKey e = false -> metaKey e = false ->
   forall n, In tabId (after n) <->
             if Nat.even n then In tabId blue else ~ In tabId blue) /\
  (ctrlKey e || metaKey e = true -> shiftKey e || metaKey e = true ->
   forall n, (0 < n)%nat -> ~ In tabId (after n)) /\
  (forall n,
     staged (ui (Nat.iter n (run (card_click_gesture e cards tabId)) w)) =
     staged (ui w)).
Proof.
  intros Hred Hyellow blue after. subst after blue. cbn beta. fold click.
  assert (Hstep : forall n,
    includes (redSelection (ui (Nat.iter n click w))) tabId = false /\
    includes (yellowSelection (ui (Nat.iter n click w))) tabId = false /\
    blueSelection (ui (Nat.iter (S n) click w)) =
      after_card_click (ui (Nat.iter n click w)) e tabId).
  { intros n. pose proof (clicks_keep_staged n w) as Hkept. unfold staged in Hkept.
    injection Hkept as Hr Hy _. rewrite Hr, Hy.
    split; [exact Hred|]. split; [exact Hyellow|].
    rewrite Nat.iter_succ. apply click_blue. }
  split; [|split; [|split; [|split]]].
  - intros Hplain. destruct (Hstep 0%nat) as (Hr & Hy & ->).
    exact (proj1 (after_card_click_unstaged _ Hr Hy) Hplain).
  - intros Hmod n x Hx. induction n as [|n IH]; [reflexivity|].
    destruct (Hstep n) as (Hr & Hy & ->). rewrite <- IH.
    exact (proj1 (proj2 (after_card_click_unstaged _ Hr Hy)) Hmod x Hx).
  - intros Hctrl Hshift Hmeta n. induction n as [|n IH]; [reflexivity|].
    destruct (Hstep n) as (Hr & Hy & ->).
    rewrite (proj1 (proj2 (proj2 (after_card_click_unstaged _ Hr Hy))) Hctrl Hshift Hmeta).
    rewrite IH, Nat.even_succ, <- Nat.negb_even.
    destruct (Nat.even n); cbn [negb]; [tauto|].
    destruct (in_dec Z.eq_dec tabId (blueSelection (ui w))); unfold TabId in *; tauto.
  - intros Hmod Hadd n Hn. destruct n as [|n]; [lia|].
    destruct (Hstep n) as (Hr & Hy & ->).
    exact (proj2 (proj2 (proj2 (after_card_click_unstaged _ Hr Hy))) Hmod Hadd).
  - intros n. apply clicks_keep_staged.
Qed.

(** X4: one click on a card that carries the "selected" badge (its tab is in
    Source or in Target), as the page delivers it.  The card's own listener
    ignores the click, whatever the modifiers; the release on the container
    does not look at Source and Target: a plain click makes the staged tab the
    whole of Current, a click with Shift or Cmd adds it to Current, and only a
    click with Ctrl alone leaves Current as it is.  Source, Target and the
    merge stage are kept, so that after a plain click on a Source card a Merge
    click stages the same tab as Target too. *)
Theorem clicks_on_staged_card (w : World H) :
  snd (updateCardSelectionState (ui w) tabId) = true ->
  let w' := run (card_click_gesture e cards tabId) w in
  let blue := blueSelection (ui w) in
  (forall ctrl meta, card_click tabId ctrl meta w = (Ok tt, w)) /\
  staged (ui w') = staged (ui w) /\
  blueSelection (ui w') =
    (if shiftKey e || metaKey e then Array_from_Set (blue ++ [tabId])
     else if negb (ctrlKey e) then [tabId]
     else blue) /\
  (shiftKey e || metaKey e || negb (ctrlKey e) = true ->
   In tabId (blueSelection (ui w'))) /\
  (mergeMode (ui w) = ModeRed ->
   shiftKey e || metaKey e = false -> ctrlKey e = false ->
   selections (ui (snd (mergeBtn_onclick w'))) =
     ([], redSelection (ui w), [tabId], ModeYellow)).
Proof.
  intros Hbadge w' blue. fold (click w) in w'.
  assert (Hstaged : includes (redSelection (ui w)) tabId
                    || includes (yellowSelection (ui w)) tabId = true).
  { revert Hbadge. unfold updateCardSelectionState.
    destruct (includes (redSelection (ui w)) tabId); [reflexivity|].
    destruct (includes (yellowSelection (ui w)) tabId); [reflexivity|].
    destruct (includes (blueSelection (ui w)) tabId); discriminate. }
  assert (Hblue : blueSelection (ui w') =
            (if shiftKey e || metaKey e then Array_from_Set (blue ++ [tabId])
             else if negb (ctrlKey e) then [tabId]
             else blue)).
  { unfold w'. rewrite click_blue. unfold after_card_click. rewrite Hstaged. reflexivity. }
  split; [|split; [|split; [|split]]].
  - intros ctrl meta. unfold card_click. unfold_script. cbn [ui].
    apply orb_true_iff in Hstaged. destruct Hstaged as [-> | ->];
      [|destruct (includes (redSelection (ui w)) tabId)]; reflexivity.
  - apply click_keeps_staged.
  - exact Hblue.
  - rewrite Hblue. destruct (shiftKey e || metaKey e).
    + intros _. apply (proj2 (Array_from_Set_spec _)), in_app_iff. right. left. reflexivity.
    + cbn [orb]. intros ->. left. reflexivity.
  - intros Hmode Hadd Hctrl. rewrite Hadd, Hctrl in Hblue. cbn [negb] in Hblue.
    assert (Hr : redSelection (ui w') = redSelection (ui w))
      by exact (f_equal (fun t => fst (fst t)) (click_keeps_staged w)).
    assert (Hm : mergeMode (ui w') = mergeMode (ui w))
      by exact (f_equal snd (click_keeps_staged w)).
    destruct (mergeBtn_onclick_selections w') as [_ Hsel]. cbn zeta in Hsel.
    rewrite Hsel, Hm, Hmode, Hblue, Hr. reflexivity.
Qed.

End CardClicks.

End Properties.

(** * The properties at concrete situations *)

Import Demo.

Lemma merge_stage3_seeds_and_appends_witness :
  mergeMode (ui target_staged) = ModeYellow /\
  redSelection (ui target_staged) ++ yellowSelection (ui target_staged) = [1; 4] /\
  (let w' := snd (mergeBtn_onclick target_staged) in
   Browser.shape (host w') = [(10, [2; 3]); (20, [5]); (21, [1; 4])] /\
   redSelection (ui w') = [] /\
   yellowSelection (ui w') = [] /\
   mergeMode (ui w') = ModeNull).
Proof.
  split; [reflexivity|]. split; [reflexivity|].
  edestruct (@merge_stage3_seeds_and_appends _ _ target_staged 1 [4]) as (Hrun & Hsel);
    [reflexivity | reflexivity | vm_compute; reflexivity | vm_compute; reflexivity |].
  split; [vm_compute; reflexivity | exact Hsel].
Defined.

Lemma merge_stage2_empty_current_notice_witness :
  mergeMode (ui source_staged_empty) = ModeRed /\
  blueSelection (ui source_staged_empty) = [] /\
  (let w' := snd (mergeBtn_onclick source_staged_empty) in
   trace w' = [TabsQuery "chrome-extension://tabmanager/ui.html"; Alert "No tabs selected"] /\
   mergeMode (ui w') = ModeRed /\
   redSelection (ui w') = [1] /\
   yellowSelection (ui w') = [] /\
   blueSelection (ui w') = []).
Proof.
  split; [reflexivity|]. split; [reflexivity|].
  exact (proj1 (merge_stage2_empty_current_notice source_staged_empty) eq_refl eq_refl).
Defined.

(** C6, as stated, fails: tab [2] is selected after the target was staged,
    the merge succeeds (the new window 21 holds [1, 4]), and Current still
    holds [2]. *)
Lemma merge_success_keeps_current_counterexample :
  let w' := snd (mergeBtn_onclick target_staged_then_selected) in
  blueSelection (ui target_staged_then_selected) = [2] /\
  fst (mergeBtn_onclick target_staged_then_selected) = Ok tt /\
  Browser.shape (host w') = [(10, [2; 3]); (20, [5]); (21, [1; 4])] /\
  redSelection (ui w') = [] /\
  yellowSelection (ui w') = [] /\
  blueSelection (ui w') = [2].
Proof. vm_compute. repeat split. Qed.

Lemma merge_success_clears_staged_only_witness :
  mergeMode (ui target_staged_then_selected) = ModeYellow /\
  (let w' := snd (mergeBtn_onclick target_staged_then_selected) in
   fst (mergeBtn_onclick target_staged_then_selected) = Ok tt /\
   redSelection (ui w') = [] /\
   yellowSelection (ui w') = [] /\
   mergeMode (ui w') = ModeNull /\
   blueSelection (ui w') = [2]).
Proof.
  split; [reflexivity|].
  eapply (@merge_success_clears_staged_only _ _ target_staged_then_selected 1 [4]);
    [reflexivity | reflexivity | vm_compute; reflexivity | vm_compute; reflexivity].
Defined.

Lemma split_click_witness :
  (* empty Current: the notice, and no window asked for *)
  trace (snd (splitBtn_onclick (idle_with []))) =
    [TabsQuery "chrome-extension://tabmanager/ui.html"; Alert "No tabs selected"] /\
  (* Current = [1, 4]: window 21 seeded with 1, then 4 appended *)
  (Browser.shape (host (snd (splitBtn_onclick (idle_with [1; 4])))) =
     [(10, [2; 3]); (20, [5]); (21, [1; 4])] /\
   blueSelection (ui (snd (splitBtn_onclick (idle_with [1; 4])))) = []) /\
  (* the browser throws on the creation *)
  blueSelection (ui (snd (splitBtn_onclick (offline_with [1])))) = [1] /\
  (* the seed tab is gone and another id remains *)
  (trace (snd (splitBtn_onclick stale_first)) =
     [TabsQuery "chrome-extension://tabmanager/ui.html"; WindowsCreate (Some 99);
      ConsoleError "Split failed:"; Alert "Split failed"] /\
   blueSelection (ui (snd (splitBtn_onclick stale_first))) = [99; 2]) /\
  (* the move is rejected *)
  blueSelection (ui (snd (splitBtn_onclick stale_second))) = [1; 99] /\
  (* the only selected tab is gone: no notice, and Current is emptied *)
  trace (snd (splitBtn_onclick stale_single)) =
    [TabsQuery "chrome-extension://tabmanager/ui.html"; WindowsCreate (Some 99);
     RenderWindowContent; RenderWindowTabs; AttachTopControls;
     TabsQuery "chrome-extension://tabmanager/ui.html"; WindowsGetAll;
     RenderWindowTabs; AttachTopControls;
     RenderWindowContent; RenderWindowTabs; AttachTopControls; AttachTopControls] /\
  blueSelection (ui (snd (splitBtn_onclick stale_single))) = [].
Proof.
  split.
  { rewrite (proj1 (split_click (idle_with [])) eq_refl). reflexivity. }
  split.
  { destruct (split_click (idle_with [1; 4])) as (_ & Hok & _).
    edestruct (Hok 1 [4]) as [Hrun Hblue];
      [reflexivity | vm_compute; reflexivity | vm_compute; reflexivity |].
    split; [rewrite Hrun; vm_compute; reflexivity | exact Hblue]. }
  split.
  { destruct (split_click (offline_with [1])) as (_ & _ & Hthrow & _).
    edestruct (Hthrow 1 []) as [_ Hblue]; [reflexivity | vm_compute; reflexivity |].
    exact Hblue. }
  split.
  { destruct (split_click stale_first) as (_ & _ & _ & Hundef & _).
    edestruct (Hundef 99 2 []) as [Hrun Hblue]; [reflexivity | vm_compute; reflexivity |].
    split; [rewrite Hrun; reflexivity | exact Hblue]. }
  split.
  { destruct (split_click stale_second) as (_ & _ & _ & _ & Hmove & _).
    edestruct (Hmove 1 99 []) as [_ Hblue];
      [reflexivity | vm_compute; reflexivity | vm_compute; reflexivity |].
    exact Hblue. }
  destruct (split_click stale_single) as (_ & _ & _ & _ & _ & Hsilent).
  edestruct (Hsilent 99) as (Hrun & Hblue & _);
    [reflexivity | vm_compute; reflexivity |].
  split; [rewrite Hrun; vm_compute; reflexivity | exact Hblue].
Defined.

(** C7, as stated, fails for Cmd: with only the meta key held the release
    adds the intersecting id [2] to Current instead of leaving it alone. *)
Lemma drag_release_meta_counterexample :
  let e := release false false true in
  let w := dragging_with [1] in
  metaKey e = true /\
  shiftKey e = false /\
  intersecting_ids (marquee_rect {| px := 0; py := 0 |} e) cards = [2] /\
  blueSelection (ui w) = [1] /\
  blueSelection (ui (snd (endDrag e cards w))) = [1; 2].
Proof. vm_compute. repeat split. Qed.

Lemma drag_release_updates_current_witness :
  (* Shift: union, the id 2 already in Current is not repeated *)
  blueSelection (ui (snd (endDrag (release true false false) cards (dragging_with [2; 1]))))
    = [2; 1] /\
  (* Cmd, and Ctrl with Shift: union *)
  blueSelection (ui (snd (endDrag (release false false true) cards (dragging_with [1]))))
    = [1; 2] /\
  blueSelection (ui (snd (endDrag (release true true false) cards (dragging_with [1]))))
    = [1; 2] /\
  (* no modifier: replace *)
  blueSelection (ui (snd (endDrag (release false false false) cards (dragging_with [1]))))
    = [2] /\
  (* Ctrl alone: ignored *)
  blueSelection (ui (snd (endDrag (release false true false) cards (dragging_with [1]))))
    = [1].
Proof.
  assert (Hsel : forall e, clientX e = 50 -> clientY e = 50 ->
            intersecting_ids (marquee_rect {| px := 0; py := 0 |} e) cards <> [])
    by (intros e Hx Hy; unfold marquee_rect; rewrite Hx, Hy; discriminate).
  pose (at_release := fun shift ctrl meta blue =>
    @drag_release_updates_current unit (dragging_with blue) (release shift ctrl meta)
      cards {| px := 0; py := 0 |} eq_refl eq_refl
      (Hsel (release shift ctrl meta) eq_refl eq_refl)).
  split.
  { destruct (at_release true false false [2; 1]) as (_ & _ & Hunion & _).
    destruct (Hunion eq_refl) as [Hblue _]. rewrite Hblue. reflexivity. }
  split.
  { destruct (at_release false false true [1]) as (_ & _ & Hunion & _).
    destruct (Hunion eq_refl) as [Hblue _]. rewrite Hblue. reflexivity. }
  split.
  { destruct (at_release true true false [1]) as (_ & _ & Hunion & _).
    destruct (Hunion eq_refl) as [Hblue _]. rewrite Hblue. reflexivity. }
  split.
  { destruct (at_release false false false [1]) as (_ & _ & _ & Hreplace & _).
    rewrite (Hreplace eq_refl eq_refl eq_refl). reflexivity. }
  destruct (at_release false true false [1]) as (_ & _ & _ & _ & Hignore).
  rewrite (Hignore eq_refl eq_refl eq_refl). reflexivity.
Defined.

(** C8, as stated, fails for a partial selection: of the tabs [1, 2, 3] of
    window 10 only tab 1 is in Current; the first toggle-click completes the
    selection, the second removes it, and tab 1 has lost its membership. *)
Lemma window_toggle_twice_partial_counterexample :
  let w := idle_with [1] in
  let w1 := snd (windowTab_click 10 true false w) in
  let w2 := snd (windowTab_click 10 true false w1) in
  option_map tab_ids (find_window 10 (windowsData (ui w))) = Some [1; 2; 3] /\
  blueSelection (ui w) = [1] /\
  blueSelection (ui w1) = [1; 2; 3] /\
  blueSelection (ui w2) = [].
Proof. vm_compute. repeat split. Qed.

Lemma window_toggle_twice_witness :
  let twice w := snd (windowTab_click 10 true false (snd (windowTab_click 10 true false w))) in
  (* all of window 10 selected, and tab 4 of window 20 *)
  (forall id, In id (blueSelection (ui (twice (idle_with [4; 3; 2; 1])))) <->
              In id [4; 3; 2; 1]) /\
  (* none of window 10 selected *)
  (forall id, In id (blueSelection (ui (twice (idle_with [4])))) <-> In id [4]) /\
  (* only tab 1 of window 10 selected *)
  (forall id, In id (blueSelection (ui (twice (idle_with [4; 1])))) <->
              In id [4; 1] /\ ~ In id [1; 2; 3]).
Proof.
  pose (at_state := fun blue =>
    @window_toggle_twice Browser.t (idle_with blue) 10 (Browser.window_of 10 [1; 2; 3])
      true false eq_refl eq_refl).
  split; [|split].
  - apply (proj1 (at_state [4; 3; 2; 1])). left.
    repeat constructor; simpl; tauto.
  - apply (proj1 (at_state [4])). right.
    repeat constructor; simpl; intros [Heq|[]]; discriminate.
  - apply (proj2 (at_state [4; 1])). intros Hall.
    apply Forall_inv_tail, Forall_inv in Hall. simpl in Hall.
    destruct Hall as [Heq|[Heq|[]]]; discriminate.
Defined.

Lemma refresh_leaves_selections_untouched_witness :
  (* the universe is the one of the cached snapshot *)
  (let w' := snd (loadWindowsAndTabs loaded) in
   ui w' = ui loaded /\
   trace w' = trace loaded ++ [TabsQuery "chrome-extension://tabmanager/ui.html";
                               WindowsGetAll]) /\
  (* the fetch fails *)
  (let w := offline_with [1] in
   let w' := snd (loadWindowsAndTabs w) in
   blueSelection (ui w') = [1] /\
   lastSnapshot (ui w') = lastSnapshot (ui w) /\
   windowsData (ui w') = windowsData (ui w) /\
   trace w' = [TabsQuery "ui.html"; WindowsGetAll; ConsoleError "Error loading windows:"]).
Proof.
  split.
  - destruct (refresh_leaves_selections_untouched loaded) as (_ & _ & _ & _ & _ & Hsame & _).
    edestruct Hsame as [_ Htrace]; [vm_compute; reflexivity | vm_compute; reflexivity |].
    split; [vm_compute; reflexivity | exact Htrace].
  - destruct (refresh_leaves_selections_untouched (offline_with [1]))
      as (_ & Hblue & _ & _ & _ & _ & Hfail).
    edestruct Hfail as [(Hlast & Hwd & _) Htrace]; [vm_compute; reflexivity |].
    repeat split; assumption.
Defined.

Lemma dblclick_appends_without_dedup_witness :
  let w' := snd (windowTab_dblclick 10 (idle_with [2])) in
  blueSelection (ui w') = [2; 1; 2; 3] /\
  (2 <= count_occ Z.eq_dec (blueSelection (ui w')) 2%Z)%nat /\
  redSelection (ui (snd (mergeBtn_onclick w'))) = [2; 1; 2; 3].
Proof.
  destruct (@dblclick_appends_without_dedup Browser.t _ (idle_with [2]) 10
              (Browser.window_of 10 [1; 2; 3]) eq_refl)
    as (Hblue & _ & Hcount & Hred & _).
  split; [exact Hblue|]. split.
  - apply Hcount; simpl; tauto.
  - rewrite Hred; [exact Hblue | discriminate | reflexivity].
Defined.

Lemma merge_all_click_witness :
  let page := "chrome-extension://tabmanager/ui.html" in
  let W1 := Window.mk 1 [Browser.ui_page 1 1] in
  let W2 := Browser.window_of 2 [2; 3] in
  let W3 := Browser.window_of 3 [] in
  (* the target: the page's window, the active window, the first window, none *)
  mergeAll_target (ui (refreshed before_merge_all)) = Some 1 /\
  mergeAll_target (ui (refreshed (idle_with []))) = Some 10 /\
  mergeAll_target (ui (refreshed no_active)) = Some 10 /\
  trace (snd (mergeAllBtn_onclick (start initial_state two_windows))) =
    [TabsQuery page; Alert "No target window to merge into"] /\
  (* W1 hosts the page, W2 = [2, 3], W3 = [] *)
  (let w' := snd (mergeAllBtn_onclick before_merge_all) in
   Browser.shape (host w') = [(1, [1; 2; 3]); (2, []); (3, [])] /\
   Browser.focused (host w') = Some 1) /\
  (* the mirror lists a window that is gone: window 2 stays merged, window 30
     is not looked at *)
  (let w' := snd (mergeAllBtn_onclick stale_mirror) in
   Browser.shape (host w') = [(1, [1; 2; 3]); (2, []); (30, [7])] /\
   trace w' = [TabsQuery page; WindowsGet 2; TabsMove [2; 3] 1 (-1);
               WindowsUpdateFocused 1; WindowsGet 9;
               ConsoleError "Merge All failed:"; Alert "Merge All failed"]) /\
  (* the loop, window by window *)
  mergeAll_loop 1 [W1] before_merge_all = (Ok tt, before_merge_all) /\
  trace (snd (mergeAll_loop 1 [W2; W3] before_merge_all)) =
    [WindowsGet 2; TabsMove [2; 3] 1 (-1); WindowsUpdateFocused 1; WindowsGet 3] /\
  trace (snd (mergeAll_loop 1 [W3; W2] before_merge_all)) =
    [WindowsGet 3; WindowsGet 2; TabsMove [2; 3] 1 (-1); WindowsUpdateFocused 1] /\
  trace (snd (mergeAll_loop 1 [Browser.window_of 9 [5]; W2] before_merge_all)) =
    [WindowsGet 9] /\
  trace (snd (mergeAll_loop 77 [W2; W3] before_merge_all)) =
    [WindowsGet 2; TabsMove [2; 3] 77 (-1)] /\
  trace (snd (mergeAll_loop 1 [W2; W3] in_kiosk)) =
    [WindowsGet 2; TabsMove [2; 3] 1 (-1); WindowsUpdateFocused 1] /\
  (* the refresh sorts the mirror *)
  map Window.id (windowsData (ui (snd (loadWindowsAndTabs (start initial_state unsorted)))))
    = [10; 20].
Proof.
  intros page W1 W2 W3.
  destruct (merge_all_click before_merge_all)
    as (Hpage & _ & _ & _ & _ & Hrun & Hloop & _).
  assert (Htarget : mergeAll_target (ui (refreshed before_merge_all)) = Some 1)
    by (apply (Hpage (Browser.ui_page 1 1) [] three_windows); by_running).
  split; [exact Htarget|].
  split.
  { destruct (merge_all_click (idle_with [])) as (_ & _ & Hactive & _).
    rewrite Hactive; by_running. }
  split.
  { destruct (merge_all_click no_active) as (_ & _ & _ & Hfirst & _).
    rewrite Hfirst; by_running. }
  split.
  { destruct (merge_all_click (start initial_state two_windows))
      as (_ & _ & _ & _ & Hnone & _).
    rewrite Hnone; by_running. }
  split.
  { rewrite (Hrun 1 Htarget); [|by_running]. vm_compute. split; reflexivity. }
  split.
  { destruct (merge_all_click stale_mirror) as (_ & Hknown & _ & _ & _ & Hstale & _).
    rewrite (Hstale 1); [| by_running | by_running]. vm_compute. split; reflexivity. }
  split.
  { destruct (Hloop 1 W1 [] before_merge_all) as (Hnil & Hskip & _).
    rewrite Hskip; [exact Hnil | reflexivity]. }
  split.
  { destruct (Hloop 1 W2 [W3] before_merge_all) as (_ & _ & Hother).
    destruct Hother as (_ & Hfetched); [by_running|].
    edestruct Hfetched as (_ & Htabs); [by_running|].
    destruct Htabs as (_ & Hmoved); [by_running | by_running |].
    edestruct Hmoved as (_ & Hfocused); [by_running|].
    erewrite Hfocused by by_running. vm_compute. reflexivity. }
  split.
  { destruct (Hloop 1 W3 [W2] before_merge_all) as (_ & _ & Hother).
    destruct Hother as (_ & Hfetched); [by_running|].
    edestruct Hfetched as (Hempty & _); [by_running|].
    rewrite Hempty by by_running. vm_compute. reflexivity. }
  split.
  { destruct (Hloop 1 (Browser.window_of 9 [5]) [W2] before_merge_all) as (_ & _ & Hother).
    destruct Hother as (Hgone & _); [by_running|].
    erewrite Hgone by by_running. reflexivity. }
  split.
  { destruct (Hloop 77 W2 [W3] before_merge_all) as (_ & _ & Hother).
    destruct Hother as (_ & Hfetched); [by_running|].
    edestruct Hfetched as (_ & Htabs); [by_running|].
    destruct Htabs as (Hrejected & _); [by_running | by_running |].
    erewrite Hrejected by by_running. reflexivity. }
  split.
  { destruct (merge_all_click in_kiosk) as (_ & _ & _ & _ & _ & _ & Hkiosk & _).
    destruct (Hkiosk 1 W2 [W3] in_kiosk) as (_ & _ & Hother).
    destruct Hother as (_ & Hfetched); [by_running|].
    edestruct Hfetched as (_ & Htabs); [by_running|].
    destruct Htabs as (_ & Hmoved); [by_running | by_running |].
    edestruct Hmoved as (Hrefused & _); [by_running|].
    erewrite Hrefused by by_running. reflexivity. }
  destruct (merge_all_click (start initial_state unsorted))
    as (_ & _ & _ & _ & _ & _ & _ & Hsorted).
  edestruct Hsorted as (Hmirror & _); [by_running | by_running |].
  rewrite Hmirror. reflexivity.
Defined.

Lemma gestures_leave_browser_and_mirror_alone_witness :
  is_gesture (Keydown "Escape") = true /\
  host (snd (handle (Keydown "Escape") target_staged)) = host target_staged /\
  mirror (ui (snd (handle (Keydown "Escape") target_staged))) = mirror (ui target_staged) /\
  uiWindowId (ui (snd (handle (Keydown "Escape") target_staged))) =
    uiWindowId (ui target_staged).
Proof.
  split; [reflexivity|].
  destruct (@gestures_leave_browser_and_mirror_alone Browser.t _ (Keydown "Escape") eq_refl)
    as (Hhost & _ & Hmirror & Hpage).
  split; [exact (Hhost target_staged)|].
  split; [exact (Hmirror target_staged) | exact (Hpage target_staged)].
Defined.

Lemma gestures_leave_staging_alone_witness :
  is_gesture (Keydown "Enter") = true /\
  Keydown "Enter" <> Keydown "Escape" /\
  handle (Keydown "Enter") target_staged = (Ok tt, target_staged) /\
  is_gesture (WindowTabDblclick 20) = true /\
  blueSelection (ui (snd (handle (WindowTabDblclick 20) target_staged))) = [4; 5] /\
  staged (ui (snd (handle (WindowTabDblclick 20) target_staged))) = ([1], [4], ModeYellow).
Proof.
  assert (Hkey : Keydown "Enter" <> Keydown "Escape") by discriminate.
  assert (Hdbl : WindowTabDblclick 20 <> Keydown "Escape") by discriminate.
  split; [reflexivity|]. split; [exact Hkey|].
  split; [exact (proj2 (@gestures_leave_staging_alone Browser.t _ (Keydown "Enter")
                          eq_refl Hkey) "Enter" eq_refl target_staged)|].
  split; [reflexivity|]. split; [vm_compute; reflexivity|].
  exact (proj1 (@gestures_leave_staging_alone Browser.t _ (WindowTabDblclick 20)
                  eq_refl Hdbl) target_staged).
Defined.

Lemma modifier_clicks_on_card_witness :
  button (click_card2 false false true) = 0 /\
  on_close_btn (click_card2 false false true) = false /\
  under_pointer (click_card2 false false true) cards = [2] /\
  includes (redSelection (ui (idle_with [1]))) 2 = false /\
  includes (yellowSelection (ui (idle_with [1]))) 2 = false /\
  (* a Cmd-click on the card of tab 2, not selected: tab 2 is not added *)
  blueSelection
    (ui (run (card_click_gesture (click_card2 false false true) cards 2) (idle_with [1])))
    = [1] /\
  ~ In 2 (blueSelection
            (ui (Nat.iter 1 (run (card_click_gesture (click_card2 false false true) cards 2))
                   (idle_with [1])))) /\
  (* a Ctrl-click adds it *)
  blueSelection
    (ui (run (card_click_gesture (click_card2 false true false) cards 2) (idle_with [1])))
    = [1; 2] /\
  (In 2 (blueSelection
           (ui (Nat.iter 1 (run (card_click_gesture (click_card2 false true false) cards 2))
                  (idle_with [1])))) <->
   ~ In 2 (blueSelection (ui (idle_with [1])))).
Proof.
  do 5 (split; [reflexivity|]).
  split; [vm_compute; reflexivity|].
  split.
  { destruct (@modifier_clicks_on_card Browser.t _ (click_card2 false false true) cards 2
                eq_refl eq_refl eq_refl (idle_with [1]) eq_refl eq_refl)
      as (_ & _ & _ & Hout & _).
    exact (Hout eq_refl eq_refl 1%nat (le_n 1)). }
  split; [vm_compute; reflexivity|].
  destruct (@modifier_clicks_on_card Browser.t _ (click_card2 false true false) cards 2
              eq_refl eq_refl eq_refl (idle_with [1]) eq_refl eq_refl)
    as (_ & _ & Hflip & _).
  exact (Hflip eq_refl eq_refl eq_refl 1%nat).
Defined.

Lemma clicks_on_staged_card_witness :
  button (click_card2 false false false) = 0 /\
  on_close_btn (click_card2 false false false) = false /\
  under_pointer (click_card2 false false false) cards = [2] /\
  (* tab 2 is staged as Source *)
  updateCardSelectionState (ui source_2_staged) 2 = (Some Red, true) /\
  card_click 2 false false source_2_staged = (Ok tt, source_2_staged) /\
  (* a plain click on its card makes it Current all the same *)
  blueSelection
    (ui (run (card_click_gesture (click_card2 false false false) cards 2) source_2_staged))
    = [2] /\
  (* and the next Merge click stages it as Target too *)
  selections
    (ui (snd (mergeBtn_onclick
                (run (card_click_gesture (click_card2 false false false) cards 2)
                   source_2_staged))))
    = ([], [2], [2], ModeYellow).
Proof.
  do 4 (split; [reflexivity|]).
  destruct (@clicks_on_staged_card Browser.t _ (click_card2 false false false) cards 2
              eq_refl eq_refl eq_refl source_2_staged eq_refl)
    as (Hignored & _ & Hblue & _ & Hmerge).
  split; [exact (Hignored false false)|].
  split; [exact Hblue|].
  exact (Hmerge eq_refl eq_refl eq_refl).
Defined.


Lemma rectsIntersect_iff_common_point_witness :
  well_formed {| left := 0; top := 0; right := 50; bottom := 50 |} /\
  well_formed {| left := 50; top := 50; right := 90; bottom := 90 |} /\
  (rectsIntersect {| left := 0; top := 0; right := 50; bottom := 50 |}
                  {| left := 50; top := 50; right := 90; bottom := 90 |} = true <->
   exists x y,
     contains {| left := 0; top := 0; right := 50; bottom := 50 |} x y /\
     contains {| left := 50; top := 50; right := 90; bottom := 90 |} x y).
Proof.
  assert (Ha : well_formed {| left := 0; top := 0; right := 50; bottom := 50 |})
    by (unfold well_formed; cbn; lia).
  assert (Hb : well_formed {| left := 50; top := 50; right := 90; bottom := 90 |})
    by (unfold well_formed; cbn; lia).
  split; [exact Ha|]. split; [exact Hb|].
  exact (proj2 (rectsIntersect_iff_common_point _ _) Ha Hb).
Defined.

Lemma marquee_picks_cards_sharing_a_point_witness :
  Forall (fun c => well_formed (card_rect c)) cards /\
  intersecting_ids (marquee_rect {| px := 0; py := 0 |} (release false false false)) cards
    = [2] /\
  (In 2 (intersecting_ids
           (marquee_rect {| px := 0; py := 0 |} (release false false false)) cards) <->
   exists c x y,
     In c cards /\ card_tabId c = 2 /\
     contains (marquee_rect {| px := 0; py := 0 |} (release false false false)) x y /\
     contains (card_rect c) x y).
Proof.
  assert (Hcards : Forall (fun c => well_formed (card_rect c)) cards)
    by (repeat constructor; cbn; lia).
  split; [exact Hcards|]. split; [reflexivity|].
  destruct (marquee_picks_cards_sharing_a_point {| px := 0; py := 0 |}
              (release false false false) cards) as (_ & _ & _ & _ & Hpicks).
  exact (proj1 (Hpicks Hcards) 2).
Defined.

Lemma union_release_appends_new_ids_witness :
  isDragging (ui (dragging_with [3; 1])) = true /\
  dragStart (ui (dragging_with [3; 1])) = Some {| px := 0; py := 0 |} /\
  NoDup (blueSelection (ui (dragging_with [3; 1]))) /\
  blueSelection (ui (snd (endDrag (release true false false) cards (dragging_with [3; 1]))))
    = [3; 1; 2] /\
  (exists added,
     blueSelection
       (ui (snd (endDrag (release true false false) cards (dragging_with [3; 1])))) =
     blueSelection (ui (dragging_with [3; 1])) ++ added /\
     NoDup added).
Proof.
  assert (Hnd : NoDup (blueSelection (ui (dragging_with [3; 1]))))
    by (cbn; repeat constructor; cbn; lia).
  split; [reflexivity|]. split; [reflexivity|]. split; [exact Hnd|].
  split; [vm_compute; reflexivity|].
  destruct (@union_release_appends_new_ids unit (dragging_with [3; 1])
              (release true false false) cards {| px := 0; py := 0 |}
              eq_refl eq_refl eq_refl Hnd) as ((added & Happ & Hadded & _) & _).
  exists added. split; [exact Happ | exact Hadded].
Defined.

Lemma refreshUiWindowId_locates_or_keeps_witness :
  (* the page is found in window 1 *)
  uiWindowId (ui before_merge_all) = None /\
  fst (refreshUiWindowId before_merge_all) = Ok (Some 1) /\
  (* the browser rejects the query: the last known window is kept *)
  uiWindowId (ui (snd (refreshUiWindowId (offline_with [1])))) =
    uiWindowId (ui (offline_with [1])).
Proof.
  split; [reflexivity|].
  destruct (@refreshUiWindowId_locates_or_keeps Browser.t _ before_merge_all)
    as (Hret & _ & _ & _ & Hfound & _).
  split.
  - rewrite Hret, (Hfound (Browser.ui_page 1 1) [] eq_refl). reflexivity.
  - destruct (@refreshUiWindowId_locates_or_keeps unit _ (offline_with [1]))
      as (_ & _ & _ & _ & _ & Hkept).
    apply Hkept. right. right. eexists. reflexivity.
Defined.

Lemma merge_stage3_failure_witness :
  mergeMode (ui offline_staged) = ModeYellow /\
  redSelection (ui offline_staged) ++ yellowSelection (ui offline_staged) = [1; 4] /\
  fst (mergeBtn_onclick offline_staged) = Ok tt /\
  selections (ui (snd (mergeBtn_onclick offline_staged))) = ([], [], [], ModeNull) /\
  trace (snd (mergeBtn_onclick offline_staged)) =
    [TabsQuery "ui.html"; WindowsCreate (Some 1);
     ConsoleError "Merge failed:"; Alert "Merge failed";
     RenderWindowContent; RenderWindowTabs; AttachTopControls].
Proof.
  split; [reflexivity|]. split; [reflexivity|].
  destruct (@merge_stage3_failure unit _ offline_staged 1 [4] eq_refl eq_refl)
    as (Hthrow & _ & _).
  rewrite (Hthrow "Extension context invalidated." tt eq_refl).
  repeat split.
Defined.

Lemma reachable_controls_never_open_blank_window_witness :
  is_modal MergeClick = false /\
  (* the run has staged Source and Target *)
  selections (ui (run staging_run (start initial_state two_windows))) =
    ([], [1], [4], ModeYellow) /\
  (exists recorded,
     trace (snd (handle MergeClick (run staging_run (start initial_state two_windows)))) =
       trace (run staging_run (start initial_state two_windows)) ++ recorded /\
     ~ In (WindowsCreate None) recorded).
Proof.
  split; [reflexivity|]. split; [vm_compute; reflexivity|].
  exact (@reachable_controls_never_open_blank_window Browser.t _ two_windows staging_run
           MergeClick eq_refl).
Defined.

Lemma refresh_assigns_active_window_once_witness :
  windows_getAll (host (refreshed (start initial_state unsorted))) =
    (Ok (Browser.windows unsorted), unsorted) /\
  activeWindowId (ui (start initial_state unsorted)) = None /\
  activeWindowId (ui (snd (loadWindowsAndTabs (start initial_state unsorted)))) = Some 10.
Proof.
  split; [reflexivity|]. split; [reflexivity|].
  destruct (@refresh_assigns_active_window_once Browser.t _ (start initial_state unsorted)
              (Browser.windows unsorted) unsorted) as (_ & Hunset & _);
    [reflexivity | reflexivity |].
  exact (proj1 (Hunset eq_refl (Browser.window_of 10 [1; 2; 3])
                  [Browser.window_of 20 [4; 5]] eq_refl)).
Defined.

Lemma refresh_ignores_listing_order_witness :
  lastSnapshot (ui relisted) =
    Some (snapshot_of (sort_windows (Browser.windows two_windows))) /\
  NoDup (map Window.id (Browser.windows two_windows)) /\
  Permutation (Browser.windows two_windows) (Browser.windows unsorted) /\
  loadWindowsAndTabs relisted =
    (Ok tt,
     mkWorld (ui relisted) unsorted
       [TabsQuery "chrome-extension://tabmanager/ui.html"; WindowsGetAll]).
Proof.
  assert (Hnd : NoDup (map Window.id (Browser.windows two_windows)))
    by (cbn; repeat constructor; cbn; lia).
  assert (Hperm : Permutation (Browser.windows two_windows) (Browser.windows unsorted))
    by apply perm_swap.
  split; [vm_compute; reflexivity|]. split; [exact Hnd|]. split; [exact Hperm|].
  rewrite (@refresh_ignores_listing_order Browser.t _ relisted
             (Browser.windows two_windows) (Browser.windows unsorted) unsorted);
    [vm_compute; reflexivity | vm_compute; reflexivity | exact Hnd | exact Hperm
    | vm_compute; reflexivity].
Defined.

Lemma modal_split_needs_two_tabs_witness :
  (* no window 99 *)
  splitCurrentWindow 99 "others-to-new" before_merge_all =
    (Throw "No window with id", after_calls before_merge_all three_windows [WindowsGet 99]) /\
  (* window 1 holds the extension page only *)
  splitCurrentWindow 1 "active-to-new" before_merge_all =
    (Ok tt, after_calls before_merge_all three_windows
              [WindowsGet 1; Alert "Not enough tabs to split"]).
Proof.
  split.
  - exact (proj1 (@modal_split_needs_two_tabs Browser.t _ before_merge_all 99
                    "others-to-new") _ _ eq_refl).
  - refine (proj2 (@modal_split_needs_two_tabs Browser.t _ before_merge_all 1
                     "active-to-new") (Window.mk 1 [Browser.ui_page 1 1]) _ eq_refl _).
    cbn. lia.
Defined.

Lemma modal_split_call_profile_witness :
  windows_get 10 (host (idle_with [])) = (Ok (Browser.window_of 10 [1; 2; 3]), two_windows) /\
  NoDup (tab_ids (Browser.window_of 10 [1; 2; 3])) /\
  active_or_first (Window.tabs (Browser.window_of 10 [1; 2; 3])) = Some (Browser.page 1 10) /\
  (* the other tabs go to the new window 21, tab 1 stays *)
  Browser.shape (host (snd (splitCurrentWindow 10 "others-to-new" (idle_with [])))) =
    [(10, [1]); (20, [4; 5]); (21, [2; 3])] /\
  (exists more,
     trace (snd (splitCurrentWindow 10 "others-to-new" (idle_with []))) =
       trace (idle_with []) ++ WindowsGet 10 :: WindowsCreate (Some 2) :: more /\
     forallb (follows_split [3]) more = true) /\
  (exists more,
     trace (snd (splitCurrentWindow 10 "active-to-new" (idle_with []))) =
       trace (idle_with []) ++ WindowsGet 10 :: WindowsCreate (Some 1) :: more /\
     forallb is_read_or_redraw more = true).
Proof.
  assert (Hnd : NoDup (tab_ids (Browser.window_of 10 [1; 2; 3])))
    by (cbn; repeat constructor; cbn; lia).
  split; [reflexivity|]. split; [exact Hnd|]. split; [reflexivity|].
  split; [vm_compute; reflexivity|].
  destruct (@modal_split_call_profile Browser.t _ (idle_with []) 10
              (Browser.window_of 10 [1; 2; 3]) two_windows (Browser.page 1 10))
    as (_ & _ & (first & rest & more & Hothers & Htrace & Hall) & Hactive & _);
    [reflexivity | cbn; lia | exact Hnd | reflexivity |].
  split; [|exact Hactive].
  injection Hothers as <- <-. exists more. split; [exact Htrace | exact Hall].
Defined.

Lemma header_colour_after_gesture_witness :
  find_window 10 (windowsData (ui (idle_with [1; 2; 3]))) =
    Some (Browser.window_of 10 [1; 2; 3]) /\
  (* all of window 10 is in Current: its header is blue *)
  window_tab_colour (ui (idle_with [1; 2; 3])) (Browser.window_of 10 [1; 2; 3]) = Some Blue /\
  window_tab_colour (ui (snd (windowTab_click 10 true false (idle_with [1; 2; 3]))))
    (Browser.window_of 10 [1; 2; 3]) = None /\
  window_tab_colour (ui (snd (windowTab_dblclick 10 (idle_with [1; 2; 3]))))
    (Browser.window_of 10 [1; 2; 3]) = Some Blue.
Proof.
  split; [reflexivity|]. split; [reflexivity|].
  exact (@header_colour_after_gesture Browser.t (idle_with [1; 2; 3]) 10
           (Browser.window_of 10 [1; 2; 3]) true false eq_refl eq_refl).
Defined.

Lemma refresh_redraws_iff_ids_changed_witness :
  lastSnapshot (ui retitled) =
    Some (snapshot_of (sort_windows (Browser.windows two_windows))) /\
  (* another title and another active tab: nothing is redrawn, the mirror
     still shows the old title *)
  trace (snd (loadWindowsAndTabs retitled)) =
    [TabsQuery "chrome-extension://tabmanager/ui.html"; WindowsGetAll] /\
  windowsData (ui (snd (loadWindowsAndTabs retitled))) = Browser.windows two_windows /\
  (* another order of the tabs: the mirror follows *)
  windowsData (ui (snd (loadWindowsAndTabs reordered))) =
    [Browser.window_of 10 [1; 3; 2]; Browser.window_of 20 [4; 5]].
Proof.
  split; [vm_compute; reflexivity|].
  destruct (@refresh_redraws_iff_ids_changed Browser.t _ retitled
              (sort_windows (Browser.windows two_windows))
              (Browser.windows (host retitled)) (host retitled))
    as (Hsame & _); [vm_compute; reflexivity | vm_compute; reflexivity |].
  rewrite (Hsame eq_refl).
  split; [reflexivity|]. split; [vm_compute; reflexivity|].
  destruct (@refresh_redraws_iff_ids_changed Browser.t _ reordered
              (sort_windows (Browser.windows two_windows))
              (Browser.windows (host reordered)) (host reordered))
    as (_ & Hchanged); [vm_compute; reflexivity | vm_compute; reflexivity |].
  destruct Hchanged as (Hmirror & _).
  - vm_compute. discriminate.
  - rewrite Hmirror. reflexivity.
Defined.

Lemma listeners_never_throw_witness :
  is_modal (Mousemove (release false false false)) = false /\
  is_modal (Mouseup (release false false false) cards) = false /\
  (* a press has started a drag *)
  isDragging (ui (run [HostChanged; Mousedown press] (start initial_state two_windows)))
    = true /\
  fst (handle (Mousemove (release false false false))
         (run [HostChanged; Mousedown press] (start initial_state two_windows))) = Ok tt /\
  fst (handle (Mouseup (release false false false) cards)
         (run [HostChanged; Mousedown press] (start initial_state two_windows))) = Ok tt.
Proof.
  split; [reflexivity|]. split; [reflexivity|]. split; [vm_compute; reflexivity|].
  split.
  - exact (@listeners_never_throw Browser.t _ two_windows [HostChanged; Mousedown press]
             (Mousemove (release false false false)) eq_refl).
  - exact (@listeners_never_throw Browser.t _ two_windows [HostChanged; Mousedown press]
             (Mouseup (release false false false) cards) eq_refl).
Defined.
